(** * Presence registry and socket handlers of the chat application

    Shallow embedding of [Task_2_chat_app/app.py]: the module-level
    dictionary [active_users], the Socket.IO handlers [handle_connect],
    [handle_disconnect], [handle_join], [handle_leave], [handle_message]
    and [handle_image], and the effects they perform (emits, database
    commits).  Handlers are written in a small state / trace / exception
    monad so that each line of the Python body has a counterpart. *)

From Stdlib Require Import List String Ascii ZArith Lia Bool Arith.
From Stdlib Require Import DecimalString.
Import ListNotations.
Open Scope string_scope.
Open Scope list_scope.

(** ** Python values and ordered dictionaries *)

(** A room identifier as it arrives in an event payload: JSON integer or
    JSON string. *)
Inductive PyVal : Type :=
| PInt (z : Z)
| PStr (s : string).

(** Python's [str(v)]. *)
Definition py_str (v : PyVal) : string :=
  match v with
  | PInt z => NilZero.string_of_int (Z.to_int z)
  | PStr s => s
  end.

Definition PyVal_eqb (a b : PyVal) : bool :=
  match a, b with
  | PInt x, PInt y => Z.eqb x y
  | PStr x, PStr y => String.eqb x y
  | _, _ => false
  end.

(** A Python [dict] with string keys.  Python dictionaries keep insertion
    order, assignment to an existing key keeps the key's position, and
    [list(d.values())] follows that order, so the dictionary is an
    association list and not a finite map. *)
Module Dict.
Section Ops.
Context {V : Type}.

Definition t := list (string * V).

Definition empty : t := [].

(** [d.get(k)] / [d[k]] *)
Fixpoint get (k : string) (d : t) : option V :=
  match d with
  | [] => None
  | (k', v) :: d' => if String.eqb k k' then Some v else get k d'
  end.

(** [k in d] *)
Definition mem (k : string) (d : t) : bool :=
  match get k d with Some _ => true | None => false end.

(** [d[k] = v] *)
Fixpoint set (k : string) (v : V) (d : t) : t :=
  match d with
  | [] => [(k, v)]
  | (k', v') :: d' =>
      if String.eqb k k' then (k', v) :: d' else (k', v') :: set k v d'
  end.

(** [del d[k]] (the callers test [k in d] first) *)
Fixpoint del (k : string) (d : t) : t :=
  match d with
  | [] => []
  | (k', v') :: d' =>
      if String.eqb k k' then d' else (k', v') :: del k d'
  end.

(** [list(d.keys())] *)
Definition keys (d : t) : list string := map fst d.

(** [list(d.values())] *)
Definition values (d : t) : list V := map snd d.

(** Position of a key in iteration order. *)
Fixpoint index (k : string) (d : t) : option nat :=
  match d with
  | [] => None
  | (k', _) :: d' =>
      if String.eqb k k' then Some 0
      else option_map S (index k d')
  end.

(** Keys of a dictionary are pairwise distinct. *)
Definition wf (d : t) : Prop := NoDup (keys d).
End Ops.
Arguments t : clear implicits.
End Dict.

(** ** Sessions, database rows, events *)

Abbreviation Sid := string (only parsing).

(** The Flask session bound to a connection by the login flow.  [login]
    stores both keys; a socket may also connect without having logged in
    ([handle_connect] tests ['username' in session]). *)
Record Session : Type := mkSession {
  username : option string;
  user_id : option nat
}.

(** models.py: [Room] and [Message] rows. *)
Record Room : Type := mkRoom {
  room_pk : nat;
  room_name : string
}.

Record Message : Type := mkMessage {
  msg_id : nat;
  msg_content : string;
  msg_content_type : string;
  msg_timestamp : string;
  msg_user_id : nat;
  msg_room_id : PyVal
}.

Record Db : Type := mkDb {
  rooms : list Room;
  messages : list Message
}.

(** What [db.session.commit()] does for one inserted message: the store
    assigns the primary key and the server timestamp, or the commit
    raises. *)
Inductive CommitOutcome : Type :=
| CommitOk (id : nat) (ts : string)
| CommitFails.

(** Payload dictionaries handed to [emit]. *)
Inductive Payload : Type :=
| Notification (message : string) (type : string)
| UserListUpdate (users : list string) (count : nat)
| NewMessage (id : nat) (content : string) (content_type : string)
             (timestamp : string) (uname : string) (uid : nat)
| Error (message : string).

(** [emit(..., room=r)] fans out to a room; [emit(...)] without [room]
    answers the originating connection only. *)
Inductive Target : Type :=
| ToRoom (r : PyVal)
| ToSender (sid : Sid).

Inductive Effect : Type :=
| Emit (to : Target) (p : Payload)
| Persist (m : Message).

Inductive Exc : Type :=
| KeyError (k : string)
| ValueError
| DecodeError
| SQLAlchemyError.

(** Process state: the module-level [active_users], the Socket.IO room
    subscriptions managed by [join_room] / [leave_room], the database. *)
Record World : Type := mkWorld {
  active_users : Dict.t (Dict.t string);
  sio_rooms : list (Sid * string);
  db : Db
}.

Definition init_world (d : Db) : World := mkWorld Dict.empty [] d.

(** ** The handler monad: state, effect trace, exceptions *)

Definition M (A : Type) : Type := World -> World * list Effect * (Exc + A).

Definition ret {A} (a : A) : M A := fun w => (w, [], inr a).

Definition bind {A B} (m : M A) (f : A -> M B) : M B :=
  fun w =>
    match m w with
    | (w1, t1, inl e) => (w1, t1, inl e)
    | (w1, t1, inr a) =>
        match f a w1 with
        | (w2, t2, r) => (w2, t1 ++ t2, r)
        end
    end.

Definition raise {A} (e : Exc) : M A := fun w => (w, [], inl e).

(** [try: m except Exception: h] *)
Definition try_except {A} (m : M A) (h : Exc -> M A) : M A :=
  fun w =>
    match m w with
    | (w1, t1, inl e) =>
        match h e w1 with
        | (w2, t2, r) => (w2, t1 ++ t2, r)
        end
    | r => r
    end.

Definition get_world : M World := fun w => (w, [], inr w).
Definition put_active_users (au : Dict.t (Dict.t string)) : M unit :=
  fun w => (mkWorld au (sio_rooms w) (db w), [], inr tt).
Definition put_sio_rooms (s : list (Sid * string)) : M unit :=
  fun w => (mkWorld (active_users w) s (db w), [], inr tt).
Definition put_db (d : Db) : M unit :=
  fun w => (mkWorld (active_users w) (sio_rooms w) d, [], inr tt).
Definition emit (p : Payload) (to : Target) : M unit :=
  fun w => (w, [Emit to p], inr tt).
Definition log (e : Effect) : M unit := fun w => (w, [e], inr tt).

Declare Scope handler_scope.
Delimit Scope handler_scope with handler.
Notation "x <- m ;; k" := (bind m (fun x => k))
  (at level 61, m at next level, right associativity) : handler_scope.
Notation "m ;;; k" := (bind m (fun _ => k))
  (at level 61, right associativity) : handler_scope.
Open Scope handler_scope.

(** [session[k]]: raises [KeyError] when the key is missing. *)
Definition session_username (s : Session) : M string :=
  match username s with Some u => ret u | None => raise (KeyError "username") end.
Definition session_user_id (s : Session) : M nat :=
  match user_id s with Some u => ret u | None => raise (KeyError "user_id") end.

(** [d[k]] on a dictionary held in a local. *)
Definition lookup {V} (k : string) (d : Dict.t V) : M V :=
  match Dict.get k d with Some v => ret v | None => raise (KeyError k) end.

(** [for x in xs: body(x)] *)
Fixpoint for_each {A} (xs : list A) (body : A -> M unit) : M unit :=
  match xs with
  | [] => ret tt
  | x :: xs' => body x ;;; for_each xs' body
  end.

(** ** Socket.IO room subscriptions ([join_room] / [leave_room]) *)

Definition sub_eqb (a b : Sid * string) : bool :=
  String.eqb (fst a) (fst b) && String.eqb (snd a) (snd b).

Definition join_room (sid : Sid) (room : string) : M unit :=
  w <- get_world ;;
  if existsb (sub_eqb (sid, room)) (sio_rooms w) then ret tt
  else put_sio_rooms (sio_rooms w ++ [(sid, room)]).

Definition leave_room (sid : Sid) (room : string) : M unit :=
  w <- get_world ;;
  put_sio_rooms (filter (fun s => negb (sub_eqb (sid, room) s)) (sio_rooms w)).

(** ** Event payloads received from the client *)

Record JoinData : Type := mkJoinData { jd_room_id : PyVal }.

Record MessageData : Type := mkMessageData {
  md_room_id : PyVal;
  md_content : string;
  md_content_type : option string   (* absent key: [data.get(.., 'text')] *)
}.

Record ImageData : Type := mkImageData {
  id_room_id : PyVal;
  id_image : string
}.

(** ** The handlers *)

(** [handle_connect]: only prints. *)
Definition handle_connect (sess : Session) (sid : Sid) : M unit :=
  match username sess with
  | Some _ => ret tt
  | None => ret tt
  end.

(** Body of the loop of [handle_disconnect] for one key of the snapshot
    [list(active_users.keys())]. *)
Definition disconnect_room (sid : Sid) (room_id : string) : M unit :=
  w <- get_world ;;
  members <- lookup room_id (active_users w) ;;
  if Dict.mem sid members then
    uname <- lookup sid members ;;
    let members' := Dict.del sid members in
    put_active_users (Dict.set room_id members' (active_users w)) ;;;
    let users_in_room := Dict.values members' in
    emit (Notification (uname ++ " has disconnected")%string "leave")
         (ToRoom (PStr room_id)) ;;;
    emit (UserListUpdate users_in_room (List.length users_in_room))
         (ToRoom (PStr room_id))
  else ret tt.

Definition handle_disconnect (sess : Session) (sid : Sid) : M unit :=
  match username sess with
  | Some _ =>
      w <- get_world ;;
      for_each (Dict.keys (active_users w)) (disconnect_room sid)
  | None => ret tt
  end.

Definition handle_join (sess : Session) (sid : Sid) (data : JoinData) : M unit :=
  let room_id := py_str (jd_room_id data) in
  join_room sid room_id ;;;
  _ <- session_username sess ;;                       (* print(f"User {..}") *)
  w <- get_world ;;
  let au := if Dict.mem room_id (active_users w) then active_users w
            else Dict.set room_id Dict.empty (active_users w) in
  put_active_users au ;;;
  members <- lookup room_id au ;;
  uname <- session_username sess ;;
  let members' := Dict.set sid uname members in
  put_active_users (Dict.set room_id members' au) ;;;
  let users_in_room := Dict.values members' in
  uname' <- session_username sess ;;
  emit (Notification (uname' ++ " has joined the room")%string "join")
       (ToRoom (PStr room_id)) ;;;
  emit (UserListUpdate users_in_room (List.length users_in_room))
       (ToRoom (PStr room_id)).

Definition handle_leave (sess : Session) (sid : Sid) (data : JoinData) : M unit :=
  let room_id := py_str (jd_room_id data) in
  leave_room sid room_id ;;;
  _ <- session_username sess ;;                       (* print(f"User {..}") *)
  w <- get_world ;;
  let au :=
    match Dict.get room_id (active_users w) with
    | Some members =>
        if Dict.mem sid members
        then Dict.set room_id (Dict.del sid members) (active_users w)
        else active_users w
    | None => active_users w
    end in
  put_active_users au ;;;
  let users_in_room :=
    Dict.values (match Dict.get room_id au with
                 | Some members => members
                 | None => Dict.empty
                 end) in
  uname <- session_username sess ;;
  emit (Notification (uname ++ " has left the room")%string "leave")
       (ToRoom (PStr room_id)) ;;;
  emit (UserListUpdate users_in_room (List.length users_in_room))
       (ToRoom (PStr room_id)).

(** A Python [str] is a sequence of code points.  It is represented by its
    UTF-8 encoding, one [ascii] per byte, so that a slice or a length
    counts the bytes that start a code point, that is, all bytes but the
    continuation bytes (those of the form 10xxxxxx). *)
Definition is_continuation (c : ascii) : bool :=
  match c with
  | Ascii _ _ _ _ _ _ b6 b7 => b7 && negb b6
  end.

(** [s[:n]]: the first [n] code points of [s]. *)
Fixpoint py_prefix (n : nat) (s : string) : string :=
  match s with
  | EmptyString => EmptyString
  | String c s' =>
      if is_continuation c then String c (py_prefix n s')
      else match n with
           | 0 => EmptyString
           | S n' => String c (py_prefix n' s')
           end
  end.

(** [len(s)]: the number of code points of [s]. *)
Fixpoint py_len (s : string) : nat :=
  match s with
  | EmptyString => 0
  | String c s' => if is_continuation c then py_len s' else S (py_len s')
  end.

(** [s * n] *)
Fixpoint py_repeat (s : string) (n : nat) : string :=
  match n with
  | 0 => EmptyString
  | S n' => (s ++ py_repeat s n')%string
  end.

(** [db.session.add(message); db.session.commit()] *)
Definition db_insert (content content_type : string) (uid : nat)
    (room_id : PyVal) (oc : CommitOutcome) : M Message :=
  match oc with
  | CommitOk id ts =>
      let m := mkMessage id content content_type ts uid room_id in
      w <- get_world ;;
      put_db (mkDb (rooms (db w)) (messages (db w) ++ [m])) ;;;
      log (Persist m) ;;;
      ret m
  | CommitFails => raise SQLAlchemyError
  end.

(** [handle_message] once [data['room_id']] and [data['content']] have
    been read into [data]; the reads themselves, with their [KeyError],
    are in [on_message]. *)
Definition handle_message (sess : Session) (sid : Sid) (data : MessageData)
    (oc : CommitOutcome) : M unit :=
  let room_id := md_room_id data in
  let content := md_content data in
  let content_type :=
    match md_content_type data with Some t => t | None => "text" end in
  uid <- session_user_id sess ;;
  message <- db_insert content content_type uid room_id oc ;;
  uname <- session_username sess ;;
  uid' <- session_user_id sess ;;
  emit (NewMessage (msg_id message) content content_type
                   (msg_timestamp message) uname uid')
       (ToRoom room_id) ;;;
  notification <-
    (if String.eqb content_type "text" then
       u <- session_username sess ;;
       ret (u ++ ": " ++ py_prefix 30 content ++ "...")%string
     else
       u <- session_username sess ;;
       ret (u ++ " sent an image")%string) ;;
  emit (Notification notification "message") (ToRoom room_id).

(** [image_data.split(",", 1)] unpacked into two names: the text before
    the first comma and the text after it; no comma is a [ValueError]. *)
Fixpoint split_comma (s : string) : option (string * string) :=
  match s with
  | EmptyString => None
  | String c s' =>
      if Ascii.eqb c ","%char then Some (EmptyString, s')
      else match split_comma s' with
           | Some (h, e) => Some (String c h, e)
           | None => None
           end
  end.

Section Image.
(** The media pipeline of [handle_image] between the split and the data
    URI: [b64decode], [Image.open], [thumbnail((800, 800))], [save] as
    PNG, [b64encode].  It yields the re-encoded base64 text or fails. *)
Variable process_image : string -> option string.

(** [handle_image] from its [try] on: [data] holds the two values read
    by [data['room_id']] and [data['image']] before the [try]; the reads
    themselves, with their [KeyError], are in [on_image]. *)
Definition handle_image (sess : Session) (sid : Sid) (data : ImageData)
    (oc : CommitOutcome) : M unit :=
  let room_id := id_room_id data in
  let image_data := id_image data in
  try_except
    (encoded <-
       match split_comma image_data with
       | Some (_, encoded) => ret encoded
       | None => raise ValueError
       end ;;
     processed_image <-
       match process_image encoded with
       | Some p => ret p
       | None => raise DecodeError
       end ;;
     let processed_data := ("data:image/png;base64," ++ processed_image)%string in
     uid <- session_user_id sess ;;
     message <- db_insert processed_data "image" uid room_id oc ;;
     uname <- session_username sess ;;
     uid' <- session_user_id sess ;;
     emit (NewMessage (msg_id message) processed_data "image"
                      (msg_timestamp message) uname uid')
          (ToRoom room_id) ;;;
     u <- session_username sess ;;
     emit (Notification (u ++ " sent an image")%string "message")
          (ToRoom room_id))
    (fun _ => emit (Error "Failed to process image") (ToSender sid)).
End Image.

(** ** Observations on a handler's result *)

Definition world_of {A} (r : World * list Effect * (Exc + A)) : World :=
  fst (fst r).
Definition trace_of {A} (r : World * list Effect * (Exc + A)) : list Effect :=
  snd (fst r).
Definition outcome_of {A} (r : World * list Effect * (Exc + A)) : Exc + A :=
  snd r.

Definition is_room_emit (e : Effect) : bool :=
  match e with Emit (ToRoom _) _ => true | _ => false end.
Definition is_persist (e : Effect) : bool :=
  match e with Persist _ => true | _ => false end.
Definition is_sender_error (sid : Sid) (e : Effect) : bool :=
  match e with
  | Emit (ToSender s) (Error _) => String.eqb s sid
  | _ => false
  end.

Definition count (p : Effect -> bool) (t : list Effect) : nat :=
  List.length (filter p t).

(** The members dictionary of a room ([active_users.get(room, {})]). *)
Definition members_of (room : string) (w : World) : Dict.t string :=
  match Dict.get room (active_users w) with
  | Some m => m
  | None => Dict.empty
  end.

(** A connection is in the Joined state for a room when the registry holds
    an entry for it under the room's key. *)
Definition joined (sid : Sid) (room : PyVal) (w : World) : bool :=
  Dict.mem sid (members_of (py_str room) w).

(** Effects addressed to the Socket.IO room named by a registry key. *)
Definition targets (room : string) (e : Effect) : bool :=
  match e with
  | Emit (ToRoom v) _ => PyVal_eqb v (PStr room)
  | _ => false
  end.

(** Python dictionaries never hold a key twice: neither [active_users]
    nor any of the per-room dictionaries stored in it. *)
Definition wf_world (w : World) : Prop :=
  Dict.wf (active_users w) /\
  Forall (fun kv => Dict.wf (snd kv)) (active_users w).

(** ** Sequences of join and leave events

    The server dispatches the events one at a time; an exception raised by
    one handler is reported by the framework and does not stop the
    dispatch of the next event. *)
Inductive PresenceEvent : Type :=
| Join (sess : Session) (sid : Sid) (data : JoinData)
| Leave (sess : Session) (sid : Sid) (data : JoinData).

Definition ev_sid (e : PresenceEvent) : Sid :=
  match e with Join _ s _ | Leave _ s _ => s end.
Definition ev_session (e : PresenceEvent) : Session :=
  match e with Join s _ _ | Leave s _ _ => s end.
Definition ev_room (e : PresenceEvent) : string :=
  match e with Join _ _ d | Leave _ _ d => py_str (jd_room_id d) end.
Definition is_join (e : PresenceEvent) : bool :=
  match e with Join _ _ _ => true | Leave _ _ _ => false end.

Definition dispatch (e : PresenceEvent) : M unit :=
  match e with
  | Join sess sid d => handle_join sess sid d
  | Leave sess sid d => handle_leave sess sid d
  end.

Fixpoint run (evs : list PresenceEvent) (w : World) : World * list Effect :=
  match evs with
  | [] => (w, [])
  | e :: evs' =>
      let r := dispatch e w in
      let r' := run evs' (world_of r) in
      (fst r', trace_of r ++ snd r')
  end.

(** An event of an authenticated connection on the room with key [room]. *)
Definition on_room (room : string) (e : PresenceEvent) : Prop :=
  ev_room e = room /\ username (ev_session e) <> None.

(** Reading of "has joined the room and not subsequently left it", written
    on the event sequence alone: scanning the sequence, a connection's
    status is set by each of its joins and cleared by each of its leaves. *)
Definition status_after (s : Sid) (before : bool) (evs : list PresenceEvent) : bool :=
  fold_left (fun b e => if String.eqb s (ev_sid e) then is_join e else b)
            evs before.

Definition still_joined (evs : list PresenceEvent) : list Sid :=
  nodup string_dec
        (filter (fun s => status_after s false evs) (map ev_sid evs)).

(** The same reading as a proposition: some join of [s] occurs in the
    sequence and no leave of [s] occurs after it. *)
Definition joined_and_not_left (s : Sid) (evs : list PresenceEvent) : Prop :=
  exists pre sess d post,
    evs = pre ++ Join sess s d :: post /\
    forall e, In e post -> ev_sid e = s -> is_join e = true.

(** ** Characterisations used by the statements *)

(** The registry after [handle_join]'s two assignments. *)
Definition joined_registry (room : string) (sid : Sid) (u : string)
    (au : Dict.t (Dict.t string)) : Dict.t (Dict.t string) :=
  let au1 := if Dict.mem room au then au else Dict.set room Dict.empty au in
  let members := match Dict.get room au with Some m => m | None => Dict.empty end in
  Dict.set room (Dict.set sid u members) au1.

Definition subscribed (sid : Sid) (room : string) (s : list (Sid * string))
  : list (Sid * string) :=
  if existsb (sub_eqb (sid, room)) s then s else s ++ [(sid, room)].

Definition unsubscribed (sid : Sid) (room : string) (s : list (Sid * string))
  : list (Sid * string) :=
  filter (fun x => negb (sub_eqb (sid, room) x)) s.

(** The registry after [handle_leave]'s guarded [del]. *)
Definition left_registry (room : string) (sid : Sid)
    (au : Dict.t (Dict.t string)) : Dict.t (Dict.t string) :=
  match Dict.get room au with
  | Some members =>
      if Dict.mem sid members then Dict.set room (Dict.del sid members) au
      else au
  | None => au
  end.

(** The text of the room notification that follows a message. *)
Definition message_notification (u content_type content : string) : string :=
  if String.eqb content_type "text"
  then (u ++ ": " ++ py_prefix 30 content ++ "...")%string
  else (u ++ " sent an image")%string.

Definition content_type_of (data : MessageData) : string :=
  match md_content_type data with Some t => t | None => "text" end.

Ltac run_handler :=
  cbv beta iota zeta delta [handle_message handle_image try_except bind db_insert
                       session_username session_user_id get_world put_db
                       log emit ret raise world_of trace_of outcome_of
                       username user_id md_room_id md_content md_content_type
                       id_room_id id_image msg_id msg_timestamp].

(** The image pipeline up to the data URI: split at the first comma, then
    the media processing; [None] when either step raises. *)
Definition decode_image (process_image : string -> option string)
    (image_data : string) : option string :=
  match split_comma image_data with
  | Some (_, encoded) => process_image encoded
  | None => None
  end.

(** A handler run that was rejected and left no trace in the store or in
    any room. *)
Definition rejected_without_effects {A} (w : World)
    (r : World * list Effect * (Exc + A)) : Prop :=
  (exists e, outcome_of r = inl e) /\
  count is_persist (trace_of r) = 0 /\
  messages (db (world_of r)) = messages (db w) /\
  count is_room_emit (trace_of r) = 0.

(** Every [new_message] emit in a trace comes after the [Persist] of the
    message it carries. *)
Definition broadcast_follows_persist (t : list Effect) : Prop :=
  forall t1 to id c ct ts un ui t2,
    t = t1 ++ Emit to (NewMessage id c ct ts un ui) :: t2 ->
    exists m, In (Persist m) t1 /\ msg_id m = id /\ msg_content m = c /\
              msg_timestamp m = ts.

(** Every [Persist] of a trace is a row of the resulting store. *)
Definition persisted_in_store (t : list Effect) (w : World) : Prop :=
  forall m, In (Persist m) t -> In m (messages (db w)).

Ltac split_trace H t1 :=
  destruct t1 as [|? [|? [|? [|? ?]]]]; simpl in H;
  inversion H; subst; clear H.

(** The rooms created by [setup_db.py] in a fresh database. *)
Definition setup_db : Db :=
  mkDb [mkRoom 1 "General"; mkRoom 2 "Tech Talk"; mkRoom 3 "Random"] [].

(** A room identifier names an existing room when some [Room] row has it
    as primary key ([Room.query.get(room_id)]). *)
Definition room_exists (v : PyVal) (d : Db) : bool :=
  existsb (fun r => String.eqb (py_str (PInt (Z.of_nat (room_pk r)))) (py_str v))
          (rooms d).

(** What the loop of [handle_disconnect] does to one entry of
    [active_users], and what it emits for it. *)
Definition disconnect_entry (sid : Sid) (kv : string * Dict.t string)
  : string * Dict.t string :=
  (fst kv, Dict.del sid (snd kv)).

Definition disconnect_effects (sid : Sid) (kv : string * Dict.t string)
  : list Effect :=
  match Dict.get sid (snd kv) with
  | Some name =>
      let users_in_room := Dict.values (Dict.del sid (snd kv)) in
      [Emit (ToRoom (PStr (fst kv)))
            (Notification (name ++ " has disconnected")%string "leave");
       Emit (ToRoom (PStr (fst kv)))
            (UserListUpdate users_in_room (List.length users_in_room))]
  | None => []
  end.

(** ** The whole socket interface as one event type *)

Inductive SocketEvent : Type :=
| OnConnect (sess : Session) (sid : Sid)
| OnDisconnect (sess : Session) (sid : Sid)
| OnJoin (sess : Session) (sid : Sid) (data : JoinData)
| OnLeave (sess : Session) (sid : Sid) (data : JoinData)
| OnMessage (sess : Session) (sid : Sid) (data : MessageData) (oc : CommitOutcome)
| OnImage (sess : Session) (sid : Sid) (data : ImageData) (oc : CommitOutcome).

Section Server.
Variable process_image : string -> option string.

Definition handle_event (e : SocketEvent) : M unit :=
  match e with
  | OnConnect sess sid => handle_connect sess sid
  | OnDisconnect sess sid => handle_disconnect sess sid
  | OnJoin sess sid d => handle_join sess sid d
  | OnLeave sess sid d => handle_leave sess sid d
  | OnMessage sess sid d oc => handle_message sess sid d oc
  | OnImage sess sid d oc => handle_image process_image sess sid d oc
  end.

(** Events are served one after the other; an exception of one handler
    does not stop the next event from being served. *)
Fixpoint serve (evs : list SocketEvent) (w : World) : World * list Effect :=
  match evs with
  | [] => (w, [])
  | e :: evs' =>
      let r := handle_event e w in
      let r' := serve evs' (world_of r) in
      (fst r', trace_of r ++ snd r')
  end.
End Server.





(** Events that reach [db.session.commit()] with a successful outcome
    cannot add more rows than there are message and image events. *)
Definition is_post (e : SocketEvent) : bool :=
  match e with
  | OnMessage _ _ _ _ | OnImage _ _ _ _ => true
  | _ => false
  end.

(** [',' in s] *)
Fixpoint has_comma (s : string) : bool :=
  match s with
  | EmptyString => false
  | String c s' => Ascii.eqb c ","%char || has_comma s'
  end.

(** The connection is subscribed to the Socket.IO room. *)
Definition in_sio_room (sid : Sid) (room : string) (w : World) : bool :=
  existsb (sub_eqb (sid, room)) (sio_rooms w).

(** ** HTTP side of the chat application ([login], [home], [chat], [room])
       and the database set-up script *)

Module Web.

(** models.py: [User] and [RoomMember] rows. *)
Record User : Type := mkUser {
  user_pk : nat;
  user_username : string
}.

Record RoomMember : Type := mkRoomMember {
  rm_pk : nat;
  rm_user_id : nat;
  rm_room_id : nat
}.

(** The tables read and written by the routes: users and memberships,
    beside the rooms and messages of [Db]. *)
Record Store : Type := mkStore {
  users : list User;
  members : list RoomMember;
  core : Db
}.

(** Outcome of the [commit] of one added row: the primary key given by
    the database, or an exception. *)
Inductive Insert : Type :=
| Inserted (pk : nat)
| Rejected.

Inductive Method : Type := GET | POST.

Inductive Response : Type :=
| Redirect (endpoint : string)
| RenderLogin
| RenderIndex (uname : string) (rooms : list Room) (uid : nat)
| RenderRoom (room : Room) (msgs : list Message) (uname : string) (uid : nat)
| NotFound
| BadRequest
| ServerError (e : Exc).

(** [User.query.filter_by(username=username).first()] *)
Definition find_user (name : string) (us : list User) : option User :=
  find (fun u => String.eqb (user_username u) name) us.

(** [Room.query.get(room_id)] *)
Definition find_room (pk : nat) (rs : list Room) : option Room :=
  find (fun r => Nat.eqb (room_pk r) pk) rs.

(** [RoomMember.query.filter_by(user_id=.., room_id=..).first()] *)
Definition find_member (uid rid : nat) (ms : list RoomMember) : option RoomMember :=
  find (fun m => Nat.eqb (rm_user_id m) uid && Nat.eqb (rm_room_id m) rid) ms.

(** [home] *)
Definition home (sess : Session) : Response :=
  match username sess with
  | Some _ => Redirect "chat"
  | None => Redirect "login"
  end.

(** [login]: [form_username] is [request.form['username']], absent when
    the form has no such field. *)
Definition login (method : Method) (form_username : option string)
    (ins : Insert) (sess : Session) (st : Store) : Store * Session * Response :=
  match method with
  | POST =>
      match form_username with
      | None => (st, sess, BadRequest)
      | Some name =>
          match find_user name (users st) with
          | Some user =>
              (st, mkSession (Some name) (Some (user_pk user)), Redirect "chat")
          | None =>
              match ins with
              | Inserted pk =>
                  let user := mkUser pk name in
                  (mkStore (users st ++ [user]) (members st) (core st),
                   mkSession (Some name) (Some (user_pk user)),
                   Redirect "chat")
              | Rejected => (st, sess, ServerError SQLAlchemyError)
              end
          end
      end
  | GET => (st, sess, RenderLogin)
  end.

(** [chat] *)
Definition chat (sess : Session) (st : Store) : Response :=
  match username sess with
  | None => Redirect "login"
  | Some uname =>
      match user_id sess with
      | Some uid => RenderIndex uname (rooms (core st)) uid
      | None => ServerError (KeyError "user_id")
      end
  end.

Section RoomRoute.
(** The rows returned by
    [Message.query.filter_by(room_id=room_id).order_by(Message.timestamp.desc()).limit(20).all()]. *)
Variable recent_messages : nat -> Db -> list Message.

(** [room] *)
Definition room (room_id : nat) (ins : Insert) (sess : Session) (st : Store)
  : Store * Response :=
  match username sess with
  | None => (st, Redirect "login")
  | Some uname =>
      match find_room room_id (rooms (core st)) with
      | None => (st, NotFound)
      | Some r =>
          let msgs := rev (recent_messages room_id (core st)) in
          match user_id sess with
          | None => (st, ServerError (KeyError "user_id"))
          | Some uid =>
              match find_member uid room_id (members st) with
              | Some _ => (st, RenderRoom r msgs uname uid)
              | None =>
                  match ins with
                  | Inserted pk =>
                      (mkStore (users st)
                               (members st ++ [mkRoomMember pk uid room_id])
                               (core st),
                       RenderRoom r msgs uname uid)
                  | Rejected => (st, ServerError SQLAlchemyError)
                  end
              end
          end
      end
  end.
End RoomRoute.

Section SetupDb.
(** The primary key the database gives to the next [Room] row. *)
Variable next_pk : list Room -> nat.

(** One turn of the loop of setup_db.py. *)
Definition ensure_room (d : Db) (name : string) : Db :=
  match find (fun r => String.eqb (room_name r) name) (rooms d) with
  | Some _ => d
  | None => mkDb (rooms d ++ [mkRoom (next_pk (rooms d)) name]) (messages d)
  end.

(** setup_db.py: create the initial rooms that do not exist yet. *)
Definition setup_rooms (d : Db) : Db :=
  fold_left ensure_room ["General"; "Tech Talk"; "Random"] d.
End SetupDb.

(** Names of the users, of the rooms; the (user, room) pairs of the
    memberships. *)
Definition usernames (st : Store) : list string :=
  map user_username (users st).
Definition room_names (d : Db) : list string :=
  map room_name (rooms d).
Definition member_pairs (st : Store) : list (nat * nat) :=
  map (fun m => (rm_user_id m, rm_room_id m)) (members st).

End Web.

(** ** The Facebook integration ([Task_1_fb_integration/app.py]) *)

Module Fb.

(** models.py: [User] and [Page]; every column but the primary key is
    nullable. *)
Record User : Type := mkUser {
  u_id : string;
  u_name : option string;
  u_email : option string
}.

Record Page : Type := mkPage {
  p_id : string;
  p_name : option string;
  p_access_token : option string;
  p_permissions : option string;
  p_user_id : option string
}.

Record Db : Type := mkDb {
  users : list User;
  pages : list Page
}.

(** [",".join(xs)] *)
Fixpoint py_join (xs : list string) : string :=
  match xs with
  | [] => EmptyString
  | [x] => x
  | x :: xs' => (x ++ String ","%char (py_join xs'))%string
  end.

(** [s.split(",")] *)
Fixpoint py_split (s : string) : list string :=
  match s with
  | EmptyString => [EmptyString]
  | String c s' =>
      if Ascii.eqb c ","%char then EmptyString :: py_split s'
      else match py_split s' with
           | h :: t => String c h :: t
           | [] => [String c EmptyString]
           end
  end.

(** The JSON bodies received from the Graph API, with the keys the code
    reads.  A key read with [d['k']] that may be absent is an [option];
    keys read with [.get] are [option]s too. *)
Record TokenResponse : Type := mkToken {
  tr_status : nat;
  tr_access_token : option string
}.

Record ProfileResponse : Type := mkProfile {
  pr_status : nat;
  pr_id : option string;
  pr_name : option string;
  pr_email : option string
}.

Record Permission : Type := mkPermission {
  permission : string;
  status : string
}.

(** One element of the [data] of [/me/accounts], with the [data] of the
    answer to the request for its permissions. *)
Record PageJson : Type := mkPageJson {
  pj_id : option string;
  pj_name : option string;
  pj_access_token : option string;
  pj_permissions : list Permission
}.

Inductive Failure : Type :=
| KeyError (k : string)
| AttributeError
| CommitError.

Record PageOut : Type := mkPageOut {
  po_id : string;
  po_name : option string;
  po_access_token : option string;
  po_permissions : list string
}.

Inductive Response : Type :=
| Status400 (body : string)
| Status401 (error : string)
| Redirect (url : string)
| RenderPages (user : User) (pages : list Page)
| Json (uid : string) (uname : option string) (pages : list PageOut)
| Raised (e : Failure).

(** [User.query.get(id)], [Page.query.get(id)] *)
Definition get_user (id : string) (us : list User) : option User :=
  find (fun u => String.eqb (u_id u) id) us.
Definition get_page (id : string) (ps : list Page) : option Page :=
  find (fun p => String.eqb (p_id p) id) ps.

(** The comma-separated names of the granted permissions. *)
Definition granted (perms : list Permission) : list string :=
  map permission (filter (fun p => String.eqb (status p) "granted") perms).

(** Assignment to the attributes of the row found by [Page.query.get]. *)
Fixpoint update_page (id : string) (token : option string) (perms : string)
    (ps : list Page) : list Page :=
  match ps with
  | [] => []
  | p :: ps' =>
      if String.eqb (p_id p) id
      then mkPage (p_id p) (p_name p) token (Some perms) (p_user_id p) :: ps'
      else p :: update_page id token perms ps'
  end.

(** Body of the loop over [pages_data]; [None] when [page['id']] raises. *)
Definition process_page (owner : string) (ps : list Page) (page : PageJson)
  : option (list Page) :=
  match pj_id page with
  | None => None
  | Some id =>
      let permissions := py_join (granted (pj_permissions page)) in
      match get_page id ps with
      | Some _ => Some (update_page id (pj_access_token page) permissions ps)
      | None =>
          Some (ps ++ [mkPage id (pj_name page) (pj_access_token page)
                              (Some permissions) (Some owner)])
      end
  end.

Fixpoint process_pages (owner : string) (ps : list Page)
    (pages_data : list PageJson) : option (list Page) :=
  match pages_data with
  | [] => Some ps
  | page :: rest =>
      match process_page owner ps page with
      | Some ps' => process_pages owner ps' rest
      | None => None
      end
  end.

(** [callback].  [code] is [request.args.get('code')]; the three
    responses are those of the token, profile and accounts requests;
    [commit_ok] says whether [db.session.commit()] succeeds.  The session
    is the value of [session['user_id']], if any.  Nothing is written to
    the database before the final commit. *)
Definition callback (code : option string) (token : TokenResponse)
    (profile : ProfileResponse) (pages_data : list PageJson)
    (commit_ok : bool) (sess : option string) (d : Db)
  : Db * option string * Response :=
  match code with
  | None | Some EmptyString =>
      (d, sess, Status400 "Error: Missing authorization code")
  | Some _ =>
      if negb (Nat.eqb (tr_status token) 200) then
        (d, sess, Status400 "Error: Failed to get access token")
      else if negb (Nat.eqb (pr_status profile) 200) then
        (d, sess, Status400 "Error: Failed to get user profile")
      else
        match pr_id profile with
        | None => (d, sess, Raised (KeyError "id"))
        | Some id =>
            let '(us, user) :=
              match get_user id (users d) with
              | Some user => (users d, user)
              | None =>
                  let user := mkUser id (pr_name profile) (pr_email profile) in
                  (users d ++ [user], user)
              end in
            match process_pages (u_id user) (pages d) pages_data with
            | None => (d, sess, Raised (KeyError "id"))
            | Some ps =>
                if commit_ok
                then (mkDb us ps, Some (u_id user), Redirect "/pages")
                else (d, sess, Raised CommitError)
            end
        end
  end.

(** [list_pages] *)
Definition list_pages (sess : option string) (d : Db) : Response :=
  match sess with
  | None => Redirect "/"
  | Some uid =>
      match get_user uid (users d) with
      | None => Raised AttributeError
      | Some user =>
          RenderPages user
            (filter (fun p => match p_user_id p with
                              | Some o => String.eqb o (u_id user)
                              | None => false
                              end) (pages d))
      end
  end.

(** One element of the list comprehension of [api_pages]. *)
Definition page_out (p : Page) : option PageOut :=
  match p_permissions p with
  | Some perms =>
      Some (mkPageOut (p_id p) (p_name p) (p_access_token p) (py_split perms))
  | None => None
  end.

Fixpoint pages_out (ps : list Page) : option (list PageOut) :=
  match ps with
  | [] => Some []
  | p :: ps' =>
      match page_out p, pages_out ps' with
      | Some o, Some os => Some (o :: os)
      | _, _ => None
      end
  end.

(** [api_pages]; [user.pages] are the pages whose [user_id] is the
    user's id. *)
Definition api_pages (sess : option string) (d : Db) : Response :=
  match sess with
  | None => Status401 "Not authenticated"
  | Some uid =>
      match get_user uid (users d) with
      | None => Raised AttributeError
      | Some user =>
          let owned := filter (fun p => match p_user_id p with
                                        | Some o => String.eqb o (u_id user)
                                        | None => false
                                        end) (pages d) in
          match pages_out owned with
          | Some os => Json (u_id user) (u_name user) os
          | None => Raised AttributeError
          end
      end
  end.

(** What the loop over [pages_data] guarantees about the pages table:
    [ps] before, [ps'] after, [ids] the identifiers of the pages handled,
    [owner] the id of the user logging in. *)
Record page_step (owner : string) (ids : list (option string))
       (ps ps' : list Page) : Prop := {
  step_nodup : NoDup (map p_id ps) -> NoDup (map p_id ps');
  step_kept : forall k p, get_page k ps = Some p ->
                exists p', get_page k ps' = Some p' /\
                           p_name p' = p_name p /\ p_user_id p' = p_user_id p;
  step_new : forall k p', get_page k ps' = Some p' -> get_page k ps = None ->
               In (Some k) ids /\ p_user_id p' = Some owner;
  step_perms : Forall (fun p => p_permissions p <> None) ps ->
               Forall (fun p => p_permissions p <> None) ps'
}.

Definition page_ids (d : Db) : list string := map p_id (pages d).
Definition user_ids (d : Db) : list string := map u_id (users d).

End Fb.

(** ** Facts about ordered dictionaries *)

Section DictFacts.
Context {V : Type}.
Implicit Types (d : Dict.t V) (k : string) (v : V).

Lemma dict_mem_get k d : Dict.mem k d = true <-> exists v, Dict.get k d = Some v.
Proof.
  unfold Dict.mem. destruct (Dict.get k d) as [v|]; split.
  - eauto.
  - reflexivity.
  - discriminate.
  - intros [v Hv]. discriminate.
Qed.

Lemma dict_mem_false_get k d : Dict.mem k d = false <-> Dict.get k d = None.
Proof.
  unfold Dict.mem. destruct (Dict.get k d); split; congruence.
Qed.

Lemma dict_in_keys_mem k d : In k (Dict.keys d) <-> Dict.mem k d = true.
Proof.
  unfold Dict.mem. induction d as [|[k' v'] d IH]; simpl.
  - split; [tauto | discriminate].
  - destruct (String.eqb_spec k k') as [->|Hne].
    + split; auto.
    + rewrite <- IH. split; [intros [H|H]; [congruence | exact H] | auto].
Qed.

Lemma dict_get_set_eq k v d : Dict.get k (Dict.set k v d) = Some v.
Proof.
  induction d as [|[k' v'] d IH]; simpl.
  - now rewrite String.eqb_refl.
  - destruct (String.eqb_spec k k') as [->|Hne]; simpl.
    + now rewrite String.eqb_refl.
    + destruct (String.eqb_spec k k'); [contradiction | exact IH].
Qed.

Lemma dict_get_set_neq k k' v d :
  k <> k' -> Dict.get k' (Dict.set k v d) = Dict.get k' d.
Proof.
  intros Hne. induction d as [|[k0 v0] d IH]; simpl.
  - destruct (String.eqb_spec k' k); [congruence | reflexivity].
  - destruct (String.eqb_spec k k0) as [->|Hk]; simpl.
    + destruct (String.eqb_spec k' k0); [congruence | reflexivity].
    + now rewrite IH.
Qed.

Lemma dict_mem_set k k' v d :
  Dict.mem k' (Dict.set k v d) = String.eqb k' k || Dict.mem k' d.
Proof.
  unfold Dict.mem. destruct (String.eqb_spec k' k) as [->|Hne]; simpl.
  - now rewrite dict_get_set_eq.
  - rewrite dict_get_set_neq; [reflexivity | congruence].
Qed.

Lemma dict_keys_set_mem k v d :
  Dict.mem k d = true -> Dict.keys (Dict.set k v d) = Dict.keys d.
Proof.
  unfold Dict.mem. induction d as [|[k' v'] d IH]; simpl; [discriminate|].
  destruct (String.eqb_spec k k') as [->|Hne]; simpl; intros H.
  - reflexivity.
  - f_equal. exact (IH H).
Qed.

Lemma dict_keys_set_new k v d :
  Dict.mem k d = false -> Dict.keys (Dict.set k v d) = Dict.keys d ++ [k].
Proof.
  unfold Dict.mem. induction d as [|[k' v'] d IH]; simpl; [reflexivity|].
  destruct (String.eqb_spec k k') as [->|Hne]; simpl; intros H.
  - discriminate.
  - f_equal. exact (IH H).
Qed.

Lemma dict_values_set_new k v d :
  Dict.mem k d = false -> Dict.values (Dict.set k v d) = Dict.values d ++ [v].
Proof.
  unfold Dict.mem. induction d as [|[k' v'] d IH]; simpl; [reflexivity|].
  destruct (String.eqb_spec k k') as [->|Hne]; simpl; intros H.
  - discriminate.
  - f_equal. exact (IH H).
Qed.

Lemma dict_wf_set k v d : Dict.wf d -> Dict.wf (Dict.set k v d).
Proof.
  unfold Dict.wf. intros Hwf.
  destruct (Dict.mem k d) eqn:Hm.
  - now rewrite dict_keys_set_mem.
  - rewrite dict_keys_set_new by exact Hm.
    apply NoDup_app; [exact Hwf | repeat constructor; simpl; tauto |].
    intros x Hx [<-|[]].
    apply dict_in_keys_mem in Hx. congruence.
Qed.

Lemma dict_del_not_mem k d : Dict.mem k d = false -> Dict.del k d = d.
Proof.
  unfold Dict.mem. induction d as [|[k' v'] d IH]; simpl; [reflexivity|].
  destruct (String.eqb_spec k k') as [->|Hne]; intros H.
  - discriminate.
  - f_equal. exact (IH H).
Qed.

Lemma dict_keys_del_incl k d x : In x (Dict.keys (Dict.del k d)) -> In x (Dict.keys d).
Proof.
  induction d as [|[k' v'] d IH]; simpl; [tauto|].
  destruct (String.eqb_spec k k') as [->|Hne]; simpl; intuition.
Qed.

Lemma dict_wf_del k d : Dict.wf d -> Dict.wf (Dict.del k d).
Proof.
  unfold Dict.wf. induction d as [|[k' v'] d IH]; simpl; intros Hwf.
  - constructor.
  - inversion Hwf as [|? ? Hnin Hnd]; subst.
    destruct (String.eqb_spec k k') as [->|Hne]; simpl.
    + exact Hnd.
    + constructor; [|exact (IH Hnd)].
      intros Hin. apply Hnin. exact (dict_keys_del_incl _ _ _ Hin).
Qed.

Lemma dict_get_del_neq k k' d :
  k <> k' -> Dict.get k' (Dict.del k d) = Dict.get k' d.
Proof.
  intros Hne. induction d as [|[k0 v0] d IH]; simpl; [reflexivity|].
  destruct (String.eqb_spec k k0) as [->|Hk]; simpl.
  - destruct (String.eqb_spec k' k0); [congruence | reflexivity].
  - now rewrite IH.
Qed.

Lemma dict_get_del_eq k d : Dict.wf d -> Dict.get k (Dict.del k d) = None.
Proof.
  unfold Dict.wf. induction d as [|[k' v'] d IH]; simpl; intros Hwf.
  - reflexivity.
  - inversion Hwf as [|? ? Hnin Hnd]; subst.
    destruct (String.eqb_spec k k') as [->|Hne]; simpl.
    + apply dict_mem_false_get.
      destruct (Dict.mem k' d) eqn:Hm; [|reflexivity].
      apply dict_in_keys_mem in Hm. contradiction.
    + destruct (String.eqb_spec k k'); [contradiction | exact (IH Hnd)].
Qed.

Lemma dict_mem_del k k' d :
  Dict.wf d ->
  Dict.mem k' (Dict.del k d) = negb (String.eqb k' k) && Dict.mem k' d.
Proof.
  intros Hwf. unfold Dict.mem.
  destruct (String.eqb_spec k' k) as [->|Hne]; simpl.
  - now rewrite dict_get_del_eq.
  - rewrite dict_get_del_neq; [reflexivity | congruence].
Qed.

Lemma dict_get_app_notin k d1 d2 :
  ~ In k (Dict.keys d1) -> Dict.get k (d1 ++ d2) = Dict.get k d2.
Proof.
  induction d1 as [|[k' v'] d1 IH]; simpl; intros Hnin; [reflexivity|].
  destruct (String.eqb_spec k k') as [->|Hne]; [tauto|].
  apply IH. tauto.
Qed.

Lemma dict_set_app_notin k v d1 d2 :
  ~ In k (Dict.keys d1) -> Dict.set k v (d1 ++ d2) = d1 ++ Dict.set k v d2.
Proof.
  induction d1 as [|[k' v'] d1 IH]; simpl; intros Hnin; [reflexivity|].
  destruct (String.eqb_spec k k') as [->|Hne]; [tauto|].
  f_equal. apply IH. tauto.
Qed.

Lemma dict_index_set k k' v d :
  Dict.index k' (Dict.set k v d) =
  match Dict.index k' d with
  | Some i => Some i
  | None => if String.eqb k' k then Some (List.length d) else None
  end.
Proof.
  induction d as [|[k0 v0] d IH]; simpl.
  - destruct (String.eqb k' k); reflexivity.
  - destruct (String.eqb_spec k k0) as [->|Hk]; simpl.
    + destruct (String.eqb_spec k' k0); [reflexivity|].
      destruct (Dict.index k' d); simpl; [reflexivity|].
      destruct (String.eqb_spec k' k0); [contradiction | reflexivity].
    + destruct (String.eqb_spec k' k0); [reflexivity|].
      rewrite IH. destruct (Dict.index k' d); simpl; [reflexivity|].
      destruct (String.eqb k' k); reflexivity.
Qed.

Lemma dict_index_mem k d :
  Dict.mem k d = true <-> exists i, Dict.index k d = Some i.
Proof.
  unfold Dict.mem. induction d as [|[k' v'] d IH]; simpl.
  - split; [discriminate | intros [i Hi]; discriminate].
  - destruct (String.eqb_spec k k') as [->|Hne].
    + split; eauto.
    + rewrite IH. split; intros [i Hi].
      * rewrite Hi. simpl. eauto.
      * destruct (Dict.index k d); simpl in *; [eauto | discriminate].
Qed.

Lemma dict_index_values k d i :
  Dict.index k d = Some i -> nth_error (Dict.values d) i = Dict.get k d.
Proof.
  revert i. induction d as [|[k' v'] d IH]; simpl; intros i; [discriminate|].
  destruct (String.eqb_spec k k') as [->|Hne].
  - intros [= <-]. reflexivity.
  - destruct (Dict.index k d) as [j|]; simpl; [|discriminate].
    intros [= <-]. simpl. now apply IH.
Qed.

Lemma dict_values_set_other k v d i j :
  Dict.index k d = Some i -> j <> i ->
  nth_error (Dict.values (Dict.set k v d)) j = nth_error (Dict.values d) j.
Proof.
  revert i j. induction d as [|[k' v'] d IH]; simpl; intros i j; [discriminate|].
  destruct (String.eqb_spec k k') as [->|Hne]; simpl.
  - intros [= <-] Hj. destruct j; [congruence | reflexivity].
  - destruct (Dict.index k d) as [i'|]; simpl; [|discriminate].
    intros [= <-] Hj. destruct j; [reflexivity|].
    simpl. apply (IH i'); [reflexivity | congruence].
Qed.

Lemma dict_length_values d : List.length (Dict.values d) = List.length (Dict.keys d).
Proof. unfold Dict.values, Dict.keys. now rewrite !length_map. Qed.
End DictFacts.

(** ** What one join, one leave does to the world *)

Lemma members_of_set room room' (m : Dict.t string) au sio d :
  members_of room' (mkWorld (Dict.set room m au) sio d) =
  if String.eqb room' room then m else members_of room' (mkWorld au sio d).
Proof.
  unfold members_of. simpl.
  destruct (String.eqb_spec room' room) as [->|Hne].
  - now rewrite dict_get_set_eq.
  - rewrite dict_get_set_neq; [reflexivity | congruence].
Qed.

Lemma dict_Forall_set {V} (P : string * V -> Prop) k v (d : Dict.t V) :
  Forall P d -> P (k, v) -> Forall P (Dict.set k v d).
Proof.
  intros Hd Hkv. induction d as [|[k' v'] d IH]; simpl.
  - constructor; [exact Hkv | constructor].
  - inversion Hd; subst.
    destruct (String.eqb_spec k k') as [->|Hne]; constructor; auto.
Qed.

Lemma dict_Forall_get {V} (P : string * V -> Prop) k v (d : Dict.t V) :
  Forall P d -> Dict.get k d = Some v -> P (k, v).
Proof.
  intros Hd. induction d as [|[k' v'] d IH]; simpl; [discriminate|].
  inversion Hd; subst.
  destruct (String.eqb_spec k k') as [->|Hne]; [intros [= <-]; assumption | auto].
Qed.

Lemma wf_members_of room w : wf_world w -> Dict.wf (members_of room w).
Proof.
  intros [_ Hin]. unfold members_of.
  destruct (Dict.get room (active_users w)) as [m|] eqn:Hg.
  - exact (dict_Forall_get _ _ _ _ Hin Hg).
  - constructor.
Qed.

Lemma handle_join_run sess sid data w u :
  username sess = Some u ->
  let room := py_str (jd_room_id data) in
  let members' := Dict.set sid u (members_of room w) in
  handle_join sess sid data w =
    (mkWorld (joined_registry room sid u (active_users w))
             (subscribed sid room (sio_rooms w)) (db w),
     [Emit (ToRoom (PStr room))
           (Notification (u ++ " has joined the room")%string "join");
      Emit (ToRoom (PStr room))
           (UserListUpdate (Dict.values members') (List.length (Dict.values members')))],
     inr tt).
Proof.
  intros Hu room members'. subst members'.
  unfold handle_join, session_username. rewrite Hu. fold room.
  unfold members_of, joined_registry, subscribed.
  cbv beta iota delta [bind join_room get_world put_sio_rooms put_active_users
                       ret emit lookup raise].
  destruct (existsb (sub_eqb (sid, room)) (sio_rooms w)); simpl.
  all: destruct (Dict.mem room (active_users w)) eqn:Hm; simpl.
  all: try (apply dict_mem_get in Hm; destruct Hm as [m Hm]; rewrite Hm; simpl).
  all: try (apply dict_mem_false_get in Hm; rewrite Hm, dict_get_set_eq; simpl).
  all: reflexivity.
Qed.

Lemma members_of_joined room room' sid u au sio d :
  members_of room' (mkWorld (joined_registry room sid u au) sio d) =
  if String.eqb room' room
  then Dict.set sid u (members_of room (mkWorld au sio d))
  else members_of room' (mkWorld au sio d).
Proof.
  unfold joined_registry. rewrite members_of_set.
  destruct (String.eqb_spec room' room) as [->|Hne]; [reflexivity|].
  destruct (Dict.mem room au); [reflexivity|].
  rewrite members_of_set.
  destruct (String.eqb_spec room' room); [contradiction | reflexivity].
Qed.

Lemma wf_world_joined room sid u w sio d :
  wf_world w ->
  wf_world (mkWorld (joined_registry room sid u (active_users w)) sio d).
Proof.
  intros Hw. pose proof (wf_members_of room w Hw) as Hm.
  destruct Hw as [Hout Hin].
  unfold wf_world, joined_registry; simpl. split.
  - apply dict_wf_set. destruct (Dict.mem room (active_users w)); [exact Hout|].
    now apply dict_wf_set.
  - apply dict_Forall_set.
    + destruct (Dict.mem room (active_users w)); [exact Hin|].
      apply dict_Forall_set; [exact Hin | constructor].
    + simpl. apply dict_wf_set. exact Hm.
Qed.

Lemma members_of_left room room' sid au sio d :
  members_of room' (mkWorld (left_registry room sid au) sio d) =
  if String.eqb room' room
  then Dict.del sid (members_of room (mkWorld au sio d))
  else members_of room' (mkWorld au sio d).
Proof.
  unfold left_registry.
  destruct (Dict.get room au) as [m|] eqn:Hg.
  - destruct (Dict.mem sid m) eqn:Hm.
    + rewrite members_of_set.
      destruct (String.eqb_spec room' room) as [->|Hne]; [|reflexivity].
      unfold members_of; simpl. now rewrite Hg.
    + destruct (String.eqb_spec room' room) as [->|Hne]; [|reflexivity].
      unfold members_of; simpl. rewrite Hg. now rewrite dict_del_not_mem.
  - destruct (String.eqb_spec room' room) as [->|Hne]; [|reflexivity].
    unfold members_of; simpl. now rewrite Hg.
Qed.

Lemma handle_leave_run sess sid data w u :
  username sess = Some u ->
  let room := py_str (jd_room_id data) in
  let members' := Dict.del sid (members_of room w) in
  handle_leave sess sid data w =
    (mkWorld (left_registry room sid (active_users w))
             (unsubscribed sid room (sio_rooms w)) (db w),
     [Emit (ToRoom (PStr room))
           (Notification (u ++ " has left the room")%string "leave");
      Emit (ToRoom (PStr room))
           (UserListUpdate (Dict.values members') (List.length (Dict.values members')))],
     inr tt).
Proof.
  intros Hu room members'. subst members'.
  unfold handle_leave, session_username. rewrite Hu. fold room.
  cbv beta iota delta [bind leave_room get_world put_sio_rooms put_active_users
                       ret emit lookup raise].
  simpl.
  fold (unsubscribed sid room (sio_rooms w)).
  fold (left_registry room sid (active_users w)).
  pose proof (members_of_left room room sid (active_users w)
                (unsubscribed sid room (sio_rooms w)) (db w)) as H.
  rewrite String.eqb_refl in H. unfold members_of in H. simpl in H.
  rewrite H. unfold members_of. reflexivity.
Qed.

Lemma wf_world_left room sid w sio d :
  wf_world w ->
  wf_world (mkWorld (left_registry room sid (active_users w)) sio d).
Proof.
  intros Hw. pose proof (wf_members_of room w Hw) as Hm.
  destruct Hw as [Hout Hin].
  unfold wf_world, left_registry, members_of in *; simpl.
  destruct (Dict.get room (active_users w)) as [m|]; [|split; assumption].
  destruct (Dict.mem sid m); [|split; assumption].
  split.
  - now apply dict_wf_set.
  - apply dict_Forall_set; [exact Hin|]. simpl. now apply dict_wf_del.
Qed.

Lemma dict_del_filter {V} k (d : Dict.t V) :
  Dict.wf d ->
  Dict.del k d = filter (fun kv => negb (String.eqb k (fst kv))) d.
Proof.
  unfold Dict.wf. induction d as [|[k' v'] d IH]; simpl; intros Hwf; [reflexivity|].
  inversion Hwf as [|? ? Hnin Hnd]; subst.
  destruct (String.eqb_spec k k') as [->|Hne]; simpl.
  - rewrite <- IH by exact Hnd. symmetry. apply dict_del_not_mem.
    destruct (Dict.mem k' d) eqn:Hm; [|reflexivity].
    apply dict_in_keys_mem in Hm. contradiction.
  - f_equal. exact (IH Hnd).
Qed.

(** ** Join, rejoin, leave *)

(** C4: a second join of a connection already present in the room, under a
    new display name, overwrites the stored name in place: the keys of the
    room's dictionary (hence the absence of duplicates), the number of
    entries and the position of the connection are unchanged, every other
    position keeps its name, and the broadcast user list carries the new
    name at that position with the same count. *)
Theorem rejoin_replaces_display_name :
  forall (w : World) (sess : Session) (sid : Sid) (data : JoinData)
         (new : string) (i : nat),
    username sess = Some new ->
    Dict.index sid (members_of (py_str (jd_room_id data)) w) = Some i ->
    let room := py_str (jd_room_id data) in
    let r := handle_join sess sid data w in
    let before := members_of room w in
    let after := members_of room (world_of r) in
    outcome_of r = inr tt /\
    Dict.keys after = Dict.keys before /\
    List.length (Dict.values after) = List.length (Dict.values before) /\
    Dict.index sid after = Some i /\
    nth_error (Dict.values after) i = Some new /\
    (forall j, j <> i ->
       nth_error (Dict.values after) j = nth_error (Dict.values before) j) /\
    trace_of r =
      [Emit (ToRoom (PStr room))
            (Notification (new ++ " has joined the room")%string "join");
       Emit (ToRoom (PStr room))
            (UserListUpdate (Dict.values after)
                            (List.length (Dict.values before)))].
Proof.
  intros w sess sid data new i Hu Hi room r before after.
  assert (Hmem : Dict.mem sid before = true)
    by (apply dict_index_mem; eauto).
  assert (Hafter : after = Dict.set sid new before).
  { subst after r. rewrite (handle_join_run _ _ _ _ _ Hu).
    unfold world_of; simpl. rewrite members_of_joined, String.eqb_refl.
    destruct w; reflexivity. }
  assert (Hkeys : Dict.keys after = Dict.keys before)
    by (rewrite Hafter; now apply dict_keys_set_mem).
  assert (Hlen : List.length (Dict.values after) = List.length (Dict.values before))
    by (now rewrite !dict_length_values, Hkeys).
  assert (Hidx : Dict.index sid after = Some i).
  { rewrite Hafter, dict_index_set. unfold before, room. now rewrite Hi. }
  repeat split; try assumption.
  - subst r. now rewrite (handle_join_run _ _ _ _ _ Hu).
  - rewrite (dict_index_values _ _ _ Hidx), Hafter. apply dict_get_set_eq.
  - intros j Hj. rewrite Hafter. now apply dict_values_set_other with (i := i).
  - subst r. rewrite (handle_join_run _ _ _ _ _ Hu). unfold trace_of; simpl.
    fold room. fold before. rewrite <- Hafter, Hlen. reflexivity.
Qed.

Lemma rejoin_replaces_display_name_witness :
  let w := world_of (handle_join (mkSession (Some "Alice") (Some 1)) "A"
                                 (mkJoinData (PInt 1)) (init_world (mkDb [] []))) in
  let r := handle_join (mkSession (Some "Alicia") (Some 1)) "A"
                       (mkJoinData (PInt 1)) w in
  Dict.index "A" (members_of "1" w) = Some 0 /\
  Dict.values (members_of "1" (world_of r)) = ["Alicia"] /\
  trace_of r =
    [Emit (ToRoom (PStr "1")) (Notification "Alicia has joined the room" "join");
     Emit (ToRoom (PStr "1")) (UserListUpdate ["Alicia"] 1)].
Proof.
  intros w r.
  pose proof (rejoin_replaces_display_name w
                (mkSession (Some "Alicia") (Some 1)) "A" (mkJoinData (PInt 1))
                "Alicia" 0 eq_refl eq_refl) as H.
  destruct H as (_ & _ & _ & _ & _ & _ & Ht).
  split; [reflexivity|]. split; [reflexivity|]. exact Ht.
Defined.

(** C5: the user list broadcast by a join or a leave is the updated list
    of the room, in insertion order.  Every join stores the connection's
    name in the room's dictionary and broadcasts the names of the
    dictionary so updated, with their number; a join of a connection not
    yet present adds its entry at the end, so the list is the former one
    followed by the new name and the count is one more.  Every leave
    removes the connection's entry, keeps the other entries in their
    order, and broadcasts the names of the dictionary so updated, with
    their number.  On the sequence join(1, A, Alice), join(1, B, Bob),
    leave(1, A) the broadcasts are [Alice]/1, [Alice; Bob]/2 and
    [Bob]/1, and the room then holds B alone. *)
Theorem presence_list_in_insertion_order :
  (forall w sess sid data u,
     username sess = Some u ->
     let room := py_str (jd_room_id data) in
     let r := handle_join sess sid data w in
     let after := members_of room (world_of r) in
     after = Dict.set sid u (members_of room w) /\
     trace_of r =
       [Emit (ToRoom (PStr room))
             (Notification (u ++ " has joined the room")%string "join");
        Emit (ToRoom (PStr room))
             (UserListUpdate (Dict.values after) (List.length (Dict.values after)))] /\
     (Dict.mem sid (members_of room w) = false ->
        after = members_of room w ++ [(sid, u)] /\
        Dict.values after = Dict.values (members_of room w) ++ [u] /\
        List.length (Dict.values after) =
          S (List.length (Dict.values (members_of room w))))) /\
  (forall w sess sid data u,
     username sess = Some u ->
     wf_world w ->
     let room := py_str (jd_room_id data) in
     let r := handle_leave sess sid data w in
     let after := members_of room (world_of r) in
     after = filter (fun kv => negb (String.eqb sid (fst kv))) (members_of room w) /\
     Dict.mem sid after = false /\
     trace_of r =
       [Emit (ToRoom (PStr room))
             (Notification (u ++ " has left the room")%string "leave");
        Emit (ToRoom (PStr room))
             (UserListUpdate (Dict.values after) (List.length (Dict.values after)))]) /\
  (forall d : Db,
     let alice := mkSession (Some "Alice") (Some 1) in
     let bob := mkSession (Some "Bob") (Some 2) in
     let r1 := handle_join alice "A" (mkJoinData (PInt 1)) (init_world d) in
     let r2 := handle_join bob "B" (mkJoinData (PInt 1)) (world_of r1) in
     let r3 := handle_leave alice "A" (mkJoinData (PInt 1)) (world_of r2) in
     trace_of r1 =
       [Emit (ToRoom (PStr "1")) (Notification "Alice has joined the room" "join");
        Emit (ToRoom (PStr "1")) (UserListUpdate ["Alice"] 1)] /\
     trace_of r2 =
       [Emit (ToRoom (PStr "1")) (Notification "Bob has joined the room" "join");
        Emit (ToRoom (PStr "1")) (UserListUpdate ["Alice"; "Bob"] 2)] /\
     trace_of r3 =
       [Emit (ToRoom (PStr "1")) (Notification "Alice has left the room" "leave");
        Emit (ToRoom (PStr "1")) (UserListUpdate ["Bob"] 1)] /\
     members_of "1" (world_of r1) = [("A", "Alice")] /\
     members_of "1" (world_of r2) = [("A", "Alice"); ("B", "Bob")] /\
     members_of "1" (world_of r3) = [("B", "Bob")]).
Proof.
  split; [|split].
  - intros w sess sid data u Hu room r after.
    assert (Hafter : after = Dict.set sid u (members_of room w)).
    { subst after r. rewrite (handle_join_run _ _ _ _ _ Hu).
      unfold world_of; simpl. rewrite members_of_joined, String.eqb_refl.
      destruct w; reflexivity. }
    split; [exact Hafter|]. split.
    + subst r. rewrite (handle_join_run _ _ _ _ _ Hu). unfold trace_of; simpl.
      fold room. now rewrite <- Hafter.
    + intros Hfresh.
      assert (Happ : after = members_of room w ++ [(sid, u)]).
      { rewrite Hafter. clear -Hfresh. unfold Dict.mem in Hfresh.
        induction (members_of room w) as [|[k v] m IH]; simpl in *; [reflexivity|].
        destruct (String.eqb sid k); [discriminate|]. now rewrite IH. }
      split; [exact Happ|]. rewrite Happ. unfold Dict.values.
      rewrite map_app, length_app, !length_map. simpl.
      split; [reflexivity | lia].
  - intros w sess sid data u Hu Hwf room r after.
    assert (Hm : Dict.wf (members_of room w)) by now apply wf_members_of.
    assert (Hafter : after = Dict.del sid (members_of room w)).
    { subst after r. rewrite (handle_leave_run _ _ _ _ _ Hu).
      unfold world_of; simpl. rewrite members_of_left, String.eqb_refl.
      destruct w; reflexivity. }
    split; [rewrite Hafter; now apply dict_del_filter|]. split.
    + rewrite Hafter, dict_mem_del by exact Hm. now rewrite String.eqb_refl.
    + subst r. rewrite (handle_leave_run _ _ _ _ _ Hu). unfold trace_of; simpl.
      fold room. now rewrite <- Hafter.
  - intros d. repeat split.
Qed.

Lemma presence_list_in_insertion_order_witness :
  let w := mkWorld [("1", [("A", "Alice"); ("B", "Bob")])] [] (mkDb [] []) in
  let carol := mkSession (Some "Carol") (Some 3) in
  let alice := mkSession (Some "Alice") (Some 1) in
  let rj := handle_join carol "C" (mkJoinData (PStr "1")) w in
  let rl := handle_leave alice "A" (mkJoinData (PStr "1")) w in
  username carol = Some "Carol" /\
  username alice = Some "Alice" /\
  Dict.mem "C" (members_of "1" w) = false /\
  wf_world w /\
  trace_of rj =
    [Emit (ToRoom (PStr "1")) (Notification "Carol has joined the room" "join");
     Emit (ToRoom (PStr "1")) (UserListUpdate ["Alice"; "Bob"; "Carol"] 3)] /\
  members_of "1" (world_of rj) = [("A", "Alice"); ("B", "Bob"); ("C", "Carol")] /\
  trace_of rl =
    [Emit (ToRoom (PStr "1")) (Notification "Alice has left the room" "leave");
     Emit (ToRoom (PStr "1")) (UserListUpdate ["Bob"] 1)] /\
  members_of "1" (world_of rl) = [("B", "Bob")].
Proof.
  intros w carol alice rj rl.
  assert (Hwf : wf_world w).
  { split; simpl.
    - repeat constructor; simpl; tauto.
    - repeat constructor; simpl; intuition discriminate. }
  do 3 (split; [reflexivity|]). split; [exact Hwf|].
  destruct presence_list_in_insertion_order as (Hjoin & Hleave & _).
  destruct (Hjoin w carol "C" (mkJoinData (PStr "1")) "Carol" eq_refl)
    as (_ & Htj & Hfresh).
  destruct (Hfresh eq_refl) as (Hmj & _).
  destruct (Hleave w alice "A" (mkJoinData (PStr "1")) "Alice" eq_refl Hwf)
    as (Hml & _ & Htl).
  split; [exact Htj|]. split; [exact Hmj|]. split; [exact Htl | exact Hml].
Defined.

(** C9, as stated, fails for a socket that never logged in: its session
    has no username, the [print] of [handle_leave] raises [KeyError]
    before any emit, and the room receives nothing.  Such a connection
    holds no presence entry, which is the case the claim singles out. *)
Lemma leave_without_username_is_silent :
  let w := init_world setup_db in
  let sess := mkSession None None in
  let r := handle_leave sess "Z" (mkJoinData (PInt 1)) w in
  Dict.mem "Z" (members_of "1" w) = false /\
  outcome_of r = inl (KeyError "username") /\
  trace_of r = [] /\
  ~ (forall (w : World) (sess : Session) (sid : Sid) (data : JoinData),
       exists text users n,
         trace_of (handle_leave sess sid data w) =
           [Emit (ToRoom (PStr (py_str (jd_room_id data))))
                 (Notification text "leave");
            Emit (ToRoom (PStr (py_str (jd_room_id data))))
                 (UserListUpdate users n)]).
Proof.
  intros w sess r. do 3 (split; [reflexivity|]).
  intros H. destruct (H w sess "Z" (mkJoinData (PInt 1))) as (t & us & n & Ht).
  vm_compute in Ht. discriminate.
Qed.

(** C9, amended: every leave event of a connection whose session holds a
    username emits the "has left the room" notification and a presence
    update to the named room; when the connection holds no entry in that
    room the registry is left as it was and the two events are emitted
    all the same, the update listing the room's unchanged members. *)
Theorem leave_is_never_silent :
  forall (w : World) (sess : Session) (sid : Sid) (data : JoinData) (u : string),
    username sess = Some u ->
    let room := py_str (jd_room_id data) in
    let r := handle_leave sess sid data w in
    outcome_of r = inr tt /\
    trace_of r =
      [Emit (ToRoom (PStr room))
            (Notification (u ++ " has left the room")%string "leave");
       Emit (ToRoom (PStr room))
            (UserListUpdate (Dict.values (members_of room (world_of r)))
               (List.length (Dict.values (members_of room (world_of r)))))] /\
    (Dict.mem sid (members_of room w) = false ->
       active_users (world_of r) = active_users w /\
       members_of room (world_of r) = members_of room w).
Proof.
  intros w sess sid data u Hu room r. subst r.
  rewrite (handle_leave_run _ _ _ _ _ Hu). fold room.
  unfold outcome_of, trace_of, world_of; simpl.
  assert (Hm : members_of room
                 (mkWorld (left_registry room sid (active_users w))
                          (unsubscribed sid room (sio_rooms w)) (db w)) =
               Dict.del sid (members_of room w)).
  { rewrite members_of_left, String.eqb_refl. destruct w; reflexivity. }
  split; [reflexivity|]. split.
  - now rewrite Hm.
  - intros Habs. rewrite Hm. split.
    + unfold left_registry. unfold members_of in Habs.
      destruct (Dict.get room (active_users w)) as [m|]; [|reflexivity].
      now rewrite Habs.
    + now apply dict_del_not_mem.
Qed.

Lemma leave_is_never_silent_witness :
  username (mkSession (Some "Bob") (Some 2)) = Some "Bob" /\
  trace_of (handle_leave (mkSession (Some "Bob") (Some 2)) "B"
                         (mkJoinData (PInt 7)) (init_world (mkDb [] []))) =
    [Emit (ToRoom (PStr "7")) (Notification "Bob has left the room" "leave");
     Emit (ToRoom (PStr "7")) (UserListUpdate [] 0)].
Proof.
  split; [reflexivity|].
  exact (proj1 (proj2 (leave_is_never_silent (init_world (mkDb [] []))
                         (mkSession (Some "Bob") (Some 2)) "B"
                         (mkJoinData (PInt 7)) "Bob" eq_refl))).
Defined.

(** ** Messages and images *)

Lemma handle_message_run sess sid data id ts w u uid :
  username sess = Some u ->
  user_id sess = Some uid ->
  let ct := content_type_of data in
  let m := mkMessage id (md_content data) ct ts uid (md_room_id data) in
  handle_message sess sid data (CommitOk id ts) w =
    (mkWorld (active_users w) (sio_rooms w)
             (mkDb (rooms (db w)) (messages (db w) ++ [m])),
     [Persist m;
      Emit (ToRoom (md_room_id data))
           (NewMessage id (md_content data) ct ts u uid);
      Emit (ToRoom (md_room_id data))
           (Notification (message_notification u ct (md_content data)) "message")],
     inr tt).
Proof.
  destruct sess as [un ui]; simpl. intros -> ->.
  destruct data as [rid content [t|]]; unfold content_type_of, message_notification;
    run_handler; simpl.
  - destruct (String.eqb t "text"); reflexivity.
  - reflexivity.
Qed.

Lemma py_prefix_split (n : nat) (s : string) :
  exists rest,
    s = (py_prefix n s ++ rest)%string /\
    match rest with
    | EmptyString => True
    | String c _ => is_continuation c = false
    end.
Proof.
  revert n. induction s as [|c s IH]; intros n; simpl.
  - exists EmptyString. split; [reflexivity | exact I].
  - destruct (is_continuation c) eqn:Hc.
    + destruct (IH n) as [rest [Hr Hb]]. exists rest. split; [|exact Hb].
      simpl. now rewrite <- Hr.
    + destruct n as [|n].
      * exists (String c s). split; [reflexivity | exact Hc].
      * destruct (IH n) as [rest [Hr Hb]]. exists rest. split; [|exact Hb].
        simpl. now rewrite <- Hr.
Qed.

Lemma py_len_prefix (n : nat) (s : string) :
  py_len (py_prefix n s) = Nat.min n (py_len s).
Proof.
  revert n. induction s as [|c s IH]; intros n; simpl.
  - now rewrite Nat.min_0_r.
  - destruct (is_continuation c) eqn:Hc.
    + simpl. rewrite Hc. apply IH.
    + destruct n as [|n]; [reflexivity|].
      simpl. rewrite Hc, IH. reflexivity.
Qed.

Lemma py_prefix_ascii (n : nat) (s : string) :
  forallb (fun c => negb (is_continuation c)) (list_ascii_of_string s) = true ->
  py_prefix n s = substring 0 n s.
Proof.
  revert n. induction s as [|c s IH]; intros n; simpl.
  - now destruct n.
  - destruct (is_continuation c); simpl; [discriminate|].
    intros H. destruct n as [|n]; [reflexivity|]. now rewrite IH.
Qed.

(** C10: for a text message of a logged-in connection whose commit
    succeeds, the notification broadcast to the room reads: the sender's
    username, a colon and a space, the first 30 characters (code points)
    of the content, and three dots.  The slice is a prefix of the content
    cut between two characters, it has 30 characters when the content has
    at least 30 and is the whole content otherwise, and the dots are
    there whatever the length of the content. *)
Theorem text_notification_is_truncated_with_ellipsis :
  forall (w : World) (sess : Session) (sid : Sid) (data : MessageData)
         (id : nat) (ts u : string) (uid : nat),
    username sess = Some u ->
    user_id sess = Some uid ->
    content_type_of data = "text" ->
    let content := md_content data in
    let first30 := py_prefix 30 content in
    let r := handle_message sess sid data (CommitOk id ts) w in
    filter (fun e => match e with Emit _ (Notification _ _) => true | _ => false end)
           (trace_of r) =
      [Emit (ToRoom (md_room_id data))
            (Notification (u ++ ": " ++ first30 ++ "...")%string "message")] /\
    (exists rest,
       content = (first30 ++ rest)%string /\
       match rest with
       | EmptyString => True
       | String c _ => is_continuation c = false
       end) /\
    py_len first30 = Nat.min 30 (py_len content) /\
    (py_len content <= 30 -> first30 = content) /\
    (forallb (fun c => negb (is_continuation c)) (list_ascii_of_string content) = true ->
     first30 = substring 0 30 content).
Proof.
  intros w sess sid data id ts u uid Hu Hid Hct content first30 r.
  subst r. rewrite (handle_message_run _ _ _ _ _ _ _ _ Hu Hid), Hct.
  unfold trace_of; simpl. split; [reflexivity|].
  split; [apply py_prefix_split|].
  split; [apply py_len_prefix|].
  split; [|apply py_prefix_ascii].
  intros Hlen. subst first30. clear -Hlen. revert Hlen.
  generalize 30. induction content as [|c s IH]; intros n; simpl; [reflexivity|].
  destruct (is_continuation c).
  - intros H. now rewrite IH.
  - destruct n as [|n]; [lia|]. intros H. rewrite IH; [reflexivity | lia].
Qed.

Lemma text_notification_is_truncated_with_ellipsis_witness :
  let bob := mkSession (Some "Bob") (Some 2) in
  let short := mkMessageData (PInt 1) "hi" None in
  let euro := String (ascii_of_nat 226) (String (ascii_of_nat 130)
                (String (ascii_of_nat 172) EmptyString)) in
  let long := mkMessageData (PInt 1) (py_repeat euro 31) (Some "text") in
  username bob = Some "Bob" /\
  user_id bob = Some 2 /\
  content_type_of short = "text" /\
  content_type_of long = "text" /\
  py_prefix 30 (py_repeat euro 31) = py_repeat euro 30 /\
  filter (fun e => match e with Emit _ (Notification _ _) => true | _ => false end)
         (trace_of (handle_message bob "B" short
                                   (CommitOk 1 "2024-01-01T00:00:00")
                                   (init_world (mkDb [] [])))) =
    [Emit (ToRoom (PInt 1)) (Notification "Bob: hi..." "message")] /\
  filter (fun e => match e with Emit _ (Notification _ _) => true | _ => false end)
         (trace_of (handle_message bob "B" long
                                   (CommitOk 2 "2024-01-01T00:00:01")
                                   (init_world (mkDb [] [])))) =
    [Emit (ToRoom (PInt 1))
          (Notification ("Bob: " ++ py_repeat euro 30 ++ "...")%string "message")].
Proof.
  intros bob short euro long. do 5 (split; [reflexivity|]).
  split.
  - exact (proj1 (text_notification_is_truncated_with_ellipsis
                    (init_world (mkDb [] [])) bob "B" short 1
                    "2024-01-01T00:00:00" "Bob" 2 eq_refl eq_refl eq_refl)).
  - exact (proj1 (text_notification_is_truncated_with_ellipsis
                    (init_world (mkDb [] [])) bob "B" long 2
                    "2024-01-01T00:00:01" "Bob" 2 eq_refl eq_refl eq_refl)).
Defined.

Lemma handle_image_run process_image sess sid data id ts w u uid hdr encoded p :
  username sess = Some u ->
  user_id sess = Some uid ->
  split_comma (id_image data) = Some (hdr, encoded) ->
  process_image encoded = Some p ->
  let content := ("data:image/png;base64," ++ p)%string in
  let m := mkMessage id content "image" ts uid (id_room_id data) in
  handle_image process_image sess sid data (CommitOk id ts) w =
    (mkWorld (active_users w) (sio_rooms w)
             (mkDb (rooms (db w)) (messages (db w) ++ [m])),
     [Persist m;
      Emit (ToRoom (id_room_id data)) (NewMessage id content "image" ts u uid);
      Emit (ToRoom (id_room_id data))
           (Notification (u ++ " sent an image")%string "message")],
     inr tt).
Proof.
  destruct sess as [un ui]; simpl. intros -> -> Hs Hp.
  destruct data as [rid img]; simpl in *.
  run_handler. rewrite Hs, Hp. reflexivity.
Qed.

(** C2, as stated, fails: [handle_message] never looks at [active_users].
    From the empty registry, a message of connection A for room 1 is
    committed and broadcast, and the handler returns normally. *)
Lemma unjoined_message_is_accepted :
  let w := init_world (mkDb [] []) in
  let r := handle_message (mkSession (Some "Alice") (Some 1)) "A"
                          (mkMessageData (PInt 1) "hello" None)
                          (CommitOk 1 "t0") w in
  joined "A" (PInt 1) w = false /\
  outcome_of r = inr tt /\
  count is_persist (trace_of r) = 1 /\
  count is_room_emit (trace_of r) = 2 /\
  ~ (forall w sess sid data oc,
       joined sid (md_room_id data) w = false ->
       rejected_without_effects w (handle_message sess sid data oc w)).
Proof.
  intros w r. repeat (split; [reflexivity|]).
  intros H.
  specialize (H w (mkSession (Some "Alice") (Some 1)) "A"
                (mkMessageData (PInt 1) "hello" None) (CommitOk 1 "t0") eq_refl).
  destruct H as (_ & Hp & _). vm_compute in Hp. discriminate.
Qed.

(** C2, amended: message and image events are handled without regard to
    the registry.  For a logged-in connection, joined to the room or not,
    whose commit succeeds (and, for an image, whose payload decodes), the
    handler returns normally; it persists exactly one message, the one it
    was sent, as the last row of the store; it then broadcasts to the
    room it was given the [new_message] event carrying that message and
    the notification of it, and nothing else; the registry, the room
    subscriptions and the rooms table are left as they were. *)
Theorem message_events_ignore_presence :
  forall (process_image : string -> option string) (w : World)
         (sess : Session) (sid : Sid) (mdata : MessageData) (idata : ImageData)
         (id : nat) (ts u : string) (uid : nat) (p : string),
    username sess = Some u ->
    user_id sess = Some uid ->
    decode_image process_image (id_image idata) = Some p ->
    let rm := handle_message sess sid mdata (CommitOk id ts) w in
    let ri := handle_image process_image sess sid idata (CommitOk id ts) w in
    let ct := content_type_of mdata in
    let mm := mkMessage id (md_content mdata) ct ts uid (md_room_id mdata) in
    let uri := ("data:image/png;base64," ++ p)%string in
    let mi := mkMessage id uri "image" ts uid (id_room_id idata) in
    (outcome_of rm = inr tt /\
     trace_of rm =
       [Persist mm;
        Emit (ToRoom (md_room_id mdata))
             (NewMessage id (md_content mdata) ct ts u uid);
        Emit (ToRoom (md_room_id mdata))
             (Notification
                (if String.eqb ct "text"
                 then (u ++ ": " ++ py_prefix 30 (md_content mdata) ++ "...")%string
                 else (u ++ " sent an image")%string)
                "message")] /\
     messages (db (world_of rm)) = messages (db w) ++ [mm] /\
     rooms (db (world_of rm)) = rooms (db w) /\
     count is_persist (trace_of rm) = 1 /\
     count is_room_emit (trace_of rm) = 2 /\
     active_users (world_of rm) = active_users w /\
     sio_rooms (world_of rm) = sio_rooms w) /\
    (outcome_of ri = inr tt /\
     trace_of ri =
       [Persist mi;
        Emit (ToRoom (id_room_id idata)) (NewMessage id uri "image" ts u uid);
        Emit (ToRoom (id_room_id idata))
             (Notification (u ++ " sent an image")%string "message")] /\
     messages (db (world_of ri)) = messages (db w) ++ [mi] /\
     rooms (db (world_of ri)) = rooms (db w) /\
     count is_persist (trace_of ri) = 1 /\
     count is_room_emit (trace_of ri) = 2 /\
     active_users (world_of ri) = active_users w /\
     sio_rooms (world_of ri) = sio_rooms w).
Proof.
  intros process_image w sess sid mdata idata id ts u uid p Hu Hid Hdec
         rm ri ct mm uri mi.
  subst rm ri. rewrite (handle_message_run _ _ _ _ _ _ _ _ Hu Hid).
  unfold decode_image in Hdec.
  destruct (split_comma (id_image idata)) as [[hdr encoded]|] eqn:Hs;
    [|discriminate].
  rewrite (handle_image_run _ _ _ _ _ _ _ _ _ _ _ _ Hu Hid Hs Hdec).
  unfold outcome_of, trace_of, world_of, count, message_notification; simpl.
  fold ct. fold mm. fold uri. fold mi.
  split; repeat (split; [reflexivity|]); reflexivity.
Qed.

Lemma message_events_ignore_presence_witness :
  let sess := mkSession (Some "Alice") (Some 1) in
  let w := init_world (mkDb [] []) in
  let png_in :=
    "iVBORw0KGgoAAAANSUhEUgAAAAEAAAABCAYAAAAfFcSJAAAADUlEQVR42mNkYPhfDwAChwGA60e6kgAAAABJRU5ErkJggg==" in
  let png_out :=
    "iVBORw0KGgoAAAANSUhEUgAAAAEAAAABCAYAAAAfFcSJAAAADUlEQVR4nGNgYPhfDwACggF/FjslngAAAABJRU5ErkJggg==" in
  let proc := fun s : string => if String.eqb s png_in then Some png_out else None in
  let payload := ("data:image/png;base64," ++ png_in)%string in
  username sess = Some "Alice" /\
  user_id sess = Some 1 /\
  decode_image proc payload = Some png_out /\
  joined "A" (PInt 1) w = false /\
  trace_of (handle_message sess "A" (mkMessageData (PInt 1) "hello" None)
                           (CommitOk 1 "t0") w) =
    [Persist (mkMessage 1 "hello" "text" "t0" 1 (PInt 1));
     Emit (ToRoom (PInt 1)) (NewMessage 1 "hello" "text" "t0" "Alice" 1);
     Emit (ToRoom (PInt 1)) (Notification "Alice: hello..." "message")] /\
  trace_of (handle_image proc sess "A" (mkImageData (PInt 1) payload)
                         (CommitOk 1 "t0") w) =
    [Persist (mkMessage 1 ("data:image/png;base64," ++ png_out)%string "image"
                        "t0" 1 (PInt 1));
     Emit (ToRoom (PInt 1))
          (NewMessage 1 ("data:image/png;base64," ++ png_out)%string "image"
                      "t0" "Alice" 1);
     Emit (ToRoom (PInt 1)) (Notification "Alice sent an image" "message")].
Proof.
  intros sess w png_in png_out proc payload. do 4 (split; [reflexivity|]).
  pose proof (message_events_ignore_presence proc w sess "A"
                (mkMessageData (PInt 1) "hello" None)
                (mkImageData (PInt 1) payload)
                1 "t0" "Alice" 1 png_out eq_refl eq_refl eq_refl) as [Hm Hi].
  split.
  - exact (proj1 (proj2 Hm)).
  - exact (proj1 (proj2 Hi)).
Defined.

(** C6: when the payload of an image event does not decode (no comma to
    split at, or the media processing raises), the handler leaves the
    world, hence the stored messages, untouched, emits nothing to any
    room, and emits one [error] event, addressed to the originating
    connection. *)
Theorem failed_decode_only_private_error :
  forall (process_image : string -> option string) (w : World)
         (sess : Session) (sid : Sid) (data : ImageData) (oc : CommitOutcome),
    decode_image process_image (id_image data) = None ->
    let r := handle_image process_image sess sid data oc w in
    world_of r = w /\
    trace_of r = [Emit (ToSender sid) (Error "Failed to process image")] /\
    count is_persist (trace_of r) = 0 /\
    count is_room_emit (trace_of r) = 0 /\
    count (is_sender_error sid) (trace_of r) = 1.
Proof.
  intros process_image w sess sid data oc Hdec r.
  assert (Hr : r = (w, [Emit (ToSender sid) (Error "Failed to process image")],
                    inr tt)).
  { subst r. unfold decode_image in Hdec. destruct data as [rid img]; simpl in *.
    run_handler.
    destruct (split_comma img) as [[hdr encoded]|]; [|reflexivity].
    rewrite Hdec. reflexivity. }
  rewrite Hr. unfold world_of, trace_of, count; simpl.
  rewrite String.eqb_refl. repeat split.
Qed.

Lemma failed_decode_only_private_error_witness :
  let proc := fun _ : string => @None string in
  let w := init_world (mkDb [] []) in
  let sess := mkSession (Some "Bob") (Some 2) in
  decode_image proc "not-a-data-uri" = None /\
  decode_image proc "data:image/png;base64,@@@@" = None /\
  trace_of (handle_image proc sess "B" (mkImageData (PInt 1) "not-a-data-uri")
                         (CommitOk 1 "t0") w) =
    [Emit (ToSender "B") (Error "Failed to process image")] /\
  trace_of (handle_image proc sess "B"
                         (mkImageData (PInt 1) "data:image/png;base64,@@@@")
                         (CommitOk 1 "t0") w) =
    [Emit (ToSender "B") (Error "Failed to process image")].
Proof.
  intros proc w sess. do 2 (split; [reflexivity|]).
  split.
  - exact (proj1 (proj2 (failed_decode_only_private_error proc w sess "B"
                           (mkImageData (PInt 1) "not-a-data-uri")
                           (CommitOk 1 "t0") eq_refl))).
  - exact (proj1 (proj2 (failed_decode_only_private_error proc w sess "B"
                           (mkImageData (PInt 1) "data:image/png;base64,@@@@")
                           (CommitOk 1 "t0") eq_refl))).
Defined.

Lemma handle_message_broadcast_order sess sid data oc w :
  let r := handle_message sess sid data oc w in
  broadcast_follows_persist (trace_of r) /\
  persisted_in_store (trace_of r) (world_of r).
Proof.
  destruct sess as [[u|] [uid|]], oc as [id ts|], data as [rid c [ct|]];
    run_handler; simpl; try destruct (String.eqb ct "text"); simpl.
  all: split;
    [ intros t1 to id' c' ct' ts' un ui t2 H; split_trace H t1;
      eexists; (split; [left; reflexivity | repeat split])
    | intros m Hm; simpl in Hm;
      repeat (destruct Hm as [Hm|Hm]; try discriminate Hm);
      try contradiction; try (injection Hm as <-; apply in_or_app; right; left; reflexivity) ].
Qed.

Lemma handle_image_broadcast_order process_image sess sid data oc w :
  let r := handle_image process_image sess sid data oc w in
  broadcast_follows_persist (trace_of r) /\
  persisted_in_store (trace_of r) (world_of r).
Proof.
  destruct sess as [[u|] [uid|]], oc as [id ts|], data as [rid img];
    run_handler; simpl;
    destruct (split_comma img) as [[hdr encoded]|]; simpl;
    try destruct (process_image encoded) as [p|]; simpl.
  all: split;
    [ intros t1 to id' c' ct' ts' un ui t2 H; split_trace H t1;
      eexists; (split; [left; reflexivity | repeat split])
    | intros m Hm; simpl in Hm;
      repeat (destruct Hm as [Hm|Hm]; try discriminate Hm);
      try contradiction; try (injection Hm as <-; apply in_or_app; right; left; reflexivity) ].
Qed.

(** C7: in [handle_message] and in [handle_image], a [new_message] emit is
    always preceded in the trace by the commit of the message it carries,
    and that message is a row of the store; when the commit raises, the
    store keeps its rows and nothing is emitted to any room. *)
Theorem broadcast_only_after_commit :
  forall (process_image : string -> option string) (w : World)
         (sess : Session) (sid : Sid) (mdata : MessageData) (idata : ImageData)
         (oc : CommitOutcome),
    let rm := handle_message sess sid mdata oc w in
    let ri := handle_image process_image sess sid idata oc w in
    let fm := handle_message sess sid mdata CommitFails w in
    let fi := handle_image process_image sess sid idata CommitFails w in
    (broadcast_follows_persist (trace_of rm) /\
     persisted_in_store (trace_of rm) (world_of rm)) /\
    (broadcast_follows_persist (trace_of ri) /\
     persisted_in_store (trace_of ri) (world_of ri)) /\
    (count is_room_emit (trace_of fm) = 0 /\ world_of fm = w /\
     exists e, outcome_of fm = inl e) /\
    (count is_room_emit (trace_of fi) = 0 /\ world_of fi = w).
Proof.
  intros process_image w sess sid mdata idata oc rm ri fm fi.
  split; [apply handle_message_broadcast_order|].
  split; [apply handle_image_broadcast_order|].
  split.
  - subst fm. destruct sess as [[u|] [uid|]], mdata as [rid c ct];
      run_handler; simpl; repeat split; eauto.
  - subst fi. destruct sess as [[u|] [uid|]], idata as [rid img];
      run_handler; simpl;
      destruct (split_comma img) as [[hdr encoded]|]; simpl;
      try destruct (process_image encoded) as [p|]; simpl; repeat split.
Qed.

(** ** Joins and the rooms table *)

(** C8, as stated, fails: [handle_join] has no lookup in the rooms table.
    With the three rooms of [setup_db.py], a join naming room 42 returns
    normally and creates the entry. *)
Lemma join_of_unknown_room_is_accepted :
  let w := init_world setup_db in
  let data := mkJoinData (PInt 42) in
  let r := handle_join (mkSession (Some "Alice") (Some 1)) "A" data w in
  room_exists (jd_room_id data) (db w) = false /\
  outcome_of r = inr tt /\
  Dict.get "A" (members_of "42" (world_of r)) = Some "Alice" /\
  ~ (forall w sess sid data,
       room_exists (jd_room_id data) (db w) = false ->
       let r := handle_join sess sid data w in
       (exists e, outcome_of r = inl e) /\
       members_of (py_str (jd_room_id data)) (world_of r) =
       members_of (py_str (jd_room_id data)) w).
Proof.
  intros w data r. do 3 (split; [reflexivity|]).
  intros H.
  specialize (H w (mkSession (Some "Alice") (Some 1)) "A" data eq_refl).
  destruct H as [[e He] _]. vm_compute in He. discriminate.
Qed.

(** C8, amended: a join is not checked against the rooms table.  For every
    join of a connection that carries a display name, whether or not the
    named room exists, the handler returns normally; the room's
    dictionary is the former one with the connection's entry set to the
    display name (a dictionary with that entry alone when the registry
    did not know the room); the events emitted are exactly the "has
    joined the room" notification and the presence update listing the
    names of that dictionary, both addressed to the room; the database is
    not modified, and the outcome, the trace and the registry are the
    same for any content of the database. *)
Theorem join_ignores_rooms_table :
  forall (w : World) (sess : Session) (sid : Sid) (data : JoinData) (u : string),
    username sess = Some u ->
    let room := py_str (jd_room_id data) in
    let r := handle_join sess sid data w in
    let after := members_of room (world_of r) in
    outcome_of r = inr tt /\
    after = Dict.set sid u (members_of room w) /\
    Dict.get sid after = Some u /\
    trace_of r =
      [Emit (ToRoom (PStr room))
            (Notification (u ++ " has joined the room")%string "join");
       Emit (ToRoom (PStr room))
            (UserListUpdate (Dict.values after) (List.length (Dict.values after)))] /\
    count (targets room) (trace_of r) = 2 /\
    db (world_of r) = db w /\
    (forall d' : Db,
       let r' := handle_join sess sid data
                   (mkWorld (active_users w) (sio_rooms w) d') in
       outcome_of r' = outcome_of r /\
       trace_of r' = trace_of r /\
       active_users (world_of r') = active_users (world_of r)).
Proof.
  intros w sess sid data u Hu room r after.
  assert (Hafter : after = Dict.set sid u (members_of room w)).
  { subst after r. rewrite (handle_join_run _ _ _ _ _ Hu).
    unfold world_of; simpl. rewrite members_of_joined, String.eqb_refl.
    destruct w; reflexivity. }
  subst r. rewrite (handle_join_run _ _ _ _ _ Hu). fold room.
  unfold outcome_of, trace_of, world_of, count; simpl.
  rewrite String.eqb_refl; simpl.
  split; [reflexivity|]. split; [exact Hafter|].
  split; [rewrite Hafter; apply dict_get_set_eq|].
  split; [now rewrite <- Hafter|].
  split; [reflexivity|]. split; [reflexivity|].
  intros d'. rewrite (handle_join_run _ _ _ _ _ Hu). simpl.
  repeat split.
Qed.

Lemma join_ignores_rooms_table_witness :
  let w := init_world setup_db in
  let sess := mkSession (Some "Alice") (Some 1) in
  username sess = Some "Alice" /\
  room_exists (PInt 42) (db w) = false /\
  Dict.get "A" (members_of "42"
     (world_of (handle_join sess "A" (mkJoinData (PInt 42)) w))) = Some "Alice".
Proof.
  intros w sess. do 2 (split; [reflexivity|]).
  exact (proj1 (proj2 (proj2 (join_ignores_rooms_table w sess "A"
                                (mkJoinData (PInt 42)) "Alice" eq_refl)))).
Defined.

(** ** Disconnect *)

Lemma disconnect_room_run sid k m pre suf sio d :
  ~ In k (Dict.keys pre) ->
  disconnect_room sid k (mkWorld (pre ++ (k, m) :: suf) sio d) =
    (mkWorld (pre ++ disconnect_entry sid (k, m) :: suf) sio d,
     disconnect_effects sid (k, m), inr tt).
Proof.
  intros Hnin.
  assert (Hget : Dict.get k (pre ++ (k, m) :: suf) = Some m).
  { rewrite dict_get_app_notin by exact Hnin. simpl. now rewrite String.eqb_refl. }
  assert (Hset : forall m', Dict.set k m' (pre ++ (k, m) :: suf) =
                            pre ++ (k, m') :: suf).
  { intros m'. rewrite dict_set_app_notin by exact Hnin. simpl.
    now rewrite String.eqb_refl. }
  unfold disconnect_room, disconnect_entry, disconnect_effects.
  cbv beta iota zeta delta [bind get_world lookup put_active_users emit ret raise].
  simpl. rewrite Hget. unfold Dict.mem.
  destruct (Dict.get sid m) as [name|] eqn:Hs; simpl.
  - rewrite Hset. reflexivity.
  - rewrite dict_del_not_mem; [reflexivity|]. now apply dict_mem_false_get.
Qed.

Lemma disconnect_loop_run sid sio d suf :
  forall pre,
    NoDup (Dict.keys (pre ++ suf)) ->
    for_each (Dict.keys suf) (disconnect_room sid) (mkWorld (pre ++ suf) sio d) =
      (mkWorld (pre ++ map (disconnect_entry sid) suf) sio d,
       flat_map (disconnect_effects sid) suf, inr tt).
Proof.
  induction suf as [|[k m] suf IH]; intros pre Hnd; simpl.
  - reflexivity.
  - assert (Hnin : ~ In k (Dict.keys pre)).
    { unfold Dict.keys in *. rewrite map_app in Hnd. simpl in Hnd.
      apply NoDup_remove_2 in Hnd. intros Hin. apply Hnd.
      apply in_or_app. now left. }
    unfold bind at 1. rewrite (disconnect_room_run _ _ _ _ _ _ _ Hnin).
    specialize (IH (pre ++ [disconnect_entry sid (k, m)])).
    rewrite <- !app_assoc in IH. simpl in IH. rewrite IH.
    + reflexivity.
    + unfold Dict.keys in *. rewrite map_app in *. simpl in *. exact Hnd.
Qed.

Lemma handle_disconnect_run sess sid w u :
  username sess = Some u ->
  Dict.wf (active_users w) ->
  handle_disconnect sess sid w =
    (mkWorld (map (disconnect_entry sid) (active_users w)) (sio_rooms w) (db w),
     flat_map (disconnect_effects sid) (active_users w), inr tt).
Proof.
  intros Hu Hwf. unfold handle_disconnect. rewrite Hu.
  unfold bind at 1. unfold get_world at 1.
  destruct w as [au sio d]; simpl in *.
  pose proof (disconnect_loop_run sid sio d au [] Hwf) as H. simpl in H.
  rewrite H. reflexivity.
Qed.

Lemma dict_get_map_entries sid room (au : Dict.t (Dict.t string)) :
  Dict.get room (map (disconnect_entry sid) au) =
  option_map (Dict.del sid) (Dict.get room au).
Proof.
  induction au as [|[k m] au IH]; simpl; [reflexivity|].
  destruct (String.eqb room k); [reflexivity | exact IH].
Qed.

Lemma members_of_disconnected sid room au sio d :
  members_of room (mkWorld (map (disconnect_entry sid) au) sio d) =
  Dict.del sid (members_of room (mkWorld au sio d)).
Proof.
  unfold members_of; simpl. rewrite dict_get_map_entries.
  destruct (Dict.get room au); reflexivity.
Qed.

Lemma targets_disconnect_effects_other sid room kv :
  fst kv <> room -> filter (targets room) (disconnect_effects sid kv) = [].
Proof.
  intros Hne. unfold disconnect_effects.
  destruct (Dict.get sid (snd kv)); simpl; [|reflexivity].
  destruct (String.eqb_spec (fst kv) room); [contradiction | reflexivity].
Qed.

Lemma targets_disconnect_effects_same sid room m :
  filter (targets room) (disconnect_effects sid (room, m)) =
  disconnect_effects sid (room, m).
Proof.
  unfold disconnect_effects. simpl.
  destruct (Dict.get sid m); simpl; [|reflexivity].
  now rewrite String.eqb_refl.
Qed.

Lemma targets_disconnect_absent sid room (au : Dict.t (Dict.t string)) :
  ~ In room (Dict.keys au) ->
  filter (targets room) (flat_map (disconnect_effects sid) au) = [].
Proof.
  induction au as [|[k m] au IH]; simpl; intros Hnin; [reflexivity|].
  rewrite filter_app, IH by tauto.
  rewrite targets_disconnect_effects_other; [reflexivity|].
  simpl. intros ->. tauto.
Qed.

Lemma targets_disconnect_trace sid room (au : Dict.t (Dict.t string)) :
  Dict.wf au ->
  filter (targets room) (flat_map (disconnect_effects sid) au) =
  match Dict.get room au with
  | Some m => disconnect_effects sid (room, m)
  | None => []
  end.
Proof.
  unfold Dict.wf. induction au as [|[k m] au IH]; simpl; intros Hwf; [reflexivity|].
  inversion Hwf as [|? ? Hnin Hnd]; subst.
  rewrite filter_app.
  destruct (String.eqb_spec room k) as [->|Hne].
  - rewrite targets_disconnect_effects_same, targets_disconnect_absent by exact Hnin.
    now rewrite app_nil_r.
  - rewrite targets_disconnect_effects_other by (simpl; congruence).
    simpl. exact (IH Hnd).
Qed.

Lemma dict_get_in {V} k v (d : Dict.t V) :
  Dict.wf d -> In (k, v) d -> Dict.get k d = Some v.
Proof.
  unfold Dict.wf. induction d as [|[k' v'] d IH]; simpl; intros Hwf Hin; [tauto|].
  inversion Hwf as [|? ? Hnin Hnd]; subst.
  destruct Hin as [[= -> ->]|Hin].
  - now rewrite String.eqb_refl.
  - destruct (String.eqb_spec k k') as [->|Hne]; [|now apply IH].
    exfalso. apply Hnin. unfold Dict.keys. apply in_map_iff.
    exists (k', v). split; [reflexivity | exact Hin].
Qed.

Lemma disconnect_absent_everywhere sid (au : Dict.t (Dict.t string)) :
  (forall k m, In (k, m) au -> Dict.get sid m = None) ->
  map (disconnect_entry sid) au = au /\
  flat_map (disconnect_effects sid) au = [].
Proof.
  induction au as [|[k m] au IH]; simpl; intros H; [split; reflexivity|].
  destruct IH as [IH1 IH2]; [intros k' m' Hin; apply (H k' m'); now right|].
  assert (Hm : Dict.get sid m = None) by (apply (H k m); now left).
  rewrite IH1, IH2. unfold disconnect_entry, disconnect_effects. simpl.
  rewrite Hm. rewrite dict_del_not_mem by (now apply dict_mem_false_get).
  split; reflexivity.
Qed.

(** C3: a disconnect of a connection that carries a display name sweeps
    the whole registry.  Afterwards the connection has no entry in any
    room.  For each room where it had an entry under name [n], the events
    addressed to that room are exactly two: the "[n] has disconnected"
    notification and one presence update listing the remaining members,
    and the room's dictionary is the former one without the connection.
    A room where it had no entry is addressed no event and keeps its
    dictionary.  A connection with no entry in any room leaves the world
    as it was and emits nothing. *)
Theorem disconnect_sweeps_every_room :
  forall (w : World) (sess : Session) (sid : Sid) (u : string),
    wf_world w ->
    username sess = Some u ->
    let r := handle_disconnect sess sid w in
    outcome_of r = inr tt /\
    (forall room, Dict.mem sid (members_of room (world_of r)) = false) /\
    (forall room name,
       Dict.get sid (members_of room w) = Some name ->
       members_of room (world_of r) = Dict.del sid (members_of room w) /\
       filter (targets room) (trace_of r) =
         [Emit (ToRoom (PStr room))
               (Notification (name ++ " has disconnected")%string "leave");
          Emit (ToRoom (PStr room))
               (UserListUpdate
                  (Dict.values (members_of room (world_of r)))
                  (List.length (Dict.values (members_of room (world_of r)))))]) /\
    (forall room,
       Dict.get sid (members_of room w) = None ->
       members_of room (world_of r) = members_of room w /\
       filter (targets room) (trace_of r) = []) /\
    ((forall room, Dict.get sid (members_of room w) = None) ->
       world_of r = w /\ trace_of r = []).
Proof.
  intros w sess sid u Hw Hu r. subst r.
  rewrite (handle_disconnect_run _ _ _ _ Hu (proj1 Hw)).
  unfold outcome_of, trace_of, world_of; simpl.
  assert (Hmem : forall room,
             members_of room
               (mkWorld (map (disconnect_entry sid) (active_users w))
                        (sio_rooms w) (db w)) =
             Dict.del sid (members_of room w)).
  { intros room. rewrite members_of_disconnected. destruct w; reflexivity. }
  split; [reflexivity|]. split; [|split; [|split]].
  - intros room. rewrite Hmem.
    rewrite dict_mem_del by (now apply wf_members_of).
    now rewrite String.eqb_refl.
  - intros room name Hname. rewrite Hmem. split; [reflexivity|].
    rewrite targets_disconnect_trace by exact (proj1 Hw).
    unfold members_of in Hname.
    unfold members_of. destruct (Dict.get room (active_users w)) as [m|].
    + unfold disconnect_effects. simpl. now rewrite Hname.
    + simpl in Hname. discriminate.
  - intros room Habs. rewrite Hmem. split.
    + apply dict_del_not_mem. now apply dict_mem_false_get.
    + rewrite targets_disconnect_trace by exact (proj1 Hw).
      unfold members_of in Habs.
      destruct (Dict.get room (active_users w)) as [m|]; [|reflexivity].
      unfold disconnect_effects. simpl. now rewrite Habs.
  - intros Hnone.
    destruct (disconnect_absent_everywhere sid (active_users w)) as [H1 H2].
    { intros k m Hin. specialize (Hnone k). unfold members_of in Hnone.
      now rewrite (dict_get_in _ _ _ (proj1 Hw) Hin) in Hnone. }
    rewrite H1, H2. destruct w; split; reflexivity.
Qed.

Lemma disconnect_sweeps_every_room_witness :
  let w := mkWorld [("A", [("x", "Xena"); ("y", "Yann")]);
                    ("B", [("x", "Xena")]);
                    ("C", [("y", "Yann"); ("x", "Xena")]);
                    ("D", [("y", "Yann")])] [] (mkDb [] []) in
  let sess := mkSession (Some "Xena") (Some 1) in
  let r := handle_disconnect sess "x" w in
  wf_world w /\
  username sess = Some "Xena" /\
  (forall room, Dict.mem "x" (members_of room (world_of r)) = false) /\
  filter (targets "A") (trace_of r) =
    [Emit (ToRoom (PStr "A")) (Notification "Xena has disconnected" "leave");
     Emit (ToRoom (PStr "A")) (UserListUpdate ["Yann"] 1)] /\
  filter (targets "B") (trace_of r) =
    [Emit (ToRoom (PStr "B")) (Notification "Xena has disconnected" "leave");
     Emit (ToRoom (PStr "B")) (UserListUpdate [] 0)] /\
  filter (targets "C") (trace_of r) =
    [Emit (ToRoom (PStr "C")) (Notification "Xena has disconnected" "leave");
     Emit (ToRoom (PStr "C")) (UserListUpdate ["Yann"] 1)] /\
  filter (targets "D") (trace_of r) = [].
Proof.
  intros w sess r.
  assert (Hwf : wf_world w).
  { split; simpl.
    - repeat constructor; simpl; intuition discriminate.
    - repeat constructor; simpl; intuition discriminate. }
  pose proof (disconnect_sweeps_every_room w sess "x" "Xena" Hwf eq_refl)
    as (_ & Hgone & Hin & Hout & _).
  split; [exact Hwf|]. split; [reflexivity|]. split; [exact Hgone|].
  split; [exact (proj2 (Hin "A" "Xena" eq_refl))|].
  split; [exact (proj2 (Hin "B" "Xena" eq_refl))|].
  split; [exact (proj2 (Hin "C" "Xena" eq_refl))|].
  exact (proj2 (Hout "D" eq_refl)).
Defined.

(** ** Sequences of joins and leaves on one room *)

Lemma dispatch_run room e w :
  on_room room e ->
  wf_world w ->
  let r := dispatch e w in
  let members' := members_of room (world_of r) in
  wf_world (world_of r) /\
  members' = (if is_join e
              then match username (ev_session e) with
                   | Some u => Dict.set (ev_sid e) u (members_of room w)
                   | None => members_of room w
                   end
              else Dict.del (ev_sid e) (members_of room w)) /\
  exists n,
    trace_of r =
      [Emit (ToRoom (PStr room)) n;
       Emit (ToRoom (PStr room))
            (UserListUpdate (Dict.values members')
                            (List.length (Dict.values members')))].
Proof.
  intros [Hroom Hauth] Hw.
  destruct (username (ev_session e)) as [u|] eqn:Hu; [|congruence].
  destruct e as [sess sid d|sess sid d]; simpl in *; subst room.
  - rewrite (handle_join_run _ _ _ _ _ Hu). unfold world_of, trace_of; simpl.
    split; [now apply wf_world_joined|].
    rewrite members_of_joined, String.eqb_refl.
    unfold members_of; simpl. split; [reflexivity|]. eexists. reflexivity.
  - rewrite (handle_leave_run _ _ _ _ _ Hu). unfold world_of, trace_of; simpl.
    split; [now apply wf_world_left|].
    rewrite members_of_left, String.eqb_refl.
    unfold members_of; simpl. split; [reflexivity|]. eexists. reflexivity.
Qed.

Lemma status_after_snoc s b evs e :
  status_after s b (evs ++ [e]) =
  if String.eqb s (ev_sid e) then is_join e else status_after s b evs.
Proof. unfold status_after. now rewrite fold_left_app. Qed.

Lemma status_after_cons s b e evs :
  status_after s b (e :: evs) =
  status_after s (if String.eqb s (ev_sid e) then is_join e else b) evs.
Proof. reflexivity. Qed.

Lemma status_after_in s evs :
  status_after s false evs = true -> In s (map ev_sid evs).
Proof.
  induction evs as [|e evs IH] using rev_ind; [discriminate|].
  rewrite status_after_snoc, map_app, in_app_iff. simpl.
  destruct (String.eqb_spec s (ev_sid e)) as [->|Hne]; auto.
Qed.

Lemma status_after_stays s post :
  (forall e, In e post -> ev_sid e = s -> is_join e = true) ->
  status_after s true post = true.
Proof.
  induction post as [|e post IH]; intros H; [reflexivity|].
  rewrite status_after_cons.
  destruct (String.eqb_spec s (ev_sid e)) as [->|Hne].
  - rewrite (H e) by (simpl; auto). apply IH. intros e' Hin. apply H. now right.
  - apply IH. intros e' Hin. apply H. now right.
Qed.

Lemma status_after_joined s evs :
  status_after s false evs = true <-> joined_and_not_left s evs.
Proof.
  split.
  - induction evs as [|e evs IH] using rev_ind; [discriminate|].
    rewrite status_after_snoc.
    destruct (String.eqb_spec s (ev_sid e)) as [->|Hne].
    + destruct e as [sess sid d|sess sid d]; simpl; [|discriminate].
      intros _. exists evs, sess, d, []. split; [reflexivity|].
      intros e [].
    + intros H. destruct (IH H) as (pre & sess & d & post & -> & Hpost).
      exists pre, sess, d, (post ++ [e]). split.
      * now rewrite <- app_assoc.
      * intros e' Hin Hs. apply in_app_iff in Hin. destruct Hin as [Hin|[<-|[]]].
        -- now apply Hpost.
        -- congruence.
  - intros (pre & sess & d & post & -> & Hpost).
    unfold status_after. rewrite fold_left_app. simpl.
    rewrite String.eqb_refl. now apply status_after_stays.
Qed.

Lemma run_members room evs :
  forall w,
    Forall (on_room room) evs ->
    wf_world w ->
    wf_world (fst (run evs w)) /\
    forall s, Dict.mem s (members_of room (fst (run evs w))) =
              status_after s (Dict.mem s (members_of room w)) evs.
Proof.
  induction evs as [|e evs IH]; intros w Hall Hw; cbn [run fst snd].
  - split; [exact Hw | reflexivity].
  - inversion Hall as [|? ? He Hrest]; subst.
    destruct (dispatch_run room e w He Hw) as (Hw1 & Hm1 & _).
    destruct (IH (world_of (dispatch e w)) Hrest Hw1) as [Hw2 Hmem].
    split; [exact Hw2|].
    intros s. rewrite Hmem, status_after_cons. f_equal.
    rewrite Hm1. destruct He as [_ Hauth].
    destruct (is_join e).
    + destruct (username (ev_session e)); [|congruence].
      rewrite dict_mem_set.
      destruct (String.eqb s (ev_sid e)); reflexivity.
    + rewrite dict_mem_del by (now apply wf_members_of).
      destruct (String.eqb s (ev_sid e)); reflexivity.
Qed.

Lemma run_last_broadcast room evs :
  forall w,
    Forall (on_room room) evs ->
    wf_world w ->
    evs <> [] ->
    let users := Dict.values (members_of room (fst (run evs w))) in
    exists t0,
      snd (run evs w) =
      t0 ++ [Emit (ToRoom (PStr room)) (UserListUpdate users (List.length users))].
Proof.
  induction evs as [|e evs IH]; intros w Hall Hw Hne; [congruence|].
  inversion Hall as [|? ? He Hrest]; subst.
  destruct (dispatch_run room e w He Hw) as (Hw1 & _ & n & Ht).
  destruct evs as [|e' evs].
  - simpl. rewrite Ht. exists [Emit (ToRoom (PStr room)) n].
    rewrite app_nil_r. reflexivity.
  - destruct (IH (world_of (dispatch e w)) Hrest Hw1) as [t0 Ht0]; [discriminate|].
    exists (trace_of (dispatch e w) ++ t0).
    change (snd (run (e :: e' :: evs) w))
      with (trace_of (dispatch e w) ++ snd (run (e' :: evs) (world_of (dispatch e w)))).
    rewrite Ht0, app_assoc. reflexivity.
Qed.

Lemma still_joined_spec s evs :
  In s (still_joined evs) <-> status_after s false evs = true.
Proof.
  unfold still_joined. rewrite nodup_In, filter_In. split.
  - tauto.
  - intros H. split; [now apply status_after_in | exact H].
Qed.

(** C1: for every sequence of join and leave events of connections that
    carry a display name, all naming one room whose dictionary is empty at
    the start, the room's user list after the sequence has as many names
    as there are distinct connections that joined and did not leave
    afterwards; the keys of the room's dictionary are exactly those
    connections, each once; and the last event emitted by a non-empty
    sequence is the presence update carrying that list and that count. *)
Theorem presence_count_is_number_still_joined :
  forall (room : string) (w : World) (evs : list PresenceEvent),
    wf_world w ->
    members_of room w = Dict.empty ->
    Forall (on_room room) evs ->
    let w' := fst (run evs w) in
    let users := Dict.values (members_of room w') in
    List.length users = List.length (still_joined evs) /\
    NoDup (still_joined evs) /\
    NoDup (Dict.keys (members_of room w')) /\
    (forall s, In s (still_joined evs) <-> joined_and_not_left s evs) /\
    (forall s, In s (Dict.keys (members_of room w')) <-> joined_and_not_left s evs) /\
    (evs <> [] ->
     exists t0,
       snd (run evs w) =
       t0 ++ [Emit (ToRoom (PStr room))
                   (UserListUpdate users (List.length (still_joined evs)))]).
Proof.
  intros room w evs Hw Hempty Hall w' users.
  destruct (run_members room evs w Hall Hw) as [Hw' Hmem].
  fold w' in Hw', Hmem.
  assert (Hkeys : forall s, In s (Dict.keys (members_of room w')) <->
                            status_after s false evs = true).
  { intros s. rewrite dict_in_keys_mem, Hmem, Hempty. reflexivity. }
  assert (Hnd : NoDup (Dict.keys (members_of room w')))
    by (now apply wf_members_of).
  assert (Hnd' : NoDup (still_joined evs)) by apply NoDup_nodup.
  assert (Hlen : List.length users = List.length (still_joined evs)).
  { subst users. rewrite dict_length_values.
    apply Nat.le_antisymm; apply NoDup_incl_length; try assumption.
    - intros s Hs. apply still_joined_spec. now apply Hkeys.
    - intros s Hs. apply Hkeys. now apply still_joined_spec. }
  split; [exact Hlen|]. split; [exact Hnd'|]. split; [exact Hnd|].
  split; [intros s; rewrite still_joined_spec; apply status_after_joined|].
  split; [intros s; rewrite Hkeys; apply status_after_joined|].
  intros Hne. destruct (run_last_broadcast room evs w Hall Hw Hne) as [t0 Ht0].
  exists t0. rewrite Ht0. fold w'. fold users. now rewrite Hlen.
Qed.

Lemma presence_count_is_number_still_joined_witness :
  let a := mkSession (Some "Alice") (Some 1) in
  let b := mkSession (Some "Bob") (Some 2) in
  let one := mkJoinData (PInt 1) in
  let evs := [Join a "A" one; Join b "B" (mkJoinData (PStr "1"));
              Join a "A2" one; Leave a "A" one; Join b "B" one;
              Leave a "C" one; Join a "A" one; Leave a "A2" one] in
  let w := init_world setup_db in
  wf_world w /\
  members_of "1" w = Dict.empty /\
  Forall (on_room "1") evs /\
  still_joined evs = ["B"; "A"] /\
  Dict.values (members_of "1" (fst (run evs w))) = ["Bob"; "Alice"] /\
  List.length (Dict.values (members_of "1" (fst (run evs w)))) = 2.
Proof.
  intros a b one evs w.
  assert (Hwf : wf_world w) by (split; constructor).
  assert (Hall : Forall (on_room "1") evs)
    by (repeat constructor; simpl; discriminate).
  split; [exact Hwf|]. split; [reflexivity|]. split; [exact Hall|].
  split; [reflexivity|]. split; [reflexivity|].
  exact (proj1 (presence_count_is_number_still_joined "1" w evs Hwf eq_refl Hall)).
Defined.

(** * Further properties of the socket handlers *)

(** ** Events of a connection without a display name *)

Lemma handle_join_unauth sess sid data w :
  username sess = None ->
  handle_join sess sid data w =
    (mkWorld (active_users w)
             (subscribed sid (py_str (jd_room_id data)) (sio_rooms w)) (db w),
     [], inl (KeyError "username")).
Proof.
  intros Hu. unfold handle_join, session_username. rewrite Hu.
  unfold subscribed.
  cbv beta iota zeta delta [bind join_room get_world put_sio_rooms ret raise].
  destruct (existsb (sub_eqb (sid, py_str (jd_room_id data))) (sio_rooms w));
    destruct w; reflexivity.
Qed.

Lemma handle_leave_unauth sess sid data w :
  username sess = None ->
  handle_leave sess sid data w =
    (mkWorld (active_users w)
             (unsubscribed sid (py_str (jd_room_id data)) (sio_rooms w)) (db w),
     [], inl (KeyError "username")).
Proof.
  intros Hu. unfold handle_leave, session_username. rewrite Hu.
  reflexivity.
Qed.

Lemma in_subscribed sid room s :
  existsb (sub_eqb (sid, room)) (subscribed sid room s) = true.
Proof.
  unfold subscribed.
  destruct (existsb (sub_eqb (sid, room)) s) eqn:H; [exact H|].
  rewrite existsb_app. simpl. unfold sub_eqb at 2. simpl.
  rewrite !String.eqb_refl. simpl. now rewrite orb_true_r.
Qed.

Lemma not_in_unsubscribed sid room s :
  existsb (sub_eqb (sid, room)) (unsubscribed sid room s) = false.
Proof.
  unfold unsubscribed. induction s as [|x s IH]; simpl; [reflexivity|].
  destruct (sub_eqb (sid, room) x) eqn:Hx; simpl; [exact IH|].
  now rewrite Hx, IH.
Qed.

(** X1: A join of a connection whose session has no username raises
    [KeyError] after [join_room] has run: the connection is subscribed to
    the Socket.IO room, the registry is untouched (no presence entry is
    created), the database is untouched and nothing is emitted. *)
Theorem join_without_username_subscribes_only :
  forall (w : World) (sess : Session) (sid : Sid) (data : JoinData),
    username sess = None ->
    let room := py_str (jd_room_id data) in
    let r := handle_join sess sid data w in
    outcome_of r = inl (KeyError "username") /\
    trace_of r = [] /\
    active_users (world_of r) = active_users w /\
    db (world_of r) = db w /\
    in_sio_room sid room (world_of r) = true.
Proof.
  intros w sess sid data Hu room r. subst r.
  rewrite (handle_join_unauth _ _ _ _ Hu).
  unfold outcome_of, trace_of, world_of, in_sio_room; simpl.
  repeat split. apply in_subscribed.
Qed.

Lemma join_without_username_subscribes_only_witness :
  let sess := mkSession None None in
  let w := init_world setup_db in
  let r := handle_join sess "Z" (mkJoinData (PInt 1)) w in
  username sess = None /\
  joined "Z" (PInt 1) (world_of r) = false /\
  in_sio_room "Z" "1" (world_of r) = true.
Proof.
  intros sess w r. do 2 (split; [reflexivity|]).
  exact (proj2 (proj2 (proj2 (proj2
    (join_without_username_subscribes_only w sess "Z" (mkJoinData (PInt 1))
                                           eq_refl))))).
Defined.

(** X2: A leave or a disconnect of a connection whose session has no username
    never changes the registry and emits nothing, whatever entries the
    registry holds for that connection: the leave unsubscribes the
    connection from the Socket.IO room and raises [KeyError], the
    disconnect returns without doing anything. *)
Theorem leave_disconnect_without_username_keep_registry :
  forall (w : World) (sess : Session) (sid : Sid) (data : JoinData),
    username sess = None ->
    let room := py_str (jd_room_id data) in
    let rl := handle_leave sess sid data w in
    let rd := handle_disconnect sess sid w in
    (outcome_of rl = inl (KeyError "username") /\
     trace_of rl = [] /\
     active_users (world_of rl) = active_users w /\
     in_sio_room sid room (world_of rl) = false) /\
    (outcome_of rd = inr tt /\ trace_of rd = [] /\ world_of rd = w).
Proof.
  intros w sess sid data Hu room rl rd. subst rl rd.
  rewrite (handle_leave_unauth _ _ _ _ Hu).
  unfold handle_disconnect. rewrite Hu.
  unfold outcome_of, trace_of, world_of, in_sio_room, ret; simpl.
  repeat split. apply not_in_unsubscribed.
Qed.

Lemma leave_disconnect_without_username_keep_registry_witness :
  let sess := mkSession None None in
  let w := mkWorld [("1", [("A", "Alice")])] [("A", "1")] (mkDb [] []) in
  username sess = None /\
  joined "A" (PInt 1) w = true /\
  joined "A" (PInt 1) (world_of (handle_leave sess "A" (mkJoinData (PInt 1)) w)) = true /\
  world_of (handle_disconnect sess "A" w) = w.
Proof.
  intros sess w. do 3 (split; [reflexivity|]).
  exact (proj2 (proj2 (proj2
    (leave_disconnect_without_username_keep_registry w sess "A"
       (mkJoinData (PInt 1)) eq_refl)))).
Defined.

(** ** Join and leave composed *)

Lemma dict_del_set_new {V} k v (d : Dict.t V) :
  Dict.mem k d = false -> Dict.del k (Dict.set k v d) = d.
Proof.
  unfold Dict.mem. induction d as [|[k' v'] d IH]; simpl.
  - now rewrite String.eqb_refl.
  - destruct (String.eqb_spec k k') as [->|Hne]; [discriminate|].
    intros H. simpl. destruct (String.eqb_spec k k'); [contradiction|].
    f_equal. exact (IH H).
Qed.

Lemma members_after_join sess sid data w u room' :
  username sess = Some u ->
  members_of room' (world_of (handle_join sess sid data w)) =
  if String.eqb room' (py_str (jd_room_id data))
  then Dict.set sid u (members_of (py_str (jd_room_id data)) w)
  else members_of room' w.
Proof.
  intros Hu. rewrite (handle_join_run _ _ _ _ _ Hu). unfold world_of; simpl.
  rewrite members_of_joined. destruct w; reflexivity.
Qed.

Lemma members_after_leave sess sid data w u room' :
  username sess = Some u ->
  members_of room' (world_of (handle_leave sess sid data w)) =
  if String.eqb room' (py_str (jd_room_id data))
  then Dict.del sid (members_of (py_str (jd_room_id data)) w)
  else members_of room' w.
Proof.
  intros Hu. rewrite (handle_leave_run _ _ _ _ _ Hu). unfold world_of; simpl.
  rewrite members_of_left. destruct w; reflexivity.
Qed.

(** X3: a join followed by a leave of the same connection on the same
    room is a round trip on the presence lists: when the connection had no
    entry in the room, every room's dictionary (names and order) is
    afterwards what it was before the join. *)
Theorem join_then_leave_restores_presence :
  forall (w : World) (s1 s2 : Session) (sid : Sid) (d1 d2 : JoinData)
         (u1 u2 : string),
    username s1 = Some u1 ->
    username s2 = Some u2 ->
    py_str (jd_room_id d2) = py_str (jd_room_id d1) ->
    Dict.mem sid (members_of (py_str (jd_room_id d1)) w) = false ->
    let w1 := world_of (handle_join s1 sid d1 w) in
    let w2 := world_of (handle_leave s2 sid d2 w1) in
    forall room, members_of room w2 = members_of room w.
Proof.
  intros w s1 s2 sid d1 d2 u1 u2 H1 H2 Hroom Habs w1 w2 room.
  subst w2 w1.
  rewrite (members_after_leave _ _ _ _ _ _ H2), Hroom.
  destruct (String.eqb_spec room (py_str (jd_room_id d1))) as [->|Hne].
  - rewrite (members_after_join _ _ _ _ _ _ H1), String.eqb_refl.
    now apply dict_del_set_new.
  - rewrite (members_after_join _ _ _ _ _ _ H1).
    destruct (String.eqb_spec room (py_str (jd_room_id d1))); [contradiction|].
    reflexivity.
Qed.

Lemma join_then_leave_restores_presence_witness :
  let w := mkWorld [("1", [("A", "Alice")]); ("2", [("B", "Bob")])] []
                   (mkDb [] []) in
  let bob := mkSession (Some "Bob") (Some 2) in
  let w2 := world_of (handle_leave bob "B" (mkJoinData (PStr "1"))
              (world_of (handle_join bob "B" (mkJoinData (PInt 1)) w))) in
  username bob = Some "Bob" /\
  py_str (PStr "1") = py_str (PInt 1) /\
  Dict.mem "B" (members_of "1" w) = false /\
  members_of "1" w2 = [("A", "Alice")].
Proof.
  intros w bob w2. do 3 (split; [reflexivity|]).
  exact (join_then_leave_restores_presence w bob bob "B"
           (mkJoinData (PInt 1)) (mkJoinData (PStr "1")) "Bob" "Bob"
           eq_refl eq_refl eq_refl eq_refl "1").
Defined.

(** X4: a leave followed by a new join does not give the connection its
    old place back: the room's user list is then the former list without
    the connection's entry, followed by the connection's name at the end
    (unlike a second join without a leave, which keeps the position). *)
Theorem leave_then_join_moves_to_end :
  forall (w : World) (s1 s2 : Session) (sid : Sid) (d1 d2 : JoinData)
         (u1 u2 : string),
    wf_world w ->
    username s1 = Some u1 ->
    username s2 = Some u2 ->
    py_str (jd_room_id d2) = py_str (jd_room_id d1) ->
    let room := py_str (jd_room_id d1) in
    let w1 := world_of (handle_leave s1 sid d1 w) in
    let w2 := world_of (handle_join s2 sid d2 w1) in
    Dict.values (members_of room w2) =
    map snd (filter (fun kv => negb (String.eqb sid (fst kv))) (members_of room w))
    ++ [u2].
Proof.
  intros w s1 s2 sid d1 d2 u1 u2 Hw H1 H2 Hroom room w1 w2.
  subst w2 w1.
  rewrite (members_after_join _ _ _ _ _ _ H2), Hroom. fold room.
  rewrite String.eqb_refl.
  rewrite (members_after_leave _ _ _ _ _ _ H1). fold room.
  rewrite String.eqb_refl.
  assert (Hwf : Dict.wf (members_of room w)) by now apply wf_members_of.
  rewrite dict_values_set_new.
  - rewrite dict_del_filter by exact Hwf. reflexivity.
  - rewrite dict_mem_del by exact Hwf. now rewrite String.eqb_refl.
Qed.

Lemma leave_then_join_moves_to_end_witness :
  let w := mkWorld [("1", [("A", "Alice"); ("B", "Bob"); ("C", "Carol")])] []
                   (mkDb [] []) in
  let alice := mkSession (Some "Alice") (Some 1) in
  let one := mkJoinData (PInt 1) in
  wf_world w /\
  username alice = Some "Alice" /\
  Dict.values (members_of "1"
    (world_of (handle_join alice "A" one
       (world_of (handle_leave alice "A" one w))))) = ["Bob"; "Carol"; "Alice"].
Proof.
  intros w alice one.
  assert (Hwf : wf_world w).
  { split; simpl; repeat constructor; simpl; intuition discriminate. }
  split; [exact Hwf|]. split; [reflexivity|].
  exact (leave_then_join_moves_to_end w alice alice "A" one one "Alice" "Alice"
           Hwf eq_refl eq_refl eq_refl).
Defined.

(** X5: a join or a leave naming one room leaves every other room's
    dictionary as it was, and every event it emits is addressed to the
    named room; this holds for sessions with and without a username. *)
Theorem join_leave_touch_only_their_room :
  forall (w : World) (sess : Session) (sid : Sid) (data : JoinData)
         (other : string),
    other <> py_str (jd_room_id data) ->
    let room := py_str (jd_room_id data) in
    let rj := handle_join sess sid data w in
    let rl := handle_leave sess sid data w in
    members_of other (world_of rj) = members_of other w /\
    members_of other (world_of rl) = members_of other w /\
    forallb (targets room) (trace_of rj) = true /\
    forallb (targets room) (trace_of rl) = true /\
    filter (targets other) (trace_of rj) = [] /\
    filter (targets other) (trace_of rl) = [].
Proof.
  intros w sess sid data other Hne room rj rl. subst rj rl.
  assert (Hneq : String.eqb room other = false)
    by (apply String.eqb_neq; unfold room; congruence).
  destruct (username sess) as [u|] eqn:Hu.
  - rewrite (members_after_join _ _ _ _ _ _ Hu),
            (members_after_leave _ _ _ _ _ _ Hu).
    destruct (String.eqb_spec other (py_str (jd_room_id data))); [contradiction|].
    rewrite (handle_join_run _ _ _ _ _ Hu), (handle_leave_run _ _ _ _ _ Hu).
    unfold trace_of; simpl. fold room.
    rewrite String.eqb_refl, Hneq. repeat split.
  - rewrite (handle_join_unauth _ _ _ _ Hu), (handle_leave_unauth _ _ _ _ Hu).
    unfold trace_of, world_of; simpl. repeat split.
Qed.

Lemma join_leave_touch_only_their_room_witness :
  let w := mkWorld [("1", [("A", "Alice")]); ("2", [("B", "Bob")])] []
                   (mkDb [] []) in
  let bob := mkSession (Some "Bob") (Some 2) in
  "2" <> py_str (PInt 1) /\
  members_of "2" (world_of (handle_join bob "B" (mkJoinData (PInt 1)) w)) =
    [("B", "Bob")].
Proof.
  intros w bob.
  assert (Hne : "2" <> py_str (PInt 1)) by discriminate.
  split; [exact Hne|].
  exact (proj1 (join_leave_touch_only_their_room w bob "B"
                  (mkJoinData (PInt 1)) "2" Hne)).
Defined.

(** ** Message and image events *)

Lemma handle_message_frame sess sid data oc w :
  let r := handle_message sess sid data oc w in
  active_users (world_of r) = active_users w /\
  sio_rooms (world_of r) = sio_rooms w /\
  rooms (db (world_of r)) = rooms (db w) /\
  exists added,
    messages (db (world_of r)) = messages (db w) ++ added /\
    List.length added <= 1 /\
    forallb (fun e => match e with
                      | Emit (ToSender _) _ => false
                      | _ => true
                      end) (trace_of r) = true.
Proof.
  destruct sess as [[u|] [uid|]], oc as [id ts|], data as [rid c [ct|]];
    run_handler; simpl; try destruct (String.eqb ct "text"); simpl.
  all: do 3 (split; [reflexivity|]).
  all: first [ exists []; rewrite app_nil_r; repeat split; simpl; lia
             | eexists [_]; repeat split; simpl; lia ].
Qed.

Lemma handle_image_frame process_image sess sid data oc w :
  let r := handle_image process_image sess sid data oc w in
  active_users (world_of r) = active_users w /\
  sio_rooms (world_of r) = sio_rooms w /\
  rooms (db (world_of r)) = rooms (db w) /\
  outcome_of r = inr tt /\
  exists added,
    messages (db (world_of r)) = messages (db w) ++ added /\
    List.length added <= 1.
Proof.
  destruct sess as [[u|] [uid|]], oc as [id ts|], data as [rid img];
    run_handler; simpl;
    destruct (split_comma img) as [[hdr encoded]|]; simpl;
    try destruct (process_image encoded) as [p|]; simpl.
  all: do 4 (split; [reflexivity|]).
  all: first [ exists []; rewrite app_nil_r; repeat split; simpl; lia
             | eexists [_]; repeat split; simpl; lia ].
Qed.



(** X7: when the session holds a [user_id] but no [username] and the
    commit succeeds, the message is stored and never announced:
    [handle_message] raises [KeyError] after the commit and emits nothing;
    [handle_image], for a payload that decodes, stores the image and the
    only event is the private "Failed to process image" error. *)
Theorem stored_but_not_broadcast_without_username :
  forall (process_image : string -> option string) (w : World)
         (sess : Session) (sid : Sid) (mdata : MessageData) (idata : ImageData)
         (id : nat) (ts : string) (uid : nat) (p : string),
    username sess = None ->
    user_id sess = Some uid ->
    decode_image process_image (id_image idata) = Some p ->
    let rm := handle_message sess sid mdata (CommitOk id ts) w in
    let ri := handle_image process_image sess sid idata (CommitOk id ts) w in
    (outcome_of rm = inl (KeyError "username") /\
     messages (db (world_of rm)) =
       messages (db w) ++ [mkMessage id (md_content mdata) (content_type_of mdata)
                                     ts uid (md_room_id mdata)] /\
     filter (fun e => negb (is_persist e)) (trace_of rm) = []) /\
    (outcome_of ri = inr tt /\
     messages (db (world_of ri)) =
       messages (db w) ++ [mkMessage id ("data:image/png;base64," ++ p)%string
                                     "image" ts uid (id_room_id idata)] /\
     filter (fun e => negb (is_persist e)) (trace_of ri) =
       [Emit (ToSender sid) (Error "Failed to process image")]).
Proof.
  intros process_image w [un ui] sid [rid c ct] [irid img] id ts uid p;
    simpl; intros -> -> Hdec; cbv zeta.
  unfold decode_image in Hdec. unfold content_type_of. simpl.
  split.
  - destruct ct as [ct|]; run_handler; simpl; repeat split.
  - run_handler. destruct (split_comma img) as [[hdr encoded]|]; [|discriminate].
    rewrite Hdec. simpl. repeat split.
Qed.

Lemma stored_but_not_broadcast_without_username_witness :
  let sess := mkSession None (Some 5) in
  let w := init_world setup_db in
  let r := handle_message sess "A" (mkMessageData (PInt 1) "hello" None)
                          (CommitOk 1 "t0") w in
  username sess = None /\
  user_id sess = Some 5 /\
  decode_image (fun s => Some s) "data:image/jpeg;base64,QQ==" = Some "QQ==" /\
  List.length (messages (db (world_of r))) = 1 /\
  count is_room_emit (trace_of r) = 0 /\
  outcome_of r = inl (KeyError "username").
Proof.
  intros sess w r. do 5 (split; [reflexivity|]).
  exact (proj1 (proj1 (stored_but_not_broadcast_without_username
                  (fun s => Some s) w sess "A"
                  (mkMessageData (PInt 1) "hello" None)
                  (mkImageData (PInt 1) "data:image/jpeg;base64,QQ==")
                  1 "t0" 5 "QQ==" eq_refl eq_refl eq_refl))).
Defined.

(** X8: the content type sent by the client is stored and rebroadcast as
    it is, and every content type other than "text" is announced to the
    room as "<username> sent an image", with the content itself not
    quoted in the notification. *)
Theorem non_text_message_is_announced_as_image :
  forall (w : World) (sess : Session) (sid : Sid) (data : MessageData)
         (id : nat) (ts u : string) (uid : nat),
    username sess = Some u ->
    user_id sess = Some uid ->
    content_type_of data <> "text" ->
    let ct := content_type_of data in
    let r := handle_message sess sid data (CommitOk id ts) w in
    trace_of r =
      [Persist (mkMessage id (md_content data) ct ts uid (md_room_id data));
       Emit (ToRoom (md_room_id data))
            (NewMessage id (md_content data) ct ts u uid);
       Emit (ToRoom (md_room_id data))
            (Notification (u ++ " sent an image")%string "message")].
Proof.
  intros w sess sid data id ts u uid Hu Hid Hct ct r. subst r.
  rewrite (handle_message_run _ _ _ _ _ _ _ _ Hu Hid). unfold trace_of; simpl.
  fold ct. unfold message_notification.
  destruct (String.eqb_spec ct "text") as [Heq|_]; [contradiction|reflexivity].
Qed.

Lemma non_text_message_is_announced_as_image_witness :
  let sess := mkSession (Some "Bob") (Some 2) in
  let data := mkMessageData (PInt 1) "https://example.org/clip" (Some "video") in
  username sess = Some "Bob" /\
  user_id sess = Some 2 /\
  content_type_of data <> "text" /\
  trace_of (handle_message sess "B" data (CommitOk 3 "t0") (init_world setup_db)) =
    [Persist (mkMessage 3 "https://example.org/clip" "video" "t0" 2 (PInt 1));
     Emit (ToRoom (PInt 1))
          (NewMessage 3 "https://example.org/clip" "video" "t0" "Bob" 2);
     Emit (ToRoom (PInt 1)) (Notification "Bob sent an image" "message")].
Proof.
  intros sess data.
  assert (Hct : content_type_of data <> "text") by discriminate.
  do 2 (split; [reflexivity|]). split; [exact Hct|].
  exact (non_text_message_is_announced_as_image (init_world setup_db) sess "B"
           data 3 "t0" "Bob" 2 eq_refl eq_refl Hct).
Defined.

(** ** The data URI of an image payload *)

Lemma split_comma_complete h e :
  has_comma h = false ->
  split_comma (h ++ String ","%char e) = Some (h, e).
Proof.
  induction h as [|c h IH]; simpl; [reflexivity|].
  destruct (Ascii.eqb c ","%char); simpl; [discriminate|].
  intros H. now rewrite (IH H).
Qed.

Lemma split_comma_sound s :
  match split_comma s with
  | Some (h, e) => s = (h ++ String ","%char e)%string /\ has_comma h = false
  | None => has_comma s = false
  end.
Proof.
  induction s as [|c s IH]; simpl; [reflexivity|].
  destruct (Ascii.eqb_spec c ","%char) as [->|Hne]; simpl.
  - split; reflexivity.
  - destruct (split_comma s) as [[h e]|]; simpl.
    + destruct IH as [-> Hh]. split; [reflexivity|].
      destruct (Ascii.eqb_spec c ","%char); [contradiction | exact Hh].
    + exact IH.
Qed.

(** X9: the split of the image payload cuts at the first comma: it yields
    header [h] and data [e] exactly when the payload is [h], a comma, [e]
    with no comma in [h] (commas in [e] stay in [e]), and it fails exactly
    when the payload has no comma at all. *)
Theorem split_comma_cuts_at_first_comma :
  forall s : string,
    (split_comma s = None <-> has_comma s = false) /\
    (forall h e,
       split_comma s = Some (h, e) <->
       s = (h ++ String ","%char e)%string /\ has_comma h = false).
Proof.
  intros s. pose proof (split_comma_sound s) as H. split.
  - destruct (split_comma s) as [[h e]|] eqn:Hs.
    + destruct H as [-> Hh]. split; [discriminate|].
      intros Hc. rewrite split_comma_complete in Hs by exact Hh.
      clear Hs. exfalso. revert Hc. clear -Hh.
      induction h as [|c h IH]; simpl; [discriminate|].
      simpl in Hh. apply orb_false_elim in Hh as [Hc Hh].
      rewrite Hc. simpl. now apply IH.
    + split; auto.
  - intros h e. split.
    + intros Hs. rewrite Hs in H. exact H.
    + intros [-> Hh]. now apply split_comma_complete.
Qed.

Lemma handle_image_after_split process_image sess sid rid img h e oc w :
  split_comma img = Some (h, e) ->
  handle_image process_image sess sid (mkImageData rid img) oc w =
  handle_image process_image sess sid (mkImageData rid (String ","%char e)) oc w.
Proof.
  intros Hs. unfold handle_image. simpl. rewrite Hs. reflexivity.
Qed.

(** X10: the header of the data URI is thrown away.  Two image payloads
    with the same data after the first comma are handled identically
    whatever their headers, and a stored image message always has content
    type "image" and a content that starts with "data:image/png;base64,"
    followed by the re-encoded data. *)
Theorem image_header_is_discarded :
  forall (process_image : string -> option string) (w : World)
         (sess : Session) (sid : Sid) (rid : PyVal) (h1 h2 e : string)
         (oc : CommitOutcome),
    has_comma h1 = false ->
    has_comma h2 = false ->
    let r1 := handle_image process_image sess sid
                (mkImageData rid (h1 ++ String ","%char e)) oc w in
    let r2 := handle_image process_image sess sid
                (mkImageData rid (h2 ++ String ","%char e)) oc w in
    r1 = r2 /\
    forall m, In (Persist m) (trace_of r1) ->
      exists p, process_image e = Some p /\
                msg_content m = ("data:image/png;base64," ++ p)%string /\
                msg_content_type m = "image".
Proof.
  intros process_image w sess sid rid h1 h2 e oc H1 H2 r1 r2. subst r1 r2.
  rewrite (handle_image_after_split _ _ _ _ _ h1 e _ _ (split_comma_complete _ _ H1)).
  rewrite (handle_image_after_split _ _ _ _ _ h2 e _ _ (split_comma_complete _ _ H2)).
  split; [reflexivity|].
  destruct sess as [[u|] [uid|]], oc as [id ts|]; run_handler; simpl;
    destruct (process_image e) as [p|]; simpl; intros m Hm.
  all: repeat (destruct Hm as [Hm|Hm]; try discriminate Hm); try contradiction.
  all: injection Hm as <-; exists p; repeat split.
Qed.

Lemma image_header_is_discarded_witness :
  let proc := fun s : string => Some s in
  let sess := mkSession (Some "Bob") (Some 2) in
  let w := init_world setup_db in
  has_comma "data:image/jpeg;base64" = false /\
  has_comma "" = false /\
  handle_image proc sess "B" (mkImageData (PInt 1) "data:image/jpeg;base64,QQ==")
               (CommitOk 1 "t0") w =
  handle_image proc sess "B" (mkImageData (PInt 1) ",QQ==") (CommitOk 1 "t0") w.
Proof.
  intros proc sess w. do 2 (split; [reflexivity|]).
  exact (proj1 (image_header_is_discarded proc w sess "B" (PInt 1)
                  "data:image/jpeg;base64" "" "QQ==" (CommitOk 1 "t0")
                  eq_refl eq_refl)).
Defined.

(** ** Room identifiers *)

(** X11: [handle_join] and [handle_leave] key the registry and address
    their events by [str(room_id)], while [handle_message] and
    [handle_image] address their events to the room identifier as
    received.  For an integer room identifier, a join is handled exactly
    as for its decimal string, and no event of a message or an image is
    addressed to the room of that name. *)
Theorem integer_room_ids_split_presence_from_messages :
  forall (process_image : string -> option string) (w : World)
         (sess : Session) (sid : Sid) (z : Z)
         (content : string) (ct : option string) (img : string)
         (oc : CommitOutcome),
    let name := py_str (PInt z) in
    handle_join sess sid (mkJoinData (PInt z)) w =
      handle_join sess sid (mkJoinData (PStr name)) w /\
    handle_leave sess sid (mkJoinData (PInt z)) w =
      handle_leave sess sid (mkJoinData (PStr name)) w /\
    filter (targets name)
           (trace_of (handle_message sess sid (mkMessageData (PInt z) content ct)
                                     oc w)) = [] /\
    filter (targets name)
           (trace_of (handle_image process_image sess sid
                                   (mkImageData (PInt z) img) oc w)) = [].
Proof.
  intros process_image w sess sid z content ct img oc name.
  split; [reflexivity|]. split; [reflexivity|]. split.
  - destruct sess as [[u|] [uid|]], oc as [id ts|], ct as [ct|];
      run_handler; simpl; try destruct (String.eqb ct "text"); reflexivity.
  - destruct sess as [[u|] [uid|]], oc as [id ts|]; run_handler; simpl;
      destruct (split_comma img) as [[hdr encoded]|]; simpl;
      try destruct (process_image encoded) as [p|]; reflexivity.
Qed.

(** ** Invariants over arbitrary sequences of socket events *)

Lemma disconnect_room_keeps_db sid k w :
  db (world_of (disconnect_room sid k w)) = db w.
Proof.
  unfold disconnect_room.
  cbv beta iota zeta delta [bind get_world lookup put_active_users emit ret
                            raise world_of].
  simpl. destruct (Dict.get k (active_users w)) as [m|]; simpl; [|reflexivity].
  destruct (Dict.mem sid m); simpl; [|reflexivity].
  destruct (Dict.get sid m); reflexivity.
Qed.

Lemma for_each_keeps_db {A} (body : A -> M unit) (xs : list A) :
  (forall x w, db (world_of (body x w)) = db w) ->
  forall w, db (world_of (for_each xs body w)) = db w.
Proof.
  intros Hbody. induction xs as [|x xs IH]; intros w; simpl; [reflexivity|].
  unfold bind. specialize (Hbody x w). unfold world_of in *.
  destruct (body x w) as [[w1 t1] [e|[]]]; simpl in *; [exact Hbody|].
  specialize (IH w1). destruct (for_each xs body w1) as [[w2 t2] r2].
  simpl in *. congruence.
Qed.

Lemma handle_event_db process_image e w :
  let r := handle_event process_image e w in
  rooms (db (world_of r)) = rooms (db w) /\
  exists added,
    messages (db (world_of r)) = messages (db w) ++ added /\
    List.length added <= (if is_post e then 1 else 0).
Proof.
  assert (Hsame : forall w' : World, db w' = db w ->
            rooms (db w') = rooms (db w) /\
            exists added, messages (db w') = messages (db w) ++ added /\
                          List.length added <= 0).
  { intros w' ->. split; [reflexivity|]. exists []. now rewrite app_nil_r. }
  destruct e as [sess sid|sess sid|sess sid d|sess sid d|sess sid d oc|sess sid d oc];
    simpl.
  - apply Hsame. unfold handle_connect. destruct (username sess); reflexivity.
  - apply Hsame. unfold handle_disconnect.
    destruct (username sess); [|reflexivity].
    unfold bind at 1, get_world at 1.
    pose proof (for_each_keeps_db (disconnect_room sid)
                  (Dict.keys (active_users w))
                  (disconnect_room_keeps_db sid) w) as H.
    unfold world_of in *.
    destruct (for_each (Dict.keys (active_users w)) (disconnect_room sid) w)
      as [[w2 t2] r2]. exact H.
  - apply Hsame. destruct (username sess) as [u|] eqn:Hu.
    + now rewrite (handle_join_run _ _ _ _ _ Hu).
    + now rewrite (handle_join_unauth _ _ _ _ Hu).
  - apply Hsame. destruct (username sess) as [u|] eqn:Hu.
    + now rewrite (handle_leave_run _ _ _ _ _ Hu).
    + now rewrite (handle_leave_unauth _ _ _ _ Hu).
  - destruct (handle_message_frame sess sid d oc w)
      as (_ & _ & Hr & added & Hm & Hl & _).
    split; [exact Hr|]. exists added. split; assumption.
  - destruct (handle_image_frame process_image sess sid d oc w)
      as (_ & _ & Hr & _ & added & Hm & Hl).
    split; [exact Hr|]. exists added. split; assumption.
Qed.

(** X12: the socket handlers only ever append to the stored messages.
    After any sequence of socket events, with any sessions, payloads and
    commit outcomes, the rooms table is unchanged, the messages stored
    before are still there in the same order at the front, and at most
    one row was added per message or image event. *)
Theorem socket_events_only_append_messages :
  forall (process_image : string -> option string)
         (evs : list SocketEvent) (w : World),
    let w' := fst (serve process_image evs w) in
    rooms (db w') = rooms (db w) /\
    exists added,
      messages (db w') = messages (db w) ++ added /\
      List.length added <= List.length (filter is_post evs).
Proof.
  intros process_image evs. induction evs as [|e evs IH]; intros w; simpl.
  - split; [reflexivity|]. exists []. now rewrite app_nil_r.
  - destruct (handle_event_db process_image e w) as (Hr & a1 & Hm & Hl).
    destruct (IH (world_of (handle_event process_image e w)))
      as (Hr' & a2 & Hm' & Hl').
    split; [congruence|].
    exists (a1 ++ a2). split.
    + rewrite Hm', Hm. now rewrite app_assoc.
    + rewrite length_app. destruct (is_post e); simpl in *; lia.
Qed.

Lemma wf_world_same_registry w w' :
  active_users w' = active_users w -> wf_world w -> wf_world w'.
Proof. unfold wf_world. now intros ->. Qed.

Lemma keys_disconnected sid (au : Dict.t (Dict.t string)) :
  Dict.keys (map (disconnect_entry sid) au) = Dict.keys au.
Proof.
  unfold Dict.keys. rewrite map_map. apply map_ext. now intros [k m].
Qed.

Lemma wf_world_disconnected sid w sio d :
  wf_world w ->
  wf_world (mkWorld (map (disconnect_entry sid) (active_users w)) sio d).
Proof.
  intros [Hout Hin]. split; simpl.
  - unfold Dict.wf. now rewrite keys_disconnected.
  - apply Forall_map. eapply Forall_impl; [|exact Hin].
    intros [k m] Hm. simpl in *. now apply dict_wf_del.
Qed.

Lemma keys_joined room sid u (au : Dict.t (Dict.t string)) :
  Dict.keys (joined_registry room sid u au) =
  if Dict.mem room au then Dict.keys au else Dict.keys au ++ [room].
Proof.
  unfold joined_registry. destruct (Dict.mem room au) eqn:Hm.
  - now apply dict_keys_set_mem.
  - rewrite dict_keys_set_mem.
    + now apply dict_keys_set_new.
    + rewrite dict_mem_set, String.eqb_refl. reflexivity.
Qed.

Lemma keys_left room sid (au : Dict.t (Dict.t string)) :
  Dict.keys (left_registry room sid au) = Dict.keys au.
Proof.
  unfold left_registry. destruct (Dict.get room au) as [m|] eqn:Hg; [|reflexivity].
  destruct (Dict.mem sid m); [|reflexivity].
  apply dict_keys_set_mem. apply dict_mem_get. eauto.
Qed.

Lemma handle_event_registry process_image e w :
  wf_world w ->
  let r := handle_event process_image e w in
  wf_world (world_of r) /\
  exists extra,
    Dict.keys (active_users (world_of r)) = Dict.keys (active_users w) ++ extra.
Proof.
  intros Hw.
  assert (Hsame : forall w' : World, active_users w' = active_users w ->
            wf_world w' /\
            exists extra,
              Dict.keys (active_users w') = Dict.keys (active_users w) ++ extra).
  { intros w' H. split; [now apply (wf_world_same_registry w)|].
    exists []. now rewrite H, app_nil_r. }
  destruct e as [sess sid|sess sid|sess sid d|sess sid d|sess sid d oc|sess sid d oc];
    simpl.
  - apply Hsame. unfold handle_connect. destruct (username sess); reflexivity.
  - destruct (username sess) as [u|] eqn:Hu.
    + rewrite (handle_disconnect_run _ _ _ _ Hu (proj1 Hw)).
      unfold world_of; simpl. split; [now apply wf_world_disconnected|].
      exists []. now rewrite keys_disconnected, app_nil_r.
    + apply Hsame. unfold handle_disconnect. now rewrite Hu.
  - destruct (username sess) as [u|] eqn:Hu.
    + rewrite (handle_join_run _ _ _ _ _ Hu). unfold world_of; simpl.
      split; [now apply wf_world_joined|].
      rewrite keys_joined.
      destruct (Dict.mem (py_str (jd_room_id d)) (active_users w)).
      * exists []. now rewrite app_nil_r.
      * eexists. reflexivity.
    + apply Hsame. now rewrite (handle_join_unauth _ _ _ _ Hu).
  - destruct (username sess) as [u|] eqn:Hu.
    + rewrite (handle_leave_run _ _ _ _ _ Hu). unfold world_of; simpl.
      split; [now apply wf_world_left|].
      exists []. now rewrite keys_left, app_nil_r.
    + apply Hsame. now rewrite (handle_leave_unauth _ _ _ _ Hu).
  - apply Hsame. apply handle_message_frame.
  - apply Hsame. apply handle_image_frame.
Qed.

(** X13: room keys are never removed from the registry.  After any
    sequence of socket events the rooms known to [active_users] before
    are still its first keys, in the same order (a room whose last member
    has left or disconnected stays registered with an empty
    dictionary); new keys are only added at the end. *)
Theorem registry_rooms_are_never_removed :
  forall (process_image : string -> option string)
         (evs : list SocketEvent) (w : World),
    wf_world w ->
    let w' := fst (serve process_image evs w) in
    wf_world w' /\
    exists extra,
      Dict.keys (active_users w') = Dict.keys (active_users w) ++ extra.
Proof.
  intros process_image evs. induction evs as [|e evs IH]; intros w Hw; simpl.
  - split; [exact Hw|]. exists []. now rewrite app_nil_r.
  - destruct (handle_event_registry process_image e w Hw) as (Hw1 & x1 & Hk1).
    destruct (IH _ Hw1) as (Hw2 & x2 & Hk2).
    split; [exact Hw2|].
    exists (x1 ++ x2). rewrite Hk2, Hk1. now rewrite app_assoc.
Qed.

Lemma registry_rooms_are_never_removed_witness :
  let alice := mkSession (Some "Alice") (Some 1) in
  let one := mkJoinData (PInt 1) in
  let w := init_world setup_db in
  let w' := fst (serve (fun _ => None)
                       [OnJoin alice "A" one; OnLeave alice "A" one;
                        OnJoin alice "A" (mkJoinData (PInt 2));
                        OnDisconnect alice "A"] w) in
  wf_world w /\
  active_users w' = [("1", []); ("2", [])] /\
  exists extra, Dict.keys (active_users w') = Dict.keys (active_users w) ++ extra.
Proof.
  intros alice one w w'.
  assert (Hwf : wf_world w) by (split; constructor).
  split; [exact Hwf|]. split; [reflexivity|].
  exact (proj2 (registry_rooms_are_never_removed (fun _ => None)
                  [OnJoin alice "A" one; OnLeave alice "A" one;
                   OnJoin alice "A" (mkJoinData (PInt 2));
                   OnDisconnect alice "A"] w Hwf)).
Defined.

(** ** Repeated events *)

Lemma dict_set_set {V} k (v v' : V) (d : Dict.t V) :
  Dict.set k v (Dict.set k v' d) = Dict.set k v d.
Proof.
  induction d as [|[k0 v0] d IH]; simpl.
  - now rewrite String.eqb_refl.
  - destruct (String.eqb_spec k k0) as [->|Hne]; simpl.
    + now rewrite String.eqb_refl.
    + destruct (String.eqb_spec k k0); [contradiction|]. now rewrite IH.
Qed.

Lemma joined_registry_twice room sid u au :
  joined_registry room sid u (joined_registry room sid u au) =
  joined_registry room sid u au.
Proof.
  set (au' := joined_registry room sid u au).
  assert (Hg : exists m, Dict.get room au' = Some (Dict.set sid u m) /\
                         exists au1, au' = Dict.set room (Dict.set sid u m) au1).
  { unfold au', joined_registry. eexists. rewrite dict_get_set_eq.
    split; [reflexivity|]. eexists. reflexivity. }
  destruct Hg as (m & Hg & au1 & Hau).
  unfold joined_registry at 1.
  assert (Hm : Dict.mem room au' = true) by (apply dict_mem_get; eauto).
  rewrite Hm, Hg. rewrite dict_set_set. rewrite Hau at 1.
  rewrite dict_set_set. symmetry. exact Hau.
Qed.

Lemma subscribed_twice sid room s :
  subscribed sid room (subscribed sid room s) = subscribed sid room s.
Proof.
  unfold subscribed at 1. now rewrite in_subscribed.
Qed.

(** X23: joining again under the same name changes nothing in the world
    (registry, subscriptions, database), but is not silent: the second
    join broadcasts the "has joined the room" notification and the same
    presence list once more. *)
Theorem repeated_join_keeps_world_but_notifies :
  forall (w : World) (sess : Session) (sid : Sid) (data : JoinData) (u : string),
    username sess = Some u ->
    let r1 := handle_join sess sid data w in
    let r2 := handle_join sess sid data (world_of r1) in
    world_of r2 = world_of r1 /\
    trace_of r2 = trace_of r1 /\
    List.length (trace_of r2) = 2.
Proof.
  intros w sess sid data u Hu r1 r2. subst r2 r1.
  rewrite (handle_join_run _ _ _ _ _ Hu).
  unfold world_of at 2. simpl.
  rewrite (handle_join_run _ _ _ _ _ Hu).
  unfold world_of, trace_of; simpl.
  rewrite joined_registry_twice, subscribed_twice.
  rewrite members_of_joined, String.eqb_refl, dict_set_set.
  replace (members_of (py_str (jd_room_id data))
             (mkWorld (active_users w)
                      (subscribed sid (py_str (jd_room_id data)) (sio_rooms w))
                      (db w)))
    with (members_of (py_str (jd_room_id data)) w) by reflexivity.
  repeat split.
Qed.

Lemma repeated_join_keeps_world_but_notifies_witness :
  let sess := mkSession (Some "Alice") (Some 1) in
  let w := init_world setup_db in
  let r1 := handle_join sess "A" (mkJoinData (PInt 1)) w in
  let r2 := handle_join sess "A" (mkJoinData (PInt 1)) (world_of r1) in
  username sess = Some "Alice" /\
  Dict.values (members_of "1" (world_of r2)) = ["Alice"] /\
  trace_of r2 = trace_of r1.
Proof.
  intros sess w r1 r2. do 2 (split; [reflexivity|]).
  exact (proj1 (proj2 (repeated_join_keeps_world_but_notifies w sess "A"
                         (mkJoinData (PInt 1)) "Alice" eq_refl))).
Defined.

(** X24: a disconnect is silent the second time.  After a disconnect of a
    connection, the connection has no entry in any room, and a further
    disconnect of the same connection changes nothing and emits
    nothing. *)
Theorem repeated_disconnect_is_silent :
  forall (w : World) (s1 s2 : Session) (sid : Sid) (u1 u2 : string),
    wf_world w ->
    username s1 = Some u1 ->
    username s2 = Some u2 ->
    let w1 := world_of (handle_disconnect s1 sid w) in
    let r2 := handle_disconnect s2 sid w1 in
    world_of r2 = w1 /\ trace_of r2 = [] /\ outcome_of r2 = inr tt /\
    forall room, Dict.mem sid (members_of room w1) = false.
Proof.
  intros w s1 s2 sid u1 u2 Hw H1 H2 w1 r2.
  assert (Hw1 : w1 = mkWorld (map (disconnect_entry sid) (active_users w))
                             (sio_rooms w) (db w)).
  { subst w1. now rewrite (handle_disconnect_run _ _ _ _ H1 (proj1 Hw)). }
  assert (Hwf1 : wf_world w1) by (rewrite Hw1; now apply wf_world_disconnected).
  assert (Habs : forall k m, In (k, m) (active_users w1) -> Dict.get sid m = None).
  { rewrite Hw1. simpl. intros k m Hin. apply in_map_iff in Hin.
    destruct Hin as ([k0 m0] & [= <- <-] & Hin0).
    apply dict_get_del_eq.
    destruct Hw as [_ Hin]. rewrite Forall_forall in Hin. exact (Hin _ Hin0). }
  destruct (disconnect_absent_everywhere sid (active_users w1) Habs) as [E1 E2].
  subst r2. rewrite (handle_disconnect_run _ _ _ _ H2 (proj1 Hwf1)).
  unfold world_of, trace_of, outcome_of; simpl. rewrite E1, E2.
  split; [destruct w1; reflexivity|]. split; [reflexivity|].
  split; [reflexivity|].
  intros room. apply dict_mem_false_get. unfold members_of.
  destruct (Dict.get room (active_users w1)) as [m|] eqn:Hg; [|reflexivity].
  apply (Habs room m). unfold Dict.get in Hg.
  clear -Hg. induction (active_users w1) as [|[k0 m0] l IH]; [discriminate|].
  simpl in Hg. destruct (String.eqb_spec room k0) as [->|Hne].
  - injection Hg as ->. now left.
  - right. now apply IH.
Qed.

Lemma repeated_disconnect_is_silent_witness :
  let w := mkWorld [("1", [("A", "Alice"); ("B", "Bob")]); ("2", [("A", "Alice")])]
                   [] (mkDb [] []) in
  let alice := mkSession (Some "Alice") (Some 1) in
  wf_world w /\
  username alice = Some "Alice" /\
  trace_of (handle_disconnect alice "A"
              (world_of (handle_disconnect alice "A" w))) = [].
Proof.
  intros w alice.
  assert (Hwf : wf_world w).
  { split; simpl; repeat constructor; simpl; intuition discriminate. }
  split; [exact Hwf|]. split; [reflexivity|].
  exact (proj1 (proj2 (repeated_disconnect_is_silent w alice alice "A"
                         "Alice" "Alice" Hwf eq_refl eq_refl))).
Defined.

(** * The HTTP routes of the chat application and the set-up script *)

Module WebFacts.
Import Web.

Lemma find_user_none name us :
  find_user name us = None <-> ~ In name (map user_username us).
Proof.
  unfold find_user. induction us as [|u us IH]; simpl; [tauto|].
  destruct (String.eqb_spec (user_username u) name) as [->|Hne].
  - split; [discriminate | tauto].
  - rewrite IH. tauto.
Qed.

Lemma find_user_some name us u :
  find_user name us = Some u -> user_username u = name /\ In u us.
Proof.
  unfold find_user. intros H. apply find_some in H. destruct H as [Hin Heq].
  apply String.eqb_eq in Heq. tauto.
Qed.

Lemma find_user_app name us vs :
  find_user name (us ++ vs) =
  match find_user name us with
  | Some u => Some u
  | None => find_user name vs
  end.
Proof.
  unfold find_user. induction us as [|u us IH]; simpl; [reflexivity|].
  destruct (String.eqb (user_username u) name); [reflexivity | exact IH].
Qed.

(** X14: [login] is a get-or-create on the users table.  A POST with a
    username answers with a redirect to the chat page and a session that
    holds that username and the primary key of the user row of that name;
    the rows that existed are kept in place, at most one row is added, and
    none when the name already existed; usernames stay pairwise distinct;
    a second login under the same name changes nothing and yields the same
    session, whatever the database would answer to an insert. *)
Theorem login_is_get_or_create :
  forall (name : string) (pk : nat) (ins2 : Insert) (sess sess' : Session)
         (st : Store),
    let r1 := login POST (Some name) (Inserted pk) sess st in
    let st1 := fst (fst r1) in
    let s1 := snd (fst r1) in
    snd r1 = Redirect "chat" /\
    username s1 = Some name /\
    (exists u, find_user name (users st1) = Some u /\
               user_id s1 = Some (user_pk u)) /\
    (exists added, users st1 = users st ++ added /\ List.length added <= 1) /\
    members st1 = members st /\ core st1 = core st /\
    (In name (usernames st) -> st1 = st) /\
    (NoDup (usernames st) -> NoDup (usernames st1)) /\
    login POST (Some name) ins2 sess' st1 = (st1, s1, Redirect "chat").
Proof.
  intros name pk ins2 sess sess' st r1 st1 s1. subst st1 s1 r1.
  unfold login. destruct (find_user name (users st)) as [u|] eqn:Hf; simpl.
  - rewrite Hf.
    split; [reflexivity|]. split; [reflexivity|].
    split; [exists u; now split|].
    split; [exists []; rewrite app_nil_r; split; [reflexivity | simpl; lia]|].
    repeat split; auto.
  - assert (Hf' : find_user name (users st ++ [mkUser pk name]) =
                  Some (mkUser pk name)).
    { rewrite find_user_app, Hf. unfold find_user. simpl.
      now rewrite String.eqb_refl. }
    rewrite Hf'. simpl.
    split; [reflexivity|]. split; [reflexivity|].
    split; [exists (mkUser pk name); now split|].
    split; [exists [mkUser pk name]; split; [reflexivity | simpl; lia]|].
    split; [reflexivity|]. split; [reflexivity|].
    split; [|split; [|reflexivity]].
    + intros Hin. apply find_user_none in Hf. contradiction.
    + intros Hnd. unfold usernames. simpl. rewrite map_app. simpl.
      apply NoDup_app; [exact Hnd | repeat constructor; simpl; tauto |].
      intros x Hx [<-|[]]. apply find_user_none in Hf. contradiction.
Qed.

(** X15: a session produced by [login] is one the socket handlers accept:
    with it a join returns normally and registers the connection under
    the login name, and a message whose commit succeeds is stored as the
    last row under the user's primary key, then broadcast to its room as
    a [new_message] event carrying the login name and that key, followed
    by the notification of it, and nothing else is emitted. *)
Theorem login_session_is_accepted_by_handlers :
  forall (name : string) (pk : nat) (sess : Session) (st : Store)
         (w : World) (sid : Sid) (jd : JoinData) (md : MessageData)
         (id : nat) (ts : string),
    let s1 := snd (fst (login POST (Some name) (Inserted pk) sess st)) in
    let rj := handle_join s1 sid jd w in
    let rm := handle_message s1 sid md (CommitOk id ts) w in
    outcome_of rj = inr tt /\
    Dict.get sid (members_of (py_str (jd_room_id jd)) (world_of rj)) = Some name /\
    outcome_of rm = inr tt /\
    exists u, find_user name (users (fst (fst (login POST (Some name)
                                                 (Inserted pk) sess st)))) = Some u /\
              let ct := content_type_of md in
              let m := mkMessage id (md_content md) ct ts (user_pk u)
                                 (md_room_id md) in
              messages (db (world_of rm)) = messages (db w) ++ [m] /\
              trace_of rm =
                [Persist m;
                 Emit (ToRoom (md_room_id md))
                      (NewMessage id (md_content md) ct ts name (user_pk u));
                 Emit (ToRoom (md_room_id md))
                      (Notification
                         (if String.eqb ct "text"
                          then (name ++ ": " ++ py_prefix 30 (md_content md)
                                     ++ "...")%string
                          else (name ++ " sent an image")%string)
                         "message")].
Proof.
  intros name pk sess st w sid jd md id ts s1 rj rm.
  assert (H : username s1 = Some name /\
              exists u, find_user name (users (fst (fst (login POST (Some name)
                                                  (Inserted pk) sess st)))) = Some u /\
                        user_id s1 = Some (user_pk u)).
  { subst s1. unfold login.
    destruct (find_user name (users st)) as [u0|] eqn:Hf; simpl.
    - split; [reflexivity|]. exists u0. now split.
    - split; [reflexivity|]. exists (mkUser pk name).
      rewrite find_user_app, Hf. unfold find_user. simpl.
      rewrite String.eqb_refl. now split. }
  destruct H as (Hu & u & Hfu & Hid).
  subst rj rm.
  rewrite (handle_join_run _ _ _ _ _ Hu).
  rewrite (handle_message_run _ _ _ _ _ _ _ _ Hu Hid).
  unfold outcome_of, trace_of, world_of, count; simpl.
  split; [reflexivity|]. split.
  { rewrite members_of_joined, String.eqb_refl. apply dict_get_set_eq. }
  split; [reflexivity|].
  exists u. split; [exact Hfu|]. unfold message_notification. split; reflexivity.
Qed.

Lemma find_member_none uid rid ms :
  find_member uid rid ms = None <->
  ~ In (uid, rid) (map (fun m => (rm_user_id m, rm_room_id m)) ms).
Proof.
  unfold find_member. induction ms as [|m ms IH]; simpl; [tauto|].
  destruct (Nat.eqb_spec (rm_user_id m) uid) as [->|Hu]; simpl.
  - destruct (Nat.eqb_spec (rm_room_id m) rid) as [->|Hr].
    + split; [discriminate | tauto].
    + rewrite IH. split; [intros H [Heq|Hin]; [congruence | tauto] | tauto].
  - rewrite IH. split; [intros H [Heq|Hin]; [congruence | tauto] | tauto].
Qed.

Lemma find_member_app uid rid ms ns :
  find_member uid rid (ms ++ ns) =
  match find_member uid rid ms with
  | Some m => Some m
  | None => find_member uid rid ns
  end.
Proof.
  unfold find_member. induction ms as [|m ms IH]; simpl; [reflexivity|].
  destruct (Nat.eqb (rm_user_id m) uid && Nat.eqb (rm_room_id m) rid);
    [reflexivity | exact IH].
Qed.

(** X16: the [room] page registers the visitor as a member of the room
    once.  For a logged-in user and an existing room, the page is
    rendered, the (user, room) pair is among the memberships afterwards,
    at most one row is added and (user, room) pairs stay pairwise
    distinct; users, rooms and messages are untouched; a second visit
    renders the same page and changes nothing. *)
Theorem room_visit_registers_membership_once :
  forall (recent : nat -> Db -> list Message) (rid pk : nat) (ins2 : Insert)
         (sess : Session) (st : Store) (uname : string) (uid : nat) (r : Room),
    username sess = Some uname ->
    user_id sess = Some uid ->
    find_room rid (rooms (core st)) = Some r ->
    let res := room recent rid (Inserted pk) sess st in
    let st1 := fst res in
    snd res = RenderRoom r (rev (recent rid (core st))) uname uid /\
    In (uid, rid) (member_pairs st1) /\
    (exists added, members st1 = members st ++ added /\ List.length added <= 1) /\
    users st1 = users st /\ core st1 = core st /\
    (NoDup (member_pairs st) -> NoDup (member_pairs st1)) /\
    room recent rid ins2 sess st1 = (st1, snd res).
Proof.
  intros recent rid pk ins2 sess st uname uid r Hu Hid Hr res st1.
  subst st1 res. unfold room. rewrite Hu, Hid, Hr.
  destruct (find_member uid rid (members st)) as [m|] eqn:Hm; simpl.
  - rewrite Hr, Hm. split; [reflexivity|]. split.
    { unfold member_pairs.
      destruct (find_member uid rid (members st)) eqn:Hm'; [|discriminate].
      destruct (in_dec (fun a b : nat * nat =>
                  ltac:(decide equality; apply Nat.eq_dec)) (uid, rid)
                  (map (fun m => (rm_user_id m, rm_room_id m)) (members st)))
        as [Hin|Hnin]; [exact Hin|].
      apply find_member_none in Hnin. congruence. }
    split; [exists []; rewrite app_nil_r; split; [reflexivity | simpl; lia]|].
    repeat split; auto.
  - rewrite Hr. rewrite find_member_app, Hm. unfold find_member at 1. simpl.
    rewrite !Nat.eqb_refl. simpl.
    split; [reflexivity|]. split.
    { unfold member_pairs. simpl. rewrite map_app. apply in_or_app. right.
      now left. }
    split; [exists [mkRoomMember pk uid rid]; split; [reflexivity | simpl; lia]|].
    split; [reflexivity|]. split; [reflexivity|]. split; [|reflexivity].
    intros Hnd. unfold member_pairs. simpl. rewrite map_app. simpl.
    apply NoDup_app; [exact Hnd | repeat constructor; simpl; tauto |].
    intros x Hx [<-|[]]. apply find_member_none in Hm. contradiction.
Qed.

Lemma room_visit_registers_membership_once_witness :
  let st := mkStore [mkUser 1 "Alice"] [] setup_db in
  let sess := mkSession (Some "Alice") (Some 1) in
  username sess = Some "Alice" /\
  user_id sess = Some 1 /\
  find_room 2 (rooms (core st)) = Some (mkRoom 2 "Tech Talk") /\
  members (fst (room (fun _ _ => []) 2 (Inserted 7) sess st)) =
    [mkRoomMember 7 1 2] /\
  In (1, 2) (member_pairs (fst (room (fun _ _ => []) 2 (Inserted 7) sess st))).
Proof.
  intros st sess. do 4 (split; [reflexivity|]).
  exact (proj1 (proj2 (room_visit_registers_membership_once (fun _ _ => []) 2 7
                  Rejected sess st "Alice" 1 (mkRoom 2 "Tech Talk")
                  eq_refl eq_refl eq_refl))).
Defined.

Section SetupFacts.
Variable next_pk : list Room -> nat.

Lemma find_room_name_none (d : Db) name :
  find (fun r => String.eqb (room_name r) name) (rooms d) = None <->
  ~ In name (room_names d).
Proof.
  unfold room_names. induction (rooms d) as [|r rs IH]; simpl; [tauto|].
  destruct (String.eqb_spec (room_name r) name) as [->|Hne].
  - split; [discriminate | tauto].
  - rewrite IH. tauto.
Qed.

Lemma ensure_room_present d name :
  In name (room_names d) -> ensure_room next_pk d name = d.
Proof.
  intros Hin. unfold ensure_room.
  destruct (find _ (rooms d)) eqn:Hf; [reflexivity|].
  apply find_room_name_none in Hf. contradiction.
Qed.

Lemma ensure_room_spec d name :
  let d' := ensure_room next_pk d name in
  messages d' = messages d /\
  In name (room_names d') /\
  (exists added, rooms d' = rooms d ++ added /\ List.length added <= 1) /\
  (NoDup (room_names d) -> NoDup (room_names d')).
Proof.
  unfold ensure_room.
  destruct (find _ (rooms d)) eqn:Hf; simpl.
  - split; [reflexivity|]. split.
    { destruct (in_dec string_dec name (room_names d)) as [H|H]; [exact H|].
      apply find_room_name_none in H. congruence. }
    split; [exists []; rewrite app_nil_r; split; [reflexivity|simpl; lia]|].
    auto.
  - apply find_room_name_none in Hf.
    split; [reflexivity|]. unfold room_names in *. simpl. rewrite map_app. simpl.
    split; [apply in_or_app; right; now left|].
    split; [eexists; split; [reflexivity | simpl; lia]|].
    intros Hnd. apply NoDup_app; [exact Hnd | repeat constructor; simpl; tauto|].
    intros x Hx [<-|[]]. contradiction.
Qed.

Lemma ensure_rooms_spec names :
  forall d,
    let d' := fold_left (ensure_room next_pk) names d in
    messages d' = messages d /\
    (forall n, In n names \/ In n (room_names d) -> In n (room_names d')) /\
    (exists added, rooms d' = rooms d ++ added /\
                   List.length added <= List.length names) /\
    (NoDup (room_names d) -> NoDup (room_names d')).
Proof.
  induction names as [|n names IH]; intros d; simpl.
  - split; [reflexivity|]. split; [tauto|].
    split; [exists []; rewrite app_nil_r; split; [reflexivity | simpl; lia]|].
    auto.
  - destruct (ensure_room_spec d n) as (Hm & Hin & (a1 & Ha1 & Hl1) & Hnd).
    destruct (IH (ensure_room next_pk d n)) as (Hm' & Hin' & (a2 & Ha2 & Hl2) & Hnd').
    split; [congruence|]. split.
    { intros x [[<-|Hx]|Hx]; apply Hin'; auto.
      right. unfold room_names. rewrite Ha1, map_app. apply in_or_app. now left. }
    split.
    { exists (a1 ++ a2). rewrite Ha2, Ha1, <- app_assoc. split; [reflexivity|].
      rewrite length_app. lia. }
    auto.
Qed.

Lemma ensure_rooms_present names :
  forall d, (forall n, In n names -> In n (room_names d)) ->
            fold_left (ensure_room next_pk) names d = d.
Proof.
  induction names as [|n names IH]; intros d H; simpl; [reflexivity|].
  rewrite ensure_room_present by (apply H; now left).
  apply IH. intros x Hx. apply H. now right.
Qed.

(** X17: the set-up script can be run again at any time.  After a run the
    rooms General, Tech Talk and Random exist; the rooms that existed
    before keep their rows and their place, at most three rows are added,
    no message is touched and room names that were pairwise distinct stay
    so; a second run changes nothing. *)
Theorem setup_rooms_is_idempotent :
  forall d : Db,
    let d' := setup_rooms next_pk d in
    setup_rooms next_pk d' = d' /\
    (In "General" (room_names d') /\ In "Tech Talk" (room_names d') /\
     In "Random" (room_names d')) /\
    (exists added, rooms d' = rooms d ++ added /\ List.length added <= 3) /\
    messages d' = messages d /\
    (NoDup (room_names d) -> NoDup (room_names d')).
Proof.
  intros d d'. subst d'. unfold setup_rooms.
  destruct (ensure_rooms_spec ["General"; "Tech Talk"; "Random"] d)
    as (Hm & Hin & Hadd & Hnd).
  split.
  - apply ensure_rooms_present. intros n Hn. apply Hin. now left.
  - split; [repeat split; apply Hin; left; simpl; tauto|].
    split; [exact Hadd|]. split; [exact Hm | exact Hnd].
Qed.
End SetupFacts.

End WebFacts.

(** * The Facebook integration *)

Module FbFacts.
Import Fb.

(** ** Permissions as a comma-separated string *)

Lemma py_split_nonempty s : py_split s <> [].
Proof.
  destruct s as [|c s]; simpl; [discriminate|].
  destruct (Ascii.eqb c ","%char); [discriminate|].
  destruct (py_split s); discriminate.
Qed.

Lemma py_split_no_comma s : has_comma s = false -> py_split s = [s].
Proof.
  induction s as [|c s IH]; simpl; [reflexivity|].
  destruct (Ascii.eqb c ","%char); simpl; [discriminate|].
  intros H. now rewrite (IH H).
Qed.

Lemma py_split_app_comma x rest :
  has_comma x = false ->
  py_split (x ++ String ","%char rest) = x :: py_split rest.
Proof.
  induction x as [|c x IH]; simpl; [reflexivity|].
  destruct (Ascii.eqb c ","%char); simpl; [discriminate|].
  intros H. now rewrite (IH H).
Qed.

Lemma py_split_join l :
  l <> [] ->
  Forall (fun s => has_comma s = false) l ->
  py_split (py_join l) = l.
Proof.
  induction l as [|x l IH]; [congruence|].
  intros _ Hall. inversion Hall as [|? ? Hx Hl]; subst.
  destruct l as [|y l].
  - simpl. now apply py_split_no_comma.
  - change (py_join (x :: y :: l))
      with (x ++ String ","%char (py_join (y :: l)))%string.
    rewrite py_split_app_comma by exact Hx.
    f_equal. apply IH; [discriminate | exact Hl].
Qed.

(** X18: the permissions of a page are stored joined by commas and served
    split at commas.  The granted permission names come back as they were
    when there is at least one and none contains a comma; a page with no
    granted permission is served with the one-element list holding the
    empty string, not with an empty list; a served list is never empty. *)
Theorem permissions_join_split_round_trip :
  forall perms : list Permission,
    (granted perms <> [] ->
     Forall (fun s => has_comma s = false) (granted perms) ->
     py_split (py_join (granted perms)) = granted perms) /\
    (granted perms = [] ->
     py_split (py_join (granted perms)) = [EmptyString]) /\
    py_split (py_join (granted perms)) <> [].
Proof.
  intros perms. split; [|split].
  - apply py_split_join.
  - intros ->. reflexivity.
  - apply py_split_nonempty.
Qed.

Lemma permissions_join_split_round_trip_witness :
  let perms := [mkPermission "pages_show_list" "granted";
                mkPermission "email" "declined";
                mkPermission "public_profile" "granted"] in
  granted perms <> [] /\
  Forall (fun s => has_comma s = false) (granted perms) /\
  py_join (granted perms) = "pages_show_list,public_profile" /\
  py_split (py_join (granted perms)) = ["pages_show_list"; "public_profile"].
Proof.
  intros perms.
  assert (H1 : granted perms <> []) by discriminate.
  assert (H2 : Forall (fun s => has_comma s = false) (granted perms))
    by (repeat constructor).
  split; [exact H1|]. split; [exact H2|]. split; [reflexivity|].
  exact (proj1 (permissions_join_split_round_trip perms) H1 H2).
Defined.

(** ** The callback *)

(** X19: [callback] writes all or nothing.  Unless it answers with the
    redirect to [/pages], the database and the session are exactly what
    they were: for a missing or empty code, a token or profile answer
    that is not 200, a profile or a page without [id], a failed commit.
    The redirect is only reached with a non-empty code, two 200 answers
    and a successful commit. *)
Theorem callback_writes_all_or_nothing :
  forall (code : option string) (token : TokenResponse)
         (profile : ProfileResponse) (pages_data : list PageJson)
         (commit_ok : bool) (sess : option string) (d : Db),
    let res := callback code token profile pages_data commit_ok sess d in
    (snd res <> Redirect "/pages" -> fst (fst res) = d /\ snd (fst res) = sess) /\
    (snd res = Redirect "/pages" ->
       (exists c, code = Some c /\ c <> EmptyString) /\
       tr_status token = 200 /\ pr_status profile = 200 /\ commit_ok = true /\
       snd (fst res) = pr_id profile /\ pr_id profile <> None) /\
    (code = None \/ code = Some EmptyString ->
       res = (d, sess, Status400 "Error: Missing authorization code")).
Proof.
  intros code token profile pages_data commit_ok sess d res. subst res.
  unfold callback.
  destruct code as [[|c0 c]|]; simpl.
  - repeat split; try discriminate; reflexivity.
  - destruct (Nat.eqb_spec (tr_status token) 200) as [Ht|Ht]; simpl;
      [|repeat split; try discriminate; intros [H|H]; discriminate].
    destruct (Nat.eqb_spec (pr_status profile) 200) as [Hp|Hp]; simpl;
      [|repeat split; try discriminate; intros [H|H]; discriminate].
    destruct (pr_id profile) as [id|]; simpl;
      [|repeat split; try discriminate; intros [H|H]; discriminate].
    destruct (get_user id (users d)) as [user|] eqn:Hg; simpl.
    + assert (Hid : u_id user = id).
      { unfold get_user in Hg. apply find_some in Hg.
        now apply String.eqb_eq. }
      destruct (process_pages (u_id user) (pages d) pages_data); simpl;
        [|repeat split; try discriminate; intros [H|H]; discriminate].
      destruct commit_ok; simpl;
        [|repeat split; try discriminate; intros [H|H]; discriminate].
      split; [congruence|]. split; [|intros [H|H]; discriminate].
      intros _. repeat split; try assumption; try congruence.
      exists (String c0 c). split; [reflexivity | discriminate].
    + destruct (process_pages id (pages d) pages_data); simpl;
        [|repeat split; try discriminate; intros [H|H]; discriminate].
      destruct commit_ok; simpl;
        [|repeat split; try discriminate; intros [H|H]; discriminate].
      split; [congruence|]. split; [|intros [H|H]; discriminate].
      intros _. repeat split; try assumption; try congruence.
      exists (String c0 c). split; [reflexivity | discriminate].
  - repeat split; try discriminate; reflexivity.
Qed.

Lemma get_page_some k ps p : get_page k ps = Some p -> p_id p = k /\ In p ps.
Proof.
  unfold get_page. intros H. apply find_some in H. destruct H as [Hin Heq].
  apply String.eqb_eq in Heq. tauto.
Qed.

Lemma get_page_none k ps : get_page k ps = None <-> ~ In k (map p_id ps).
Proof.
  unfold get_page. induction ps as [|p ps IH]; simpl; [tauto|].
  destruct (String.eqb_spec (p_id p) k) as [->|Hne].
  - split; [discriminate | tauto].
  - rewrite IH. tauto.
Qed.

Lemma get_page_app k ps qs :
  get_page k (ps ++ qs) =
  match get_page k ps with Some p => Some p | None => get_page k qs end.
Proof.
  unfold get_page. induction ps as [|p ps IH]; simpl; [reflexivity|].
  destruct (String.eqb (p_id p) k); [reflexivity | exact IH].
Qed.

Lemma update_page_ids id t perms ps :
  map p_id (update_page id t perms ps) = map p_id ps.
Proof.
  induction ps as [|p ps IH]; simpl; [reflexivity|].
  destruct (String.eqb (p_id p) id); simpl; [reflexivity | now rewrite IH].
Qed.

Lemma get_page_update k id t perms ps :
  get_page k (update_page id t perms ps) =
  option_map (fun p => if String.eqb k id
                       then mkPage (p_id p) (p_name p) t (Some perms) (p_user_id p)
                       else p)
             (get_page k ps).
Proof.
  unfold get_page. induction ps as [|p ps IH]; simpl; [reflexivity|].
  destruct (String.eqb_spec (p_id p) id) as [Hid|Hid]; simpl.
  - destruct (String.eqb_spec (p_id p) k) as [Hk|Hk]; simpl.
    + destruct (String.eqb_spec k id); [reflexivity | congruence].
    + destruct (String.eqb_spec k id) as [->|Hne]; [contradiction|].
      destruct (find _ ps); reflexivity.
  - destruct (String.eqb_spec (p_id p) k) as [Hk|Hk]; simpl.
    + destruct (String.eqb_spec k id); [congruence | reflexivity].
    + exact IH.
Qed.

Lemma page_step_refl owner ps : page_step owner [] ps ps.
Proof.
  constructor; auto.
  - intros k p H. exists p. auto.
  - intros k p' H1 H2. congruence.
Qed.

Lemma page_step_trans owner ids1 ids2 ps1 ps2 ps3 :
  page_step owner ids1 ps1 ps2 ->
  page_step owner ids2 ps2 ps3 ->
  page_step owner (ids1 ++ ids2) ps1 ps3.
Proof.
  intros [n1 k1 w1 f1] [n2 k2 w2 f2]. constructor; auto.
  - intros k p H. destruct (k1 k p H) as (p' & H' & Hn & Hu).
    destruct (k2 k p' H') as (p'' & H'' & Hn' & Hu').
    exists p''. repeat split; congruence.
  - intros k p3 H3 H1.
    destruct (get_page k ps2) as [p2|] eqn:H2.
    + destruct (w1 k p2 H2 H1) as (Hin & Hown).
      destruct (k2 k p2 H2) as (p3' & H3' & _ & Hu).
      assert (p3' = p3) by congruence. subst p3'.
      split; [apply in_or_app; now left | congruence].
    + destruct (w2 k p3 H3 H2) as (Hin & Hown).
      split; [apply in_or_app; now right | assumption].
Qed.

Lemma process_page_step owner ps pj ps' :
  process_page owner ps pj = Some ps' ->
  page_step owner [pj_id pj] ps ps' /\
  exists id, pj_id pj = Some id /\
    exists p', get_page id ps' = Some p' /\
               p_access_token p' = pj_access_token pj /\
               p_permissions p' = Some (py_join (granted (pj_permissions pj))).
Proof.
  unfold process_page. destruct (pj_id pj) as [id|] eqn:Hid; [|discriminate].
  destruct (get_page id ps) as [p|] eqn:Hg; intros [= <-].
  - split.
    + constructor.
      * now rewrite update_page_ids.
      * intros k q Hq. rewrite get_page_update, Hq. simpl.
        destruct (String.eqb k id); eexists; repeat split.
      * intros k q Hq Hnone. rewrite get_page_update, Hnone in Hq. discriminate.
      * clear Hg. intros Hall. induction Hall as [|q qs Hq Hqs IH]; simpl;
          [constructor|].
        destruct (String.eqb (p_id q) id); constructor; auto.
        simpl. discriminate.
    + exists id. split; [reflexivity|].
      rewrite get_page_update, Hg. simpl. rewrite String.eqb_refl.
      eexists. repeat split.
  - split.
    + constructor.
      * intros Hnd. rewrite map_app. simpl.
        apply NoDup_app; [exact Hnd | repeat constructor; simpl; tauto|].
        intros x Hx [<-|[]]. apply get_page_none in Hg. contradiction.
      * intros k q Hq. rewrite get_page_app, Hq. exists q. auto.
      * intros k q Hq Hnone. rewrite get_page_app, Hnone in Hq.
        unfold get_page in Hq. simpl in Hq.
        destruct (String.eqb_spec id k) as [->|Hne]; [|discriminate].
        injection Hq as <-. simpl. split; [now left | reflexivity].
      * intros Hall. apply Forall_app. split; [exact Hall|].
        repeat constructor. simpl. discriminate.
    + exists id. split; [reflexivity|].
      rewrite get_page_app, Hg. unfold get_page. simpl.
      rewrite String.eqb_refl. eexists. repeat split.
Qed.

Lemma process_pages_step owner pages_data :
  forall ps ps',
    process_pages owner ps pages_data = Some ps' ->
    page_step owner (map pj_id pages_data) ps ps' /\
    forall pj, In pj pages_data ->
      exists id p', pj_id pj = Some id /\ get_page id ps' = Some p'.
Proof.
  induction pages_data as [|pj rest IH]; intros ps ps'; simpl.
  - intros [= <-]. split; [apply page_step_refl | intros pj []].
  - destruct (process_page owner ps pj) as [ps1|] eqn:H1; [|discriminate].
    intros H2. destruct (process_page_step _ _ _ _ H1)
      as (S1 & id & Hid & p1 & Hp1 & _).
    destruct (IH _ _ H2) as (S2 & Hall).
    split.
    + exact (page_step_trans _ _ _ _ _ _ S1 S2).
    + intros pj' [<-|Hin]; [|now apply Hall].
      destruct (step_kept _ _ _ _ S2 id p1 Hp1) as (p' & Hp' & _).
      exists id, p'. split; assumption.
Qed.

Lemma process_page_created owner ps pj ps' id :
  process_page owner ps pj = Some ps' ->
  pj_id pj = Some id ->
  get_page id ps = None ->
  get_page id ps' =
    Some (mkPage id (pj_name pj) (pj_access_token pj)
                 (Some (py_join (granted (pj_permissions pj)))) (Some owner)).
Proof.
  unfold process_page. intros H Hid Hg. rewrite Hid, Hg in H.
  injection H as <-. rewrite get_page_app, Hg. unfold get_page. simpl.
  now rewrite String.eqb_refl.
Qed.

Lemma process_page_other owner ps pj ps' k :
  process_page owner ps pj = Some ps' ->
  pj_id pj <> Some k ->
  get_page k ps' = get_page k ps.
Proof.
  unfold process_page. destruct (pj_id pj) as [id|]; [|discriminate].
  intros H Hne. assert (Hk : String.eqb k id = false)
    by (apply String.eqb_neq; congruence).
  destruct (get_page id ps) as [p|] eqn:Hg; injection H as <-.
  - rewrite get_page_update, Hk. now destruct (get_page k ps).
  - rewrite get_page_app. destruct (get_page k ps); [reflexivity|].
    unfold get_page. simpl. rewrite String.eqb_sym, Hk. reflexivity.
Qed.

Lemma process_pages_other owner pages_data k :
  forall ps ps',
    process_pages owner ps pages_data = Some ps' ->
    ~ In (Some k) (map pj_id pages_data) ->
    get_page k ps' = get_page k ps.
Proof.
  induction pages_data as [|pj rest IH]; intros ps ps'; simpl.
  - now intros [= <-] _.
  - destruct (process_page owner ps pj) as [ps1|] eqn:H1; [|discriminate].
    intros H2 Hnin. rewrite (IH _ _ H2) by tauto.
    apply (process_page_other _ _ _ _ _ H1). intros Heq. apply Hnin. now left.
Qed.

Lemma process_pages_created owner pages_data :
  forall ps ps' pj id,
    process_pages owner ps pages_data = Some ps' ->
    NoDup (map pj_id pages_data) ->
    In pj pages_data ->
    pj_id pj = Some id ->
    get_page id ps = None ->
    get_page id ps' =
      Some (mkPage id (pj_name pj) (pj_access_token pj)
                   (Some (py_join (granted (pj_permissions pj)))) (Some owner)).
Proof.
  induction pages_data as [|pj0 rest IH]; intros ps ps' pj id; simpl; [tauto|].
  destruct (process_page owner ps pj0) as [ps1|] eqn:H1; [|discriminate].
  intros H2 Hnd Hin Hid Hg. inversion Hnd as [|? ? Hnin Hnd']; subst.
  destruct Hin as [->|Hin].
  - rewrite (process_pages_other _ _ _ _ _ H2) by (rewrite <- Hid; exact Hnin).
    exact (process_page_created _ _ _ _ _ H1 Hid Hg).
  - apply (IH ps1 ps' pj id H2 Hnd' Hin Hid).
    rewrite (process_page_other _ _ _ _ _ H1); [exact Hg|].
    intros Heq. apply Hnin. rewrite Heq, <- Hid. now apply in_map.
Qed.

Lemma callback_success code token profile pages_data commit_ok sess d d' s' :
  callback code token profile pages_data commit_ok sess d =
    (d', s', Redirect "/pages") ->
  exists id,
    pr_id profile = Some id /\ s' = Some id /\
    process_pages id (pages d) pages_data = Some (pages d') /\
    users d' = match get_user id (users d) with
               | Some _ => users d
               | None => users d ++ [mkUser id (pr_name profile) (pr_email profile)]
               end.
Proof.
  unfold callback. destruct code as [[|c0 c]|]; try discriminate.
  destruct (negb (Nat.eqb (tr_status token) 200)); [discriminate|].
  destruct (negb (Nat.eqb (pr_status profile) 200)); [discriminate|].
  destruct (pr_id profile) as [id|]; [|discriminate].
  intros H. exists id. split; [reflexivity|].
  destruct (get_user id (users d)) as [user|] eqn:Hg.
  - assert (Hid : u_id user = id).
    { unfold get_user in Hg. apply find_some in Hg. now apply String.eqb_eq. }
    rewrite Hid in H.
    destruct (process_pages id (pages d) pages_data) as [ps|] eqn:Hp;
      [|discriminate].
    destruct commit_ok; [|discriminate].
    injection H as <- <-. repeat split.
  - simpl in H.
    destruct (process_pages id (pages d) pages_data) as [ps|] eqn:Hp;
      [|discriminate].
    destruct commit_ok; [|discriminate].
    injection H as <- <-. repeat split.
Qed.

Lemma get_user_none id us : get_user id us = None <-> ~ In id (map u_id us).
Proof.
  unfold get_user. induction us as [|u us IH]; simpl; [tauto|].
  destruct (String.eqb_spec (u_id u) id) as [->|Hne].
  - split; [discriminate | tauto].
  - rewrite IH. tauto.
Qed.

Lemma get_user_app id us vs :
  get_user id (us ++ vs) =
  match get_user id us with Some u => Some u | None => get_user id vs end.
Proof.
  unfold get_user. induction us as [|u us IH]; simpl; [reflexivity|].
  destruct (String.eqb (u_id u) id); [reflexivity | exact IH].
Qed.

Lemma callback_user_row code token profile pages_data commit_ok sess d d' s' :
  callback code token profile pages_data commit_ok sess d =
    (d', s', Redirect "/pages") ->
  exists u, s' = Some (u_id u) /\ pr_id profile = Some (u_id u) /\
            get_user (u_id u) (users d') = Some u.
Proof.
  intros H.
  destruct (callback_success _ _ _ _ _ _ _ _ _ H) as (id & Hid & Hs & _ & Hu).
  destruct (get_user id (users d)) as [u|] eqn:Hg.
  - assert (Huid : u_id u = id).
    { unfold get_user in Hg. apply find_some in Hg. now apply String.eqb_eq. }
    exists u. rewrite Huid, Hu. auto.
  - exists (mkUser id (pr_name profile) (pr_email profile)). simpl.
    rewrite Hu, get_user_app, Hg. unfold get_user. simpl.
    rewrite String.eqb_refl. auto.
Qed.

(** X20: a successful [callback] logs the Facebook user in and creates
    the user row only once.  The session holds the profile's id and a
    user row with that id exists afterwards.  When the row already
    existed the users table is left exactly as it was: the name and email
    of the new profile are not stored.  Otherwise one row with the
    profile's id, name and email is added at the end.  User ids that were
    pairwise distinct stay so. *)
Theorem callback_registers_user_once :
  forall (code : option string) (token : TokenResponse)
         (profile : ProfileResponse) (pages_data : list PageJson)
         (commit_ok : bool) (sess s' : option string) (d d' : Db),
    callback code token profile pages_data commit_ok sess d =
      (d', s', Redirect "/pages") ->
    exists id,
      pr_id profile = Some id /\ s' = Some id /\
      (exists u, get_user id (users d') = Some u /\ u_id u = id) /\
      (forall u, get_user id (users d) = Some u -> users d' = users d) /\
      (get_user id (users d) = None ->
         users d' = users d ++ [mkUser id (pr_name profile) (pr_email profile)]) /\
      (NoDup (user_ids d) -> NoDup (user_ids d')).
Proof.
  intros code token profile pages_data commit_ok sess s' d d' H.
  destruct (callback_success _ _ _ _ _ _ _ _ _ H) as (id & Hid & Hs & _ & Hu).
  exists id. split; [exact Hid|]. split; [exact Hs|].
  destruct (get_user id (users d)) as [u|] eqn:Hg.
  - split.
    { exists u. rewrite Hu. split; [exact Hg|].
      unfold get_user in Hg. apply find_some in Hg. now apply String.eqb_eq. }
    split; [intros; exact Hu|]. split; [discriminate|].
    unfold user_ids. now rewrite Hu.
  - split.
    { exists (mkUser id (pr_name profile) (pr_email profile)).
      rewrite Hu, get_user_app, Hg. unfold get_user. simpl.
      now rewrite String.eqb_refl. }
    split; [discriminate|]. split; [intros; exact Hu|].
    intros Hnd. unfold user_ids. rewrite Hu, map_app. simpl.
    apply NoDup_app; [exact Hnd | repeat constructor; simpl; tauto|].
    intros x Hx [<-|[]]. apply get_user_none in Hg. contradiction.
Qed.

Lemma callback_registers_user_once_witness :
  let d := mkDb [mkUser "42" (Some "Old Name") None] [] in
  let profile := mkProfile 200 (Some "42") (Some "New Name") (Some "n@example.org") in
  let res := callback (Some "abc") (mkToken 200 (Some "tok")) profile [] true None d in
  res = (d, Some "42", Redirect "/pages") /\
  users (fst (fst res)) = [mkUser "42" (Some "Old Name") None].
Proof.
  intros d profile res.
  assert (H : res = (d, Some "42", Redirect "/pages")) by reflexivity.
  split; [exact H|].
  destruct (callback_registers_user_once _ _ _ _ _ _ _ _ _ H)
    as (id & Hid & _ & _ & Hsame & _).
  injection Hid as <-. exact (Hsame (mkUser "42" (Some "Old Name") None) eq_refl).
Defined.

(** X21: a successful [callback] upserts the pages and never removes or
    hands over one.  Every page stored before is still stored, with the
    same name and the same owner (a page first stored for one user stays
    with that user when another user's login lists it); every page of the
    accounts answer is stored afterwards; a page that was not stored
    before comes from the accounts answer and is owned by the user who
    logs in; a page that is not in the answer is left exactly as it was;
    page ids that were pairwise distinct stay so, also when the answer
    lists an id twice. *)
Theorem callback_upserts_pages :
  forall (code : option string) (token : TokenResponse)
         (profile : ProfileResponse) (pages_data : list PageJson)
         (commit_ok : bool) (sess s' : option string) (d d' : Db),
    callback code token profile pages_data commit_ok sess d =
      (d', s', Redirect "/pages") ->
    (forall k p, get_page k (pages d) = Some p ->
       exists p', get_page k (pages d') = Some p' /\
                  p_name p' = p_name p /\ p_user_id p' = p_user_id p) /\
    (forall pj, In pj pages_data ->
       exists id p', pj_id pj = Some id /\ get_page id (pages d') = Some p') /\
    (forall k p', get_page k (pages d') = Some p' ->
       get_page k (pages d) = None ->
       In (Some k) (map pj_id pages_data) /\ p_user_id p' = s') /\
    (forall k, ~ In (Some k) (map pj_id pages_data) ->
       get_page k (pages d') = get_page k (pages d)) /\
    (NoDup (page_ids d) -> NoDup (page_ids d')).
Proof.
  intros code token profile pages_data commit_ok sess s' d d' H.
  destruct (callback_success _ _ _ _ _ _ _ _ _ H) as (id & _ & -> & Hp & _).
  destruct (process_pages_step _ _ _ _ Hp) as [[Hnd Hkept Hnew _] Hall].
  split; [exact Hkept|]. split; [exact Hall|]. split; [exact Hnew|].
  split; [|exact Hnd].
  intros k Hk. exact (process_pages_other _ _ _ _ _ Hp Hk).
Qed.

Lemma callback_upserts_pages_witness :
  let d := mkDb [mkUser "1" (Some "Ann") None]
                [mkPage "p1" (Some "Shop") (Some "old") (Some "x") (Some "1")] in
  let profile := mkProfile 200 (Some "2") (Some "Ben") None in
  let pj := mkPageJson (Some "p1") (Some "Renamed") (Some "new")
                       [mkPermission "ADVERTISE" "granted"] in
  let res := callback (Some "abc") (mkToken 200 (Some "tok")) profile
                      [pj; pj] true None d in
  snd res = Redirect "/pages" /\
  pages (fst (fst res)) =
    [mkPage "p1" (Some "Shop") (Some "new") (Some "ADVERTISE") (Some "1")] /\
  exists p', get_page "p1" (pages (fst (fst res))) = Some p' /\
             p_name p' = Some "Shop" /\ p_user_id p' = Some "1".
Proof.
  intros d profile pj res. split; [reflexivity|]. split; [reflexivity|].
  assert (H : res = (fst (fst res), snd (fst res), Redirect "/pages"))
    by reflexivity.
  exact (proj1 (callback_upserts_pages _ _ _ _ _ _ _ _ _ H) "p1"
           (mkPage "p1" (Some "Shop") (Some "old") (Some "x") (Some "1")) eq_refl).
Defined.

Lemma pages_out_some ps :
  Forall (fun p => p_permissions p <> None) ps ->
  exists os, pages_out ps = Some os /\ map po_id os = map p_id ps.
Proof.
  induction 1 as [|p ps Hp Hps (os & Hos & Hids)]; simpl.
  - exists []. split; reflexivity.
  - unfold page_out. destruct (p_permissions p) as [perms|]; [|congruence].
    rewrite Hos. eexists. split; [reflexivity|]. simpl. now rewrite Hids.
Qed.

Lemma pages_out_in ps :
  forall os p o,
    pages_out ps = Some os -> In p ps -> page_out p = Some o -> In o os.
Proof.
  induction ps as [|q ps IH]; intros os p o; simpl; [tauto|].
  destruct (page_out q) as [oq|] eqn:Hq; [|discriminate].
  destruct (pages_out ps) as [os'|]; [|discriminate].
  intros [= <-] [->|Hin] Ho.
  - left. congruence.
  - right. now apply (IH os' p o).
Qed.

(** X22: after a successful [callback], the pages endpoints serve the
    user who logged in.  Provided the stored pages all had a permissions
    string, [api_pages] answers with the JSON of that user (it does not
    fail) listing exactly the pages owned by the user, and [list_pages]
    renders the same pages; a page of the accounts answer that was not
    stored before is listed with its name, its token and its granted
    permissions split at commas, when the answer lists each page id
    once.  Without a session, [api_pages] answers 401 and [list_pages]
    redirects to the home page. *)
Theorem pages_endpoints_after_callback :
  forall (code : option string) (token : TokenResponse)
         (profile : ProfileResponse) (pages_data : list PageJson)
         (commit_ok : bool) (sess s' : option string) (d d' : Db),
    callback code token profile pages_data commit_ok sess d =
      (d', s', Redirect "/pages") ->
    Forall (fun p => p_permissions p <> None) (pages d) ->
    api_pages None d' = Status401 "Not authenticated" /\
    list_pages None d' = Redirect "/" /\
    exists u os,
      s' = Some (u_id u) /\
      pr_id profile = Some (u_id u) /\
      let owned := filter (fun p => match p_user_id p with
                                    | Some o => String.eqb o (u_id u)
                                    | None => false
                                    end) (pages d') in
      api_pages s' d' = Json (u_id u) (u_name u) os /\
      list_pages s' d' = RenderPages u owned /\
      map po_id os = map p_id owned /\
      (NoDup (map pj_id pages_data) ->
       forall pj k,
         In pj pages_data -> pj_id pj = Some k ->
         get_page k (pages d) = None ->
         In (mkPageOut k (pj_name pj) (pj_access_token pj)
                       (py_split (py_join (granted (pj_permissions pj))))) os).
Proof.
  intros code token profile pages_data commit_ok sess s' d d' H Hperms.
  split; [reflexivity|]. split; [reflexivity|].
  destruct (callback_user_row _ _ _ _ _ _ _ _ _ H) as (u & Hs & Hid & Hu).
  destruct (callback_success _ _ _ _ _ _ _ _ _ H) as (id' & Hid' & _ & Hp & _).
  assert (id' = u_id u) by congruence. subst id'.
  destruct (process_pages_step _ _ _ _ Hp) as [[_ _ _ Hf] _].
  specialize (Hf Hperms).
  set (owned := filter (fun p => match p_user_id p with
                                 | Some o => String.eqb o (u_id u)
                                 | None => false
                                 end) (pages d')).
  assert (Hfo : Forall (fun p => p_permissions p <> None) owned).
  { apply Forall_forall. intros p Hin. apply filter_In in Hin.
    rewrite Forall_forall in Hf. now apply Hf. }
  destruct (pages_out_some owned Hfo) as (os & Hos & Hids).
  exists u, os. split; [exact Hs|]. split; [exact Hid|].
  cbv zeta. fold owned.
  assert (Hapi : api_pages s' d' = Json (u_id u) (u_name u) os).
  { rewrite Hs. unfold api_pages. rewrite Hu. fold owned. now rewrite Hos. }
  split; [exact Hapi|]. split.
  { rewrite Hs. unfold list_pages. now rewrite Hu. }
  split; [exact Hids|].
  intros Hnd pj k Hin Hk Hnew.
  pose proof (process_pages_created _ _ _ _ _ _ Hp Hnd Hin Hk Hnew) as Hg.
  destruct (get_page_some _ _ _ Hg) as [_ Hinp].
  refine (pages_out_in owned os
            (mkPage k (pj_name pj) (pj_access_token pj)
                    (Some (py_join (granted (pj_permissions pj))))
                    (Some (u_id u))) _ Hos _ eq_refl).
  apply filter_In. split; [exact Hinp|]. simpl. apply String.eqb_refl.
Qed.

Lemma pages_endpoints_after_callback_witness :
  let d := mkDb [] [] in
  let profile := mkProfile 200 (Some "7") (Some "Ann") None in
  let pj := mkPageJson (Some "p1") (Some "Shop") (Some "tok1")
                       [mkPermission "ADVERTISE" "granted";
                        mkPermission "ANALYZE" "granted";
                        mkPermission "MODERATE" "declined"] in
  let res := callback (Some "abc") (mkToken 200 (Some "t")) profile [pj] true None d in
  snd res = Redirect "/pages" /\
  Forall (fun p => p_permissions p <> None) (pages d) /\
  api_pages (snd (fst res)) (fst (fst res)) =
    Json "7" (Some "Ann")
         [mkPageOut "p1" (Some "Shop") (Some "tok1") ["ADVERTISE"; "ANALYZE"]] /\
  api_pages None (fst (fst res)) = Status401 "Not authenticated".
Proof.
  intros d profile pj res.
  assert (H : res = (fst (fst res), snd (fst res), Redirect "/pages"))
    by reflexivity.
  assert (Hf : Forall (fun p => p_permissions p <> None) (pages d))
    by constructor.
  split; [reflexivity|]. split; [exact Hf|]. split; [reflexivity|].
  exact (proj1 (pages_endpoints_after_callback _ _ _ _ _ _ _ _ _ H Hf)).
Defined.

End FbFacts.
